(** * OTA demo web server: a shallow embedding of [main/web_server.c],
    [main/settings.c] and [main/wifi_ap.c]

    The handlers of the firmware-update web server are modelled as total
    functions over an explicit platform state.  Every call into ESP-IDF
    (partition layer, HTTP transport, NVS, FreeRTOS) is recorded in a trace
    of events or answered from a [world], so that a theorem quantified over
    worlds speaks about every behaviour of the environment.

    Logging ([ESP_LOGx]) and the partition-description queries whose result
    is only logged have no effect on control flow and are not modelled. *)

From Stdlib Require Import ZArith Lia Strings.Byte.
From stdpp Require Import base option list strings gmap.

Local Open Scope Z_scope.

(** ** Machine integers of the 32-bit target *)

Definition INT_MAX : Z := 2147483647.
Definition UINT_MAX : Z := 4294967295.
Definition SSIZE_MAX : Z := INT_MAX.

(** Conversion to [size_t] / [unsigned long] / [uint32_t]. *)
Definition to_size_t (z : Z) : Z := z mod 2 ^ 32.

(** Conversion to [int] / [long] / [ssize_t] (two's complement). *)
Definition to_int (z : Z) : Z := (z + 2 ^ 31) mod 2 ^ 32 - 2 ^ 31.

(** ** Characters *)

Definition byte_of_Z (z : Z) : byte :=
  default x00 (Byte.of_N (Z.to_N (z mod 256))).

Definition Z_of_byte (b : byte) : Z := Z.of_N (Byte.to_N b).

Definition in_range (lo hi c : byte) : bool :=
  (Z_of_byte lo <=? Z_of_byte c) && (Z_of_byte c <=? Z_of_byte hi).

(** [isxdigit] of <ctype.h>: '0'..'9', 'A'..'F', 'a'..'f'. *)
Definition isxdigit (c : byte) : bool :=
  in_range x30 x39 c || in_range x41 x46 c || in_range x61 x66 c.

Definition isdigit (c : byte) : bool := in_range x30 x39 c.

(** [isspace] of <ctype.h>: space, \t, \n, \v, \f, \r. *)
Definition isspace (c : byte) : bool :=
  Byte.eqb c x20 || in_range x09 x0d c.

Definition hex_digit_value (c : byte) : Z :=
  if in_range x30 x39 c then Z_of_byte c - 48
  else if in_range x41 x46 c then Z_of_byte c - 55
  else Z_of_byte c - 87.

(** [(char) strtol(hex, NULL, 16)] for the two hex digits [h1 h2]. *)
Definition strtol_hex2 (h1 h2 : byte) : byte :=
  byte_of_Z (16 * hex_digit_value h1 + hex_digit_value h2).

(** The characters of the C string stored at the start of an array. *)
Fixpoint c_str (mem : list byte) : list byte :=
  match mem with
  | [] => []
  | c :: rest => if Byte.eqb c x00 then [] else c :: c_str rest
  end.

(** ** [httpd_unescape_uri] *)

(** The loop of [httpd_unescape_uri].  [src] holds the characters from
    [src[si]] on (the end of the list stands for the terminating NUL); [di]
    is the destination index and [limit] is [dest_size - 1] as computed in
    [size_t].  The result lists the bytes stored at [dest[di]],
    [dest[di+1]], ... *)
Fixpoint unescape_from (src : list byte) (di limit : Z) : list byte :=
  match src with
  | [] => []
  | c :: rest =>
      if Byte.eqb c x00 then []
      else if negb (di <? limit) then []
      else if Byte.eqb c x25 (* '%' *) then
        match rest with
        | h1 :: h2 :: rest' =>
            if isxdigit h1 && isxdigit h2
            then strtol_hex2 h1 h2 :: unescape_from rest' (di + 1) limit
            else c :: unescape_from rest (di + 1) limit
        | _ => c :: unescape_from rest (di + 1) limit
        end
      else if Byte.eqb c x2b (* '+' *) then
        x20 :: unescape_from rest (di + 1) limit
      else c :: unescape_from rest (di + 1) limit
  end.

(** [httpd_unescape_uri dest src dest_size] returns the destination buffer
    after the call and the returned [ssize_t].  [dest] is the buffer content
    before the call; stores past its end would show as a longer list. *)
Definition httpd_unescape_uri (dest src : list byte) (dest_size : Z)
  : list byte * Z :=
  let written := unescape_from src 0 (to_size_t (dest_size - 1)) in
  let di := length written in
  (written ++ x00 :: drop (S di) dest, to_int (Z.of_nat di)).

(** ** The platform *)

Definition esp_err_t := Z.
Definition ESP_OK : esp_err_t := 0.
Definition ESP_FAIL : esp_err_t := -1.

Record esp_partition_t : Type := Partition {
  label : string;
  address : Z
}.

#[global] Instance esp_partition_eq_dec : EqDecision esp_partition_t.
Proof. solve_decision. Defined.

(** ** The settings store ([settings.c]) *)

(** The functions of [settings.c] that the serial number goes through, over
    an NVS library that may refuse each call. *)

Module Settings.

(** An entry of the NVS name space ["system"]. *)
Inductive nvs_entry : Type :=
| NvsBlob (data : list byte)
| NvsStr (s : list byte).

Abbreviation nvs_flash := (gmap string nvs_entry) (only parsing).

Inductive nvs_open_mode_t : Type := NVS_READONLY | NVS_READWRITE.

(** What the NVS library answers. *)
Record nvs_world : Type := NvsWorld {
  nvs_open_result : nvs_open_mode_t -> esp_err_t;
  nvs_set_result : esp_err_t;
  nvs_commit_result : esp_err_t
}.

Definition ESP_ERR_NVS_NOT_FOUND : esp_err_t := 0x1100 + 0x02.
Definition ESP_ERR_NVS_INVALID_LENGTH : esp_err_t := 0x1100 + 0x0c.

(** [nvs_get_blob] and [nvs_get_str] of ESP-IDF: the status, [out_value]
    and [*length] after the call.  An entry of the other type is not found;
    a buffer too short gets nothing but the size needed. *)
Definition nvs_get (is_string : bool) (fl : nvs_flash) (key : string)
    (out_value : list byte) (size : Z) : esp_err_t * list byte * Z :=
  let read (data : list byte) :=
    let data_size := Z.of_nat (length data) in
    if size <? data_size
    then (ESP_ERR_NVS_INVALID_LENGTH, out_value, data_size)
    else (ESP_OK, data ++ drop (length data) out_value, data_size) in
  match fl !! key, is_string with
  | Some (NvsBlob data), false => read data
  | Some (NvsStr s), true => read (s ++ [x00])
  | _, _ => (ESP_ERR_NVS_NOT_FOUND, out_value, size)
  end.

(** [nvs_set_blob] and [nvs_set_str]: the entry is written when the library
    reports success. *)
Definition nvs_set (w : nvs_world) (is_string : bool) (fl : nvs_flash)
    (key : string) (value : list byte) (size : Z) : esp_err_t * nvs_flash :=
  if nvs_set_result w =? ESP_OK then
    (ESP_OK,
     <[key := if is_string then NvsStr (c_str value)
              else NvsBlob (take (Z.to_nat size) value)]> fl)
  else (nvs_set_result w, fl).

(** [get_setting]: the status, [out_value] and [*size] after the call. *)
Definition get_setting (w : nvs_world) (fl : nvs_flash) (key : string)
    (out_value : list byte) (size : Z) (is_string : bool)
  : esp_err_t * list byte * Z :=
  let err := nvs_open_result w NVS_READONLY in
  if negb (err =? ESP_OK) then (err, out_value, size)
  else nvs_get is_string fl key out_value size.

Definition set_setting (w : nvs_world) (fl : nvs_flash) (key : string)
    (value : list byte) (size : Z) (is_string : bool) : esp_err_t * nvs_flash :=
  let err := nvs_open_result w NVS_READWRITE in
  if negb (err =? ESP_OK) then (err, fl)
  else
    let '(err, fl) := nvs_set w is_string fl key value size in
    let err := if err =? ESP_OK then nvs_commit_result w else err in
    (err, fl).

Definition DEFAULT_SERIAL_NUMBER : Z := 0.

(** The four bytes of a [uint32_t] in memory (little endian), and back. *)
Definition le_bytes (v : Z) : list byte :=
  [byte_of_Z v; byte_of_Z (v / 2 ^ 8); byte_of_Z (v / 2 ^ 16);
   byte_of_Z (v / 2 ^ 24)].

Fixpoint le_value (bs : list byte) : Z :=
  match bs with
  | [] => 0
  | b :: bs' => Z_of_byte b + 2 ^ 8 * le_value bs'
  end.

Definition get_serial_nbr (w : nvs_world) (fl : nvs_flash) : Z :=
  let serial_nbr := le_bytes DEFAULT_SERIAL_NUMBER in
  let '(_, serial_nbr, _) :=
    get_setting w fl "serial_nbr" serial_nbr 4 false in
  le_value serial_nbr.

(** The message printed when saving fails is not modelled. *)
Definition set_serial_nbr (w : nvs_world) (serial_nbr : Z) (fl : nvs_flash)
  : nvs_flash :=
  (set_setting w fl "serial_nbr" (le_bytes serial_nbr) 4 false).2.

End Settings.

(** ** The device *)

Definition esp_ota_handle_t := N.
Definition httpd_handle_t := N.

(** One constructor per external call that the handlers make; the arguments
    are the call's arguments and, where the caller can see one, its result. *)
Inductive event : Type :=
| EvTaskDelay (ms : Z)
| EvOtaBegin (p : esp_partition_t) (res : esp_err_t)
| EvReqRecv (buf_len : nat) (ret : Z)
| EvOtaWrite (h : esp_ota_handle_t) (data : list byte) (res : esp_err_t)
| EvOtaAbort (h : esp_ota_handle_t)
| EvOtaEnd (h : esp_ota_handle_t) (res : esp_err_t)
| EvSetBootPartition (p : esp_partition_t) (res : esp_err_t)
| EvRespSendstr (body : string)
| EvTaskCreate (name : string)
| EvHttpdStop (h : httpd_handle_t)
| EvWifiStop
| EvRestartNoos.

(** Device state that outlives a handler call, and the calls made so far. *)
Record machine : Type := Machine {
  boot_partition : esp_partition_t;              (* otadata: what boots next *)
  ota_entries : gmap esp_ota_handle_t esp_partition_t;   (* open OTA handles *)
  last_handle : esp_ota_handle_t;
  ota_writes : nat;                       (* esp_ota_write calls made so far *)
  server : option httpd_handle_t;         (* [static httpd_handle_t server] *)
  nvs : Settings.nvs_flash;               (* the NVS name space of the settings *)
  trace : list event
}.

Definition emit (e : event) (m : machine) : machine :=
  Machine (boot_partition m) (ota_entries m) (last_handle m) (ota_writes m)
          (server m) (nvs m) (trace m ++ [e]).

Definition set_boot (p : esp_partition_t) (m : machine) : machine :=
  Machine p (ota_entries m) (last_handle m) (ota_writes m)
          (server m) (nvs m) (trace m).

Definition set_entries (es : gmap esp_ota_handle_t esp_partition_t)
    (m : machine) : machine :=
  Machine (boot_partition m) es (last_handle m) (ota_writes m)
          (server m) (nvs m) (trace m).

Definition set_last_handle (h : esp_ota_handle_t) (m : machine) : machine :=
  Machine (boot_partition m) (ota_entries m) h (ota_writes m)
          (server m) (nvs m) (trace m).

Definition count_write (m : machine) : machine :=
  Machine (boot_partition m) (ota_entries m) (last_handle m) (S (ota_writes m))
          (server m) (nvs m) (trace m).

Definition set_server (s : option httpd_handle_t) (m : machine) : machine :=
  Machine (boot_partition m) (ota_entries m) (last_handle m) (ota_writes m)
          s (nvs m) (trace m).

Definition set_nvs (kv : Settings.nvs_flash) (m : machine) : machine :=
  Machine (boot_partition m) (ota_entries m) (last_handle m) (ota_writes m)
          (server m) kv (trace m).

(** What [httpd_req_recv] can answer without delivering data. *)
Inductive sock_err : Type :=
| SOCK_CLOSED               (* 0: the peer closed the connection *)
| HTTPD_SOCK_ERR_FAIL       (* -1 *)
| HTTPD_SOCK_ERR_INVALID    (* -2 *)
| HTTPD_SOCK_ERR_TIMEOUT.   (* -3 *)

Definition sock_err_code (e : sock_err) : Z :=
  match e with
  | SOCK_CLOSED => 0
  | HTTPD_SOCK_ERR_FAIL => -1
  | HTTPD_SOCK_ERR_INVALID => -2
  | HTTPD_SOCK_ERR_TIMEOUT => -3
  end.

Inductive recv_result : Type :=
| Received (chunk : list byte)
| RecvError (e : sock_err).

Record httpd_req_t : Type := Request {
  content_len : Z               (* [size_t content_len] *)
}.

(** The environment of one handler call: what each external call answers. *)
Record world : Type := World {
  running_partition : option esp_partition_t;
  next_update_partition : option esp_partition_t;
  ota_begin_result : esp_err_t;
  transport : list recv_result;      (* successive answers of httpd_req_recv;
                                        afterwards the connection is closed *)
  stack_garbage : list byte;         (* content of the uninitialised [buf] *)
  ota_write_result : nat -> esp_err_t;      (* answer of the k-th write *)
  ota_end_result : esp_err_t;
  set_boot_result : esp_err_t;
  malloc_fails : bool;
  nvs_answers : Settings.nvs_world
}.

(** *** External calls as state transformers *)

Definition vTaskDelay (ms : Z) (m : machine) : machine := emit (EvTaskDelay ms) m.

(** [esp_ota_begin]: on success a fresh handle is entered in the table. *)
Definition esp_ota_begin (w : world) (p : esp_partition_t) (m : machine)
  : esp_err_t * esp_ota_handle_t * machine :=
  let res := ota_begin_result w in
  let m := emit (EvOtaBegin p res) m in
  if res =? ESP_OK then
    let h := (last_handle m + 1)%N in
    (res, h, set_last_handle h (set_entries (<[h := p]> (ota_entries m)) m))
  else (res, 0%N, m).

Definition esp_ota_write (w : world) (h : esp_ota_handle_t) (data : list byte)
    (m : machine) : esp_err_t * machine :=
  let res := ota_write_result w (ota_writes m) in
  (res, count_write (emit (EvOtaWrite h data res) m)).

(** [esp_ota_abort] releases the handle. *)
Definition esp_ota_abort (h : esp_ota_handle_t) (m : machine) : machine :=
  set_entries (delete h (ota_entries m)) (emit (EvOtaAbort h) m).

(** [esp_ota_end] releases the handle whatever it returns.  Its answer is
    the environment's; for a handle to which nothing was written ESP-IDF
    answers [ESP_ERR_INVALID_ARG]. *)
Definition esp_ota_end (w : world) (h : esp_ota_handle_t) (m : machine)
  : esp_err_t * machine :=
  let res := ota_end_result w in
  (res, set_entries (delete h (ota_entries m)) (emit (EvOtaEnd h res) m)).

(** [esp_ota_set_boot_partition]: otadata is rewritten only on success. *)
Definition esp_ota_set_boot_partition (w : world) (p : esp_partition_t)
    (m : machine) : esp_err_t * machine :=
  let res := set_boot_result w in
  let m := emit (EvSetBootPartition p res) m in
  (res, if res =? ESP_OK then set_boot p m else m).

Definition httpd_resp_sendstr (body : string) (m : machine) : machine :=
  emit (EvRespSendstr body) m.

Definition xTaskCreate (name : string) (m : machine) : machine :=
  emit (EvTaskCreate name) m.

Definition httpd_stop (h : httpd_handle_t) (m : machine) : machine :=
  emit (EvHttpdStop h) m.

Definition esp_wifi_stop (m : machine) : machine := emit EvWifiStop m.

Definition esp_restart_noos (m : machine) : machine := emit EvRestartNoos m.

(** [httpd_req_recv(req, buf, buf_len)] of ESP-IDF's esp_http_server.
    [remaining_len] is the count of body bytes not yet read that the server
    keeps with the request ([req->aux->remaining_len], [content_len] when
    the handler is entered): [buf_len] is cut to it, and with nothing left
    the call returns 0 without reading.  Otherwise at most [buf_len] bytes
    are copied to the start of [buf]; the rest of [buf] keeps its content.
    Returns the value returned by the call, the buffer, the new
    [remaining_len], and the machine. *)
Definition httpd_req_recv (r : option recv_result) (remaining_len : Z)
    (buf : list byte) (buf_len : nat) (m : machine)
  : Z * list byte * Z * machine :=
  let n := Z.to_nat (Z.min (Z.of_nat buf_len) remaining_len) in
  let '(ret, buf') :=
    if (n =? 0)%nat then (0, buf)
    else
      match r with
      | Some (Received chunk) =>
          let c := take n chunk in
          (Z.of_nat (length c), c ++ drop (length c) buf)
      | Some (RecvError e) => (sock_err_code e, buf)
      | None => (0, buf)
      end in
  (ret, buf', if ret <? 0 then remaining_len else remaining_len - ret,
   emit (EvReqRecv buf_len ret) m).

(** ** [reboot_task] *)

Definition reboot_task (m : machine) : machine :=
  let m := vTaskDelay 500 m in
  let m := match server m with
           | Some h => set_server None (httpd_stop h m)
           | None => m
           end in
  let m := esp_wifi_stop m in
  let m := vTaskDelay 500 m in
  esp_restart_noos m.

(** ** [upload_post_handler] *)

(** [strstr] on a character array that may lack a terminating NUL: the scan
    stops at the first match or at the first NUL; if it reaches the end of
    the array first, it reads past it. *)
Inductive strstr_result : Type :=
| Found (off : nat)
| NotFound
| OutOfBounds.

Fixpoint is_prefix (needle s : list byte) : bool :=
  match needle, s with
  | [], _ => true
  | _ :: _, [] => false
  | a :: needle', b :: s' => Byte.eqb a b && is_prefix needle' s'
  end.

Fixpoint strstr (haystack needle : list byte) : strstr_result :=
  if is_prefix needle haystack then Found 0
  else match haystack with
       | [] => OutOfBounds
       | c :: rest =>
           if Byte.eqb c x00 then NotFound
           else match strstr rest needle with
                | Found off => Found (S off)
                | r => r
                end
       end.

(** The literal "\r\n\r\n". *)
Definition CRLFCRLF : list byte := [x0d; x0a; x0d; x0a].

(** What a C function did: it returned, or it left defined behaviour. *)
Inductive outcome : Type :=
| Returned (e : esp_err_t)
| Undefined.

#[global] Instance outcome_eq_dec : EqDecision outcome.
Proof. solve_decision. Defined.

(** The locals of [upload_post_handler] that are live in the receive loop,
    and with them the request's [remaining_len], which [httpd_req_recv]
    keeps. *)
Record upload_locals : Type := Locals {
  ota_handle : esp_ota_handle_t;
  total_len : Z;
  received : Z;
  first_chunk : bool;
  buf : list byte;
  remaining_len : Z
}.

Definition set_buf (b : list byte) (l : upload_locals) : upload_locals :=
  Locals (ota_handle l) (total_len l) (received l) (first_chunk l) b
         (remaining_len l).

Definition set_first_chunk (f : bool) (l : upload_locals) : upload_locals :=
  Locals (ota_handle l) (total_len l) (received l) f (buf l) (remaining_len l).

Definition set_received (n : Z) (l : upload_locals) : upload_locals :=
  Locals (ota_handle l) (total_len l) n (first_chunk l) (buf l)
         (remaining_len l).

Definition set_remaining_len (n : Z) (l : upload_locals) : upload_locals :=
  Locals (ota_handle l) (total_len l) (received l) (first_chunk l) (buf l) n.

(** One pass through a piece of the loop body either falls through to the
    next statement or leaves the handler. *)
Inductive step_result : Type :=
| Continue (l : upload_locals) (m : machine)
| Stop (o : outcome) (m : machine).

(** Lines 311-328: the first chunk carries the multipart header. *)
Definition first_chunk_branch (w : world) (bytes_read : Z)
    (l : upload_locals) (m : machine) : step_result :=
  let l := set_first_chunk false l in
  match strstr (buf l) CRLFCRLF with
  | OutOfBounds => Stop Undefined m
  | NotFound => Stop (Returned ESP_FAIL) (esp_ota_abort (ota_handle l) m)
  | Found off =>
      let firmware_start := (off + 4)%nat in
      let firmware_data_len := bytes_read - Z.of_nat firmware_start in
      if 0 <? firmware_data_len then
        let '(res, m) :=
          esp_ota_write w (ota_handle l)
            (take (Z.to_nat firmware_data_len) (drop firmware_start (buf l))) m in
        if negb (res =? ESP_OK)
        then Stop (Returned ESP_FAIL) (esp_ota_abort (ota_handle l) m)
        else Continue l m
      else Continue l m
  end.

(** Lines 331-337: the body of [if (bytes_read == 0)] in the else branch. *)
Definition zero_read_branch (w : world) (bytes_read : Z)
    (l : upload_locals) (m : machine) : step_result :=
  let '(res, m) :=
    esp_ota_write w (ota_handle l) (take (Z.to_nat bytes_read) (buf l)) m in
  if negb (res =? ESP_OK)
  then Stop (Returned ESP_FAIL) (esp_ota_abort (ota_handle l) m)
  else Stop (Returned ESP_FAIL) (esp_ota_abort (ota_handle l) m).

Section ReceiveLoop.

(** The code run when the else branch finds [bytes_read == 0]; the handler
    is [upload_post_handler_with zero_read_branch]. *)
Variable on_zero_read : world -> Z -> upload_locals -> machine -> step_result.

Variable w : world.

(** Lines 329-340: every later chunk is payload.  The result of the
    write at line 339 is discarded. *)
Definition later_chunk_branch (bytes_read : Z)
    (l : upload_locals) (m : machine) : step_result :=
  if bytes_read =? 0 then on_zero_read w bytes_read l m
  else
    let '(_, m) :=
      esp_ota_write w (ota_handle l) (take (Z.to_nat bytes_read) (buf l)) m in
    Continue l m.

(** Lines 304-342: one iteration; [r] is what the transport answers. *)
Definition loop_body (r : option recv_result)
    (l : upload_locals) (m : machine) : step_result :=
  let '(bytes_read, buf', remaining, m) :=
    httpd_req_recv r (remaining_len l) (buf l) 1024 m in
  let l := set_remaining_len remaining (set_buf buf' l) in
  if bytes_read <=? 0
  then Stop (Returned ESP_FAIL) (esp_ota_abort (ota_handle l) m)
  else
    match (if first_chunk l
           then first_chunk_branch w bytes_read l m
           else later_chunk_branch bytes_read l m) with
    | Stop o m => Stop o m
    | Continue l m =>
        Continue (set_received (to_int (received l + bytes_read)) l) m
    end.

(** Lines 303-343: [while (received < total_len)].  Besides how the loop
    ends, the value of [received] after each completed iteration is
    returned.  An exhausted transport answers 0, which leaves the handler,
    so the [[]] case of the inner match is never taken. *)
Fixpoint upload_loop (script : list recv_result)
    (l : upload_locals) (m : machine) : list Z * step_result :=
  if received l <? total_len l then
    match loop_body (head script) l m with
    | Stop o m' => ([], Stop o m')
    | Continue l' m' =>
        match script with
        | [] => ([received l'], Continue l' m')
        | _ :: script' =>
            let '(hist, r) := upload_loop script' l' m' in
            (received l' :: hist, r)
        end
    end
  else ([], Continue l m).

(** Lines 345-390: size check, finalisation, boot switch, reboot. *)
Definition upload_finish (req : httpd_req_t) (update_partition : esp_partition_t)
    (l : upload_locals) (m : machine) : outcome * machine :=
  if negb (to_size_t (received l) =? to_size_t (content_len req))
  then (Returned ESP_FAIL, esp_ota_abort (ota_handle l) m)
  else
    let '(err, m) := esp_ota_end w (ota_handle l) m in
    if negb (err =? ESP_OK) then (Returned ESP_FAIL, m)
    else
      let '(err, m) := esp_ota_set_boot_partition w update_partition m in
      if negb (err =? ESP_OK) then (Returned ESP_FAIL, m)
      else
        let m := httpd_resp_sendstr "Upload successful! Rebooting..." m in
        let m := xTaskCreate "reboot_task" m in
        (Returned ESP_OK, m).

Definition initial_locals (req : httpd_req_t) (h : esp_ota_handle_t)
  : upload_locals :=
  Locals h (to_int (content_len req)) 0 true
         (resize 1024 x00 (stack_garbage w)) (content_len req).

(** Once the loop has ended: leave with its result, or run lines 345-390. *)
Definition after_loop (req : httpd_req_t) (update_partition : esp_partition_t)
    (res : list Z * step_result) : list Z * (outcome * machine) :=
  match res with
  | (hist, Stop o m) => (hist, (o, m))
  | (hist, Continue l m) => (hist, upload_finish req update_partition l m)
  end.

(** The handler, returning besides its result the values of [received]
    after each completed iteration of the receive loop. *)
Definition upload_run (req : option httpd_req_t) (m : machine)
  : list Z * (outcome * machine) :=
  match req with
  | None => ([], (Returned ESP_FAIL, m))
  | Some req =>
      let m := vTaskDelay 1000 m in
      match running_partition w, next_update_partition w with
      | Some _, Some update_partition =>
          let '(err, h, m) := esp_ota_begin w update_partition m in
          if negb (err =? ESP_OK) then ([], (Returned ESP_FAIL, m))
          else
            after_loop req update_partition
              (upload_loop (transport w) (initial_locals req h) m)
      | _, _ => ([], (Returned ESP_FAIL, m))
      end
  end.

Definition upload_post_handler_with (req : option httpd_req_t) (m : machine)
  : outcome * machine :=
  (upload_run req m).2.

Definition received_history (req : option httpd_req_t) (m : machine) : list Z :=
  (upload_run req m).1.

End ReceiveLoop.

Definition upload_post_handler : world -> option httpd_req_t -> machine
                                 -> outcome * machine :=
  upload_post_handler_with zero_read_branch.

(** ** The settings pages *)

(** *** C library and HTTP server helpers *)

(** [strchr(s, c) - s], if [c] occurs in the string [s]. *)
Fixpoint strchr (s : list byte) (c : byte) : option nat :=
  match s with
  | [] => None
  | b :: rest => if Byte.eqb b c then Some 0%nat else S <$> strchr rest c
  end.

Definition tolower (c : byte) : byte :=
  if in_range x41 x5a c then byte_of_Z (Z_of_byte c + 32) else c.

(** [strncasecmp(a, b, n) == 0] for two strings of [n] characters. *)
Fixpoint strncasecmp_eq (a b : list byte) : bool :=
  match a, b with
  | [], [] => true
  | x :: a', y :: b' => Byte.eqb (tolower x) (tolower y) && strncasecmp_eq a' b'
  | _, _ => false
  end.

Definition ESP_ERR_NOT_FOUND : esp_err_t := 0x105.
Definition ESP_ERR_HTTPD_RESULT_TRUNC : esp_err_t := 0xb000 + 4.

(** [httpd_query_key_value] of ESP-IDF's esp_http_server, which the
    repository calls but does not contain.  [qry] is the query string from
    the current position on; the result is the status and the string left in
    [val].  Each round skips at least one character, so [fuel = length qry]
    rounds are enough. *)
Fixpoint query_key_value_loop (fuel : nat) (qry key : list byte)
    (buf_len : nat) : esp_err_t * list byte :=
  match fuel with
  | O => (ESP_ERR_NOT_FOUND, [])
  | S fuel' =>
      match qry with
      | [] => (ESP_ERR_NOT_FOUND, [])
      | _ :: _ =>
          match strchr qry x3d (* '=' *) with
          | None => (ESP_ERR_NOT_FOUND, [])
          | Some offset =>
              if negb (offset =? length key)%nat
                 || negb (strncasecmp_eq (take offset qry) key)
              then
                match strchr (drop offset qry) x26 (* '&' *) with
                | None => (ESP_ERR_NOT_FOUND, [])
                | Some next =>
                    query_key_value_loop fuel' (drop (offset + next + 1) qry)
                                         key buf_len
                end
              else
                let val_ptr := drop (S offset) qry in
                let val_end := default (length val_ptr) (strchr val_ptr x26) in
                let val_size := S val_end in
                (* strlcpy(val, val_ptr, MIN(val_size, buf_len)) *)
                let val := take (Nat.min val_size buf_len - 1) val_ptr in
                if (buf_len <? val_size)%nat
                then (ESP_ERR_HTTPD_RESULT_TRUNC, val)
                else (ESP_OK, val)
          end
      end
  end.

Definition httpd_query_key_value (qry_str key : list byte) (val_size : nat)
  : esp_err_t * list byte :=
  query_key_value_loop (length qry_str) qry_str key val_size.

Definition LONG_MAX : Z := 2147483647.
Definition LONG_MIN : Z := -2147483648.

Fixpoint skip_spaces (s : list byte) : list byte :=
  match s with
  | [] => []
  | c :: rest => if isspace c then skip_spaces rest else s
  end.

(** The digits at the start of [s], read in base 10 onto [acc]. *)
Fixpoint strtol_digits (s : list byte) (acc : Z) : Z :=
  match s with
  | [] => acc
  | c :: rest =>
      if isdigit c then strtol_digits rest (10 * acc + (Z_of_byte c - 48))
      else acc
  end.

(** [atol] as newlib has it, [strtol(s, NULL, 10)]: white space, an optional
    sign, digits; a value outside [long] is clamped to [LONG_MIN] or
    [LONG_MAX]. *)
Definition atol (s : list byte) : Z :=
  let s := skip_spaces s in
  let '(neg, digits) :=
    match s with
    | c :: rest =>
        if Byte.eqb c x2d (* '-' *) then (true, rest)
        else if Byte.eqb c x2b (* '+' *) then (false, rest)
        else (false, s)
    | [] => (false, s)
    end in
  let magnitude := strtol_digits digits 0 in
  let value := if neg : bool then - magnitude else magnitude in
  Z.max LONG_MIN (Z.min LONG_MAX value).

Definition digit_char (d : Z) : byte :=
  match d with
  | 0 => x30 | 1 => x31 | 2 => x32 | 3 => x33 | 4 => x34
  | 5 => x35 | 6 => x36 | 7 => x37 | 8 => x38 | _ => x39
  end.

(** Decimal digits of [n >= 0], most significant first, in front of [acc]. *)
Fixpoint decimal_digits (fuel : nat) (n : Z) (acc : list byte) : list byte :=
  match fuel with
  | O => acc
  | S fuel' =>
      let acc' := digit_char (n mod 10) :: acc in
      if n / 10 =? 0 then acc' else decimal_digits fuel' (n / 10) acc'
  end.

(** The decimal numeral of an integer: what printf's [%ld] produces. *)
Definition decimal (v : Z) : list byte :=
  let n := Z.abs v in
  let digits := decimal_digits (S (Z.to_nat (Z.log2 n))) n [] in
  if v <? 0 then x2d :: digits else digits.

(** *** [settings_get_handler] *)

Definition double_quote : string := String (Ascii.ascii_of_nat 34) EmptyString.

Definition settings_html_1 : string :=
  "<html><head>" +:+
  "<meta name='viewport' content='width=device-width, initial-scale=1.0'>" +:+
  "<style>" +:+
  "body { font-family: Arial, sans-serif; margin: 0; padding: 20px; font-size: 1em; }" +:+
  "h1 { font-size: 1.5em; margin-bottom: 20px; }" +:+
  "form { display: flex; flex-direction: column; gap: 10px; }" +:+
  "label { font-size: 1em; margin-bottom: 5px; }" +:+
  "input { font-size: 1em; padding: 10px; border: 1px solid #ccc; border-radius: 5px; }" +:+
  "input[type='submit'], input[type='button'] { font-size: 1em; padding: 10px; margin-top: 10px; }" +:+
  "</style>" +:+
  "</head><body>" +:+
  "<h1>OTA Demo System Settings</h1>" +:+
  "<form method='POST' action='/settings' id='settings_form'>" +:+
  "<label for='serial'>Serial Number:</label> <input id='serial' type='number' name='serial' value='".

Definition settings_html_2 : string :=
  "' oninput='checkChanges()'><br><br>" +:+
  "Some settings require a reboot to take effect.<br>" +:+
  "Please save your changes before rebooting.<br><br>" +:+
  "<input type='submit' value='Save' id='save_button' disabled>" +:+
  "&nbsp;&nbsp;&nbsp;" +:+
  "<input type='button' value='Reboot' onclick='location.href=" +:+
  double_quote +:+ "/reboot" +:+ double_quote +:+ "'>" +:+
  "</form>" +:+
  "<script>" +:+
  "const originalValues = {" +:+
  "  serial: '".

Definition settings_html_3 : string :=
  "'" +:+
  "};" +:+
  "function checkChanges() {" +:+
  "  const form = document.getElementById('settings_form');" +:+
  "  const saveButton = document.getElementById('save_button');" +:+
  "  let changed = false;" +:+
  "  for (const [key, value] of Object.entries(originalValues)) {" +:+
  "    const input = form.elements[key];" +:+
  "    if (input && input.value != value) {" +:+
  "      changed = true;" +:+
  "      break;" +:+
  "    }" +:+
  "  }" +:+
  "  saveButton.disabled = !changed;" +:+
  "}" +:+
  "</script>" +:+
  "</body></html>".

(** The page with [text] in place of both [%ld] conversions. *)
Definition settings_page (text : list byte) : list byte :=
  String.list_byte_of_string settings_html_1 ++ text ++
  String.list_byte_of_string settings_html_2 ++ text ++
  String.list_byte_of_string settings_html_3.

(** [get_serial_nbr()] on the device's NVS. *)
Definition get_serial_nbr (w : world) (m : machine) : Z :=
  Settings.get_serial_nbr (nvs_answers w) (nvs m).

(** [set_serial_nbr(serial)] on the device's NVS. *)
Definition set_serial_nbr (w : world) (serial : Z) (m : machine) : machine :=
  set_nvs (Settings.set_serial_nbr (nvs_answers w) serial (nvs m)) m.

(** [snprintf(html, 4096, ..., serial, serial)]: the [uint32_t] is read back
    by [%ld] as a [long]; at most 4095 characters are stored. *)
Definition settings_get_handler (w : world) (m : machine) : outcome * machine :=
  let serial := get_serial_nbr w m in
  if malloc_fails w then
    (Returned ESP_FAIL,
     httpd_resp_sendstr
       "<html><body><h1>Error</h1><p>Not enough memory to process the request.</p></body></html>"
       m)
  else
    let html := take 4095 (settings_page (decimal (to_int serial))) in
    (Returned ESP_OK, httpd_resp_sendstr (String.string_of_list_byte html) m).

(** *** [settings_post_handler] *)

Definition settings_saved_html : string :=
  "<html>" +:+
  "<head>" +:+
  "<meta name='viewport' content='width=device-width, initial-scale=1.0'>" +:+
  "<style>" +:+
  "body { font-family: Arial, sans-serif; margin: 0; padding: 20px; font-size: 1em; text-align: center; }" +:+
  "h1 { font-size: 1.5em; margin-bottom: 20px; }" +:+
  "a { font-size: 1em; color: #007BFF; text-decoration: none; }" +:+
  "a:hover { text-decoration: underline; }" +:+
  "</style>" +:+
  "</head>" +:+
  "<body>" +:+
  "<h1>Settings Saved</h1>" +:+
  "<a href='/settings'>Return to Settings</a>" +:+
  "</body>" +:+
  "</html>".

Definition settings_post_handler (w : world) (req : httpd_req_t) (m : machine)
  : outcome * machine :=
  let '(ret, buf, _, m) :=
    httpd_req_recv (head (transport w)) (content_len req)
                   (resize 512 x00 (stack_garbage w)) 511 m in
  if ret <=? 0 then (Returned ESP_FAIL, m)
  else
    let buf := <[Z.to_nat ret := x00]> buf in
    let '(err, value) :=
      httpd_query_key_value (c_str buf) (String.list_byte_of_string "serial") 64 in
    let m :=
      if err =? ESP_OK then
        let serial := to_size_t (atol value) in
        set_serial_nbr w serial m
      else m in
    (Returned ESP_OK, httpd_resp_sendstr settings_saved_html m).

(** * Specifications *)

(** ** Sample devices and environments *)

Definition ota_0 : esp_partition_t := Partition "ota_0" 0x20000.
Definition ota_1 : esp_partition_t := Partition "ota_1" 0x1a0000.

Definition idle : machine :=
  Machine ota_0 ∅ 0%N 0%nat (Some 1%N) ∅ [].

(** A machine whose listener has already been stopped. *)
Definition listener_down : machine :=
  Machine ota_0 ∅ 0%N 0%nat None ∅ [].

(** A healthy NVS library. *)
Definition nvs_healthy (w : Settings.nvs_world) : Prop :=
  (forall mode, Settings.nvs_open_result w mode = ESP_OK) /\
  Settings.nvs_set_result w = ESP_OK /\ Settings.nvs_commit_result w = ESP_OK.

Definition healthy_nvs : Settings.nvs_world :=
  Settings.NvsWorld (fun _ => ESP_OK) ESP_OK ESP_OK.

(** The name space before the first write: opening it read-only fails. *)
Definition fresh_nvs : Settings.nvs_world :=
  Settings.NvsWorld
    (fun mode => match mode with
                 | Settings.NVS_READONLY => Settings.ESP_ERR_NVS_NOT_FOUND
                 | Settings.NVS_READWRITE => ESP_OK
                 end)
    ESP_OK ESP_OK.

(** "h\r\n\r\n" followed by payload bytes. *)
Definition header_chunk (payload : list byte) : list byte :=
  [x68; x0d; x0a; x0d; x0a] ++ payload.

Definition good_world (script : list recv_result) : world :=
  World (Some ota_0) (Some ota_1) ESP_OK script [] (fun _ => ESP_OK)
        ESP_OK ESP_OK false healthy_nvs.

(** A complete two-chunk upload of 10 bytes, and one cut short by the peer. *)
Definition complete_upload : world :=
  good_world [Received (header_chunk [x01; x02]); Received [x03; x04; x05]].

Definition truncated_upload : world :=
  good_world [Received (header_chunk [x01; x02])].

(** A peer that sends 10 bytes where 6 were declared. *)
Definition overlong_upload : world :=
  good_world [Received (header_chunk [x01; x02; x03; x04; x05])].

(** An upload whose first chunk is "abc". *)
Definition headerless_upload : world := good_world [Received [x61; x62; x63]].

(** The same upload, when the bytes that were on the stack behind the three
    received ones happen to be "\r\n\r\n". *)
Definition stale_boundary : world :=
  World (Some ota_0) (Some ota_1) ESP_OK [Received [x61; x62; x63]]
        [x00; x00; x00; x0d; x0a; x0d; x0a] (fun _ => ESP_OK)
        ESP_OK ESP_OK false healthy_nvs.

Definition ESP_ERR_OTA_VALIDATE_FAILED : esp_err_t := 0x1500 + 3.
Definition ESP_ERR_FLASH_OP_FAIL : esp_err_t := 0x6000 + 1.
Definition ESP_ERR_NO_MEM : esp_err_t := 0x101.
Definition ESP_ERR_INVALID_ARG : esp_err_t := 0x102.

(** The complete upload of [complete_upload], with a failing layer. *)
Definition begin_fails : world :=
  World (Some ota_0) (Some ota_1) ESP_ERR_NO_MEM (transport complete_upload)
        [] (fun _ => ESP_OK) ESP_OK ESP_OK false healthy_nvs.

Definition end_fails : world :=
  World (Some ota_0) (Some ota_1) ESP_OK (transport complete_upload)
        [] (fun _ => ESP_OK) ESP_ERR_OTA_VALIDATE_FAILED ESP_OK false healthy_nvs.

(** An upload without a body: [esp_ota_end] finds that nothing was written. *)
Definition empty_upload : world :=
  World (Some ota_0) (Some ota_1) ESP_OK [] [] (fun _ => ESP_OK)
        ESP_ERR_INVALID_ARG ESP_OK false healthy_nvs.

Definition first_write_fails : world :=
  World (Some ota_0) (Some ota_1) ESP_OK (transport complete_upload)
        [] (fun k => if (k =? 0)%nat then ESP_ERR_FLASH_OP_FAIL else ESP_OK)
        ESP_OK ESP_OK false healthy_nvs.

Definition second_write_fails : world :=
  World (Some ota_0) (Some ota_1) ESP_OK (transport complete_upload)
        [] (fun k => if (k =? 1)%nat then ESP_ERR_FLASH_OP_FAIL else ESP_OK)
        ESP_OK ESP_OK false healthy_nvs.

(** A device on which an upload session is receiving: its handle is open on
    [ota_1] and its first chunk has been written. *)
Definition receiving : machine :=
  let '(_, h, m) := esp_ota_begin complete_upload ota_1 (vTaskDelay 1000 idle) in
  (esp_ota_write complete_upload h [x01; x02] m).2.

(** ** Reading traces *)

(** The calls made between machine [m] and a later machine [m']. *)
Definition events_since (m m' : machine) : list event :=
  drop (length (trace m)) (trace m').

Definition machine_of (r : step_result) : machine :=
  match r with Continue _ m | Stop _ m => m end.

(** The calls of the receive loop on handle [h]: reads of up to 1024 bytes
    and writes to [h]. *)
Definition transfer_event (h : esp_ota_handle_t) (e : event) : Prop :=
  match e with
  | EvReqRecv n _ => n = 1024%nat
  | EvOtaWrite h' _ _ => h' = h
  | _ => False
  end.

Definition is_task_create (e : event) : bool :=
  match e with EvTaskCreate _ => true | _ => false end.

Definition is_abort (e : event) : bool :=
  match e with EvOtaAbort _ => true | _ => false end.

Definition is_begin_ok (e : event) : bool :=
  match e with EvOtaBegin _ res => res =? ESP_OK | _ => false end.

(** A call into the partition-write layer that reported a failure. *)
Definition storage_failure (e : event) : bool :=
  match e with
  | EvOtaBegin _ res | EvOtaWrite _ _ res | EvOtaEnd _ res =>
      negb (res =? ESP_OK)
  | _ => false
  end.

Definition touches_partition (e : event) : bool :=
  match e with
  | EvOtaBegin _ _ | EvOtaWrite _ _ _ | EvOtaAbort _ | EvOtaEnd _ _
  | EvSetBootPartition _ _ => true
  | _ => false
  end.

Definition starts_with_write (evs : list event) : bool :=
  match evs with EvOtaWrite _ _ _ :: _ => true | _ => false end.

(** ** Paths through the upload handler *)

(** What a piece of the receive loop started from [l], [m] may have done
    when it ends as [r]: it only reads and writes, ends with one abort when
    it leaves the handler with an error, and keeps the boot pointer. *)
Definition loop_post (l : upload_locals) (m : machine) (r : step_result) : Prop :=
  match r with
  | Continue l' m' =>
      ota_handle l' = ota_handle l /\ total_len l' = total_len l /\
      boot_partition m' = boot_partition m /\
      exists xfer, trace m' = trace m ++ xfer /\
                   Forall (transfer_event (ota_handle l)) xfer
  | Stop (Returned e) m' =>
      e = ESP_FAIL /\ boot_partition m' = boot_partition m /\
      exists xfer, trace m' = trace m ++ xfer ++ [EvOtaAbort (ota_handle l)] /\
                   Forall (transfer_event (ota_handle l)) xfer
  | Stop Undefined m' =>
      boot_partition m' = boot_partition m /\
      exists xfer, trace m' = trace m ++ xfer /\
                   Forall (transfer_event (ota_handle l)) xfer
  end.

(** The paths through [upload_post_handler], as the calls made on each and
    the result returned; [h] is the handle that [esp_ota_begin] hands out. *)
Inductive upload_path (w : world) (h : esp_ota_handle_t)
  : outcome -> list event -> Prop :=
| path_null_request :
    upload_path w h (Returned ESP_FAIL) []
| path_no_partition :
    running_partition w = None \/ next_update_partition w = None ->
    upload_path w h (Returned ESP_FAIL) [EvTaskDelay 1000]
| path_begin_failed up res :
    next_update_partition w = Some up -> res <> ESP_OK ->
    upload_path w h (Returned ESP_FAIL) [EvTaskDelay 1000; EvOtaBegin up res]
| path_aborted up xfer :
    next_update_partition w = Some up -> Forall (transfer_event h) xfer ->
    upload_path w h (Returned ESP_FAIL)
      (EvTaskDelay 1000 :: EvOtaBegin up ESP_OK :: xfer ++ [EvOtaAbort h])
| path_undefined up xfer :
    next_update_partition w = Some up -> Forall (transfer_event h) xfer ->
    upload_path w h Undefined
      (EvTaskDelay 1000 :: EvOtaBegin up ESP_OK :: xfer)
| path_end_failed up xfer res :
    next_update_partition w = Some up -> Forall (transfer_event h) xfer ->
    res <> ESP_OK ->
    upload_path w h (Returned ESP_FAIL)
      (EvTaskDelay 1000 :: EvOtaBegin up ESP_OK :: xfer ++ [EvOtaEnd h res])
| path_boot_failed up xfer res :
    next_update_partition w = Some up -> Forall (transfer_event h) xfer ->
    res <> ESP_OK ->
    upload_path w h (Returned ESP_FAIL)
      (EvTaskDelay 1000 :: EvOtaBegin up ESP_OK :: xfer
         ++ [EvOtaEnd h ESP_OK; EvSetBootPartition up res])
| path_done up xfer :
    next_update_partition w = Some up -> Forall (transfer_event h) xfer ->
    upload_path w h (Returned ESP_OK)
      (EvTaskDelay 1000 :: EvOtaBegin up ESP_OK :: xfer
         ++ [EvOtaEnd h ESP_OK; EvSetBootPartition up ESP_OK;
             EvRespSendstr "Upload successful! Rebooting...";
             EvTaskCreate "reboot_task"]).

(** ** Statements of the specification *)

(** A run of [reboot_task] that waits, stops the listener, stops the radio
    and resets, in this order (other calls may lie in between). *)
Definition waits_stops_listener_radio_resets (evs : list event) : Prop :=
  exists ms h l1 l2 l3,
    evs = EvTaskDelay ms :: l1 ++ EvHttpdStop h :: l2 ++ EvWifiStop :: l3
            ++ [EvRestartNoos].

(** [bytes_received <= bytes_expected] after every completed iteration. *)
Definition received_bounded (w : world) (req : httpd_req_t) (m : machine) : Prop :=
  Forall (fun n => n <= content_len req)
         (received_history zero_read_branch w (Some req) m).

(** A failure of the partition-write layer makes the handler return an
    error after calling [esp_ota_abort]. *)
Definition storage_failure_aborts (w : world) (req : option httpd_req_t)
    (m : machine) : Prop :=
  let r := upload_post_handler w req m in
  let evs := events_since m r.2 in
  existsb storage_failure evs = true ->
  r.1 = Returned ESP_FAIL /\ existsb is_abort evs = true.

(** [needle] occurs somewhere in [s]. *)
Fixpoint contains (needle s : list byte) : bool :=
  is_prefix needle s ||
  match s with
  | [] => false
  | _ :: s' => contains needle s'
  end.

(** What a read of up to [buf_len] bytes takes of [chunk] when [remaining]
    bytes of the body are outstanding. *)
Definition read_of (buf_len : nat) (remaining : Z) (chunk : list byte)
  : list byte :=
  take (Z.to_nat (Z.min (Z.of_nat buf_len) remaining)) chunk.

(** The buffer after the first read, which finds [chunk] on the
    connection. *)
Definition first_buffer (w : world) (req : httpd_req_t) (chunk : list byte)
  : list byte :=
  let c := read_of 1024 (content_len req) chunk in
  c ++ drop (length c) (resize 1024 x00 (stack_garbage w)).

(** The handler fails, and no [esp_ota_begin] has succeeded. *)
Definition fails_before_allocation (w : world) (req : option httpd_req_t)
    (m : machine) : Prop :=
  let r := upload_post_handler w req m in
  r.1 = Returned ESP_FAIL /\
  existsb is_begin_ok (events_since m r.2) = false.

(** The request is turned away: the handler reports an error, makes no call
    into the partition layer, and leaves open handles and boot pointer alone. *)
Definition rejected_as_busy (w : world) (req : option httpd_req_t)
    (m : machine) : Prop :=
  let r := upload_post_handler w req m in
  r.1 = Returned ESP_FAIL /\
  existsb touches_partition (events_since m r.2) = false /\
  ota_entries r.2 = ota_entries m /\
  boot_partition r.2 = boot_partition m.

(** The server task takes the upload requests one at a time, in the order
    in which they arrived: a request that arrives while the handler runs
    waits until that call has returned.  [serve_uploads] gives the result of
    every call and the device after the last one.  Once a call has left
    defined behaviour nothing more is known, and serving ends there. *)
Fixpoint serve_uploads (reqs : list (world * option httpd_req_t)) (m : machine)
  : list outcome * machine :=
  match reqs with
  | [] => ([], m)
  | (w, req) :: rest =>
      let r := upload_post_handler w req m in
      match r.1 with
      | Returned e =>
          let s := serve_uploads rest r.2 in (Returned e :: s.1, s.2)
      | Undefined => ([Undefined], r.2)
      end
  end.

(** What a call does to the number of open OTA sessions: a successful
    [esp_ota_begin] opens one, [esp_ota_abort] and [esp_ota_end] close one. *)
Definition session_change (e : event) : Z :=
  match e with
  | EvOtaBegin _ res => if res =? ESP_OK then 1 else 0
  | EvOtaAbort _ | EvOtaEnd _ _ => -1
  | _ => 0
  end.

(** The number of sessions open after the calls [evs], none being open
    before them. *)
Fixpoint open_sessions (evs : list event) : Z :=
  match evs with
  | [] => 0
  | e :: evs' => session_change e + open_sessions evs'
  end.



(** * Further specifications *)

(** ** The upload handler *)

Definition is_response (e : event) : bool :=
  match e with EvRespSendstr _ => true | _ => false end.

(** What a piece of the receive loop leaves alone: the settings store, the
    server handle and the handle counter; of the handle table only the entry
    of its own handle goes, and only when it leaves with a result. *)
Definition loop_frame (l : upload_locals) (m : machine) (r : step_result) : Prop :=
  nvs (machine_of r) = nvs m /\
  server (machine_of r) = server m /\
  last_handle (machine_of r) = last_handle m /\
  match r with
  | Continue l' m' =>
      ota_handle l' = ota_handle l /\ ota_entries m' = ota_entries m
  | Stop (Returned _) m' =>
      ota_entries m' = delete (ota_handle l) (ota_entries m)
  | Stop Undefined m' => ota_entries m' = ota_entries m
  end.

(** What one answer of the transport puts into [buf]. *)
Definition chunk_bytes (r : recv_result) : list byte :=
  match r with
  | Received chunk => take 1024 chunk
  | RecvError _ => []
  end.

(** The bytes that a transport script holds in all. *)
Definition total_bytes (script : list recv_result) : Z :=
  Z.of_nat (length (concat (map chunk_bytes script))).

(** The data handed to [esp_ota_write], in the order of the calls. *)
Definition written_bytes (evs : list event) : list byte :=
  concat (map (fun e => match e with EvOtaWrite _ d _ => d | _ => [] end) evs).

(** [l] is strictly increasing and starts above [x]. *)
Fixpoint increasing_from (x : Z) (l : list Z) : Prop :=
  match l with
  | [] => True
  | y :: l' => x < y /\ increasing_from y l'
  end.

(** A body of 1500 bytes declared as 2000: 1024 and 476 bytes arrive, then
    the peer closes. *)
Definition cut_short : world :=
  good_world [Received (header_chunk (repeat x41 1019));
              Received (repeat x42 476)].

(** * Further code *)

(** ** [printf] conversions *)

Definition hex_upper (d : Z) : byte :=
  match d with
  | 0 => x30 | 1 => x31 | 2 => x32 | 3 => x33 | 4 => x34
  | 5 => x35 | 6 => x36 | 7 => x37 | 8 => x38 | 9 => x39
  | 10 => x41 | 11 => x42 | 12 => x43 | 13 => x44 | 14 => x45
  | _ => x46
  end.

(** [%02X] of a [uint8_t]: two upper-case hexadecimal digits. *)
Definition format_02X (b : byte) : list byte :=
  [hex_upper (Z_of_byte b / 16); hex_upper (Z_of_byte b mod 16)].

Inductive printf_arg : Type :=
| ArgStr (s : list byte)      (* [char *]: the characters before its NUL *)
| ArgLong (v : Z)             (* [long] *)
| ArgByte (b : byte).         (* a promoted [uint8_t] *)

(** What [printf] produces for a format made of plain characters and the
    conversions that the sources use: [%%], [%s], [%ld] and [%02X].  Any
    other conversion, and a conversion without an argument of its type, is
    undefined behaviour: [None]. *)
Fixpoint format (fmt : list byte) (args : list printf_arg)
  : option (list byte) :=
  match fmt with
  | [] => Some []
  | c :: rest =>
      if negb (Byte.eqb c x25) then cons c <$> format rest args
      else
        match rest with
        | [] => None
        | c1 :: rest1 =>
            if Byte.eqb c1 x25 then cons x25 <$> format rest1 args
            else if Byte.eqb c1 x73 (* 's' *) then
              match args with
              | ArgStr s :: args' => app s <$> format rest1 args'
              | _ => None
              end
            else
              match rest1 with
              | [] => None
              | c2 :: rest2 =>
                  if Byte.eqb c1 x6c && Byte.eqb c2 x64 (* "ld" *) then
                    match args with
                    | ArgLong v :: args' =>
                        app (decimal v) <$> format rest2 args'
                    | _ => None
                    end
                  else
                    match rest2 with
                    | [] => None
                    | c3 :: rest3 =>
                        if Byte.eqb c1 x30 && Byte.eqb c2 x32 && Byte.eqb c3 x58
                           (* "02X" *)
                        then
                          match args with
                          | ArgByte b :: args' =>
                              app (format_02X b) <$> format rest3 args'
                          | _ => None
                          end
                        else None
                    end
              end
        end
  end.

(** The string that [snprintf(buf, size, fmt, ...)] leaves in [buf]: at most
    [size - 1] characters of the output. *)
Definition snprintf (size : nat) (fmt : string) (args : list printf_arg)
  : option (list byte) :=
  take (size - 1) <$> format (String.list_byte_of_string fmt) args.

(** The number of characters of [format fmt args], from the sizes of the
    converted arguments. *)
Fixpoint format_size (fmt : list byte) (sizes : list nat) : nat :=
  match fmt with
  | [] => 0
  | c :: rest =>
      if negb (Byte.eqb c x25) then S (format_size rest sizes)
      else
        match rest with
        | [] => 0
        | c1 :: rest1 =>
            if Byte.eqb c1 x25 then S (format_size rest1 sizes)
            else if Byte.eqb c1 x73 then
              match sizes with
              | n :: sizes' => n + format_size rest1 sizes'
              | [] => 0
              end
            else
              match rest1 with
              | [] => 0
              | c2 :: rest2 =>
                  if Byte.eqb c1 x6c && Byte.eqb c2 x64 then
                    match sizes with
                    | n :: sizes' => n + format_size rest2 sizes'
                    | [] => 0
                    end
                  else
                    match rest2 with
                    | [] => 0
                    | c3 :: rest3 =>
                        match sizes with
                        | n :: sizes' => n + format_size rest3 sizes'
                        | [] => 0
                        end
                    end
              end
        end
  end.

Definition arg_size (a : printf_arg) : nat :=
  match a with
  | ArgStr s => length s
  | ArgLong v => length (decimal v)
  | ArgByte _ => 2
  end.

(** ** The static pages *)

(** The fields of ESP-IDF's [esp_app_desc_t] that the pages print, each as
    the C string held in its array ([char version[32]],
    [char project_name[32]], [char time[16]], [char date[16]]). *)
Record esp_app_desc_t : Type := AppDesc {
  version : list byte;
  project_name : list byte;
  time : list byte;
  date : list byte
}.

(** In bounds of the arrays, with room for the NUL. *)
Definition app_desc_ok (app : esp_app_desc_t) : Prop :=
  (length (version app) <= 31)%nat /\ (length (project_name app) <= 31)%nat /\
  (length (time app) <= 15)%nat /\ (length (date app) <= 15)%nat.

Definition root_html : string :=
  "<html>" +:+
  "<head>" +:+
  "<title>Demo Web Server</title>" +:+
  "<meta name=" +:+ double_quote +:+ "viewport" +:+ double_quote +:+ " content=" +:+ double_quote +:+ "width=device-width, initial-scale=1.0" +:+ double_quote +:+ ">" +:+
  "<style>" +:+
  "body { font-family: Arial, sans-serif; margin: 0; padding: 20px; }" +:+
  "h1 { font-size: 1.5em; }" +:+
  "p { font-size: 1em; }" +:+
  "button { font-size: 1em; padding: 10px; margin: 10px 0; width: 100%%; }" +:+
  "</style>" +:+
  "</head>" +:+
  "<body>" +:+
  "<h1>Welcome to the Demo Web Server</h1>" +:+
  "<p>This device is currently running firmware version %s, built on %s %s.</p>" +:+
  "<p>This server provides access to firmware updates and system settings.</p>" +:+
  "<button onclick=" +:+ double_quote +:+ "location.href='/settings'" +:+ double_quote +:+ ">System Settings</button>" +:+
  "<button onclick=" +:+ double_quote +:+ "location.href='/firmware'" +:+ double_quote +:+ ">Firmware Update</button><br>" +:+
  "<button onclick=" +:+ double_quote +:+ "location.href='/reboot'" +:+ double_quote +:+ ">Reboot Device</button>" +:+
  "</body>" +:+
  "</html>".

Definition firmware_html : string :=
  "<html><head>" +:+
  "<meta name=" +:+ double_quote +:+ "viewport" +:+ double_quote +:+ " content=" +:+ double_quote +:+ "width=device-width, initial-scale=1.0" +:+ double_quote +:+ ">" +:+
  "<style>" +:+
  "body { font-family: Arial, sans-serif; margin: 0; padding: 20px; }" +:+
  "h1 { font-size: 1.5em; }" +:+
  "p { font-size: 1em; }" +:+
  "form { display: flex; flex-direction: column; gap: 10px; }" +:+
  "input[type='file'], input[type='submit'] { font-size: 1em; padding: 10px; }" +:+
  "progress { width: 100%%; height: 20px; }" +:+
  "</style>" +:+
  "</head><body>" +:+
  "<h1>Upload Firmware</h1>" +:+
  "<p>Current Firmware Version: %s</p>" +:+
  "<p>Project Name: %s</p>" +:+
  "<p>Compile Time: %s %s</p>" +:+
  "<form id=" +:+ double_quote +:+ "upload_form" +:+ double_quote +:+ " method=" +:+ double_quote +:+ "POST" +:+ double_quote +:+ " action=" +:+ double_quote +:+ "/upload" +:+ double_quote +:+ " enctype=" +:+ double_quote +:+ "multipart/form-data" +:+ double_quote +:+ ">" +:+
  "<input type=" +:+ double_quote +:+ "file" +:+ double_quote +:+ " name=" +:+ double_quote +:+ "firmware" +:+ double_quote +:+ ">" +:+
  "<input type=" +:+ double_quote +:+ "submit" +:+ double_quote +:+ " value=" +:+ double_quote +:+ "Upload" +:+ double_quote +:+ ">" +:+
  "</form>" +:+
  "<progress id=" +:+ double_quote +:+ "progress_bar" +:+ double_quote +:+ " value=" +:+ double_quote +:+ "0" +:+ double_quote +:+ " max=" +:+ double_quote +:+ "100" +:+ double_quote +:+ "></progress>" +:+
  "<p id=" +:+ double_quote +:+ "upload_status" +:+ double_quote +:+ "></p>" +:+
  "<script>" +:+
  "const form=document.getElementById('upload_form');" +:+
  "const progress=document.getElementById('progress_bar');" +:+
  "const status=document.getElementById('upload_status');" +:+
  "form.addEventListener('submit',function(event){" +:+
  "event.preventDefault();" +:+
  "const xhr=new XMLHttpRequest();" +:+
  "xhr.open('POST','/upload',true);" +:+
  "xhr.upload.onprogress=function(event){" +:+
  "if(event.lengthComputable){" +:+
  "progress.value=(event.loaded/event.total)*100;" +:+
  "}" +:+
  "};" +:+
  "xhr.onload=function(){" +:+
  "if(xhr.status==200){" +:+
  "progress.style.display='none';" +:+
  "status.innerHTML='Firmware uploaded successfully!<br>Rebooting device...';" +:+
  "setTimeout(function() {" +:+
  "location.reload();" +:+
  "}, 8000);" +:+
  "}else{" +:+
  "status.innerHTML='Upload failed!';" +:+
  "}" +:+
  "};" +:+
  "const formData=new FormData(form);" +:+
  "xhr.send(formData);" +:+
  "});" +:+
  "</script>" +:+
  "</body></html>".

(** [root_get_handler]: [snprintf] into [char html_response[1024]], then
    [httpd_resp_send(req, html_response, HTTPD_RESP_USE_STRLEN)], which is
    what [httpd_resp_sendstr] does. *)
Definition root_get_handler (app : esp_app_desc_t) (m : machine)
  : outcome * machine :=
  match snprintf 1024 root_html
          [ArgStr (version app); ArgStr (date app); ArgStr (time app)] with
  | None => (Undefined, m)
  | Some html_response =>
      (Returned ESP_OK,
       httpd_resp_sendstr (String.string_of_list_byte html_response) m)
  end.

(** [firmware_get_handler]: the same with a buffer of 2048 bytes from
    [malloc]; without memory it returns before any response. *)
Definition firmware_get_handler (w : world) (app : esp_app_desc_t) (m : machine)
  : outcome * machine :=
  if malloc_fails w then (Returned ESP_FAIL, m)
  else
    match snprintf 2048 firmware_html
            [ArgStr (version app); ArgStr (project_name app);
             ArgStr (date app); ArgStr (time app)] with
    | None => (Undefined, m)
    | Some resp =>
        (Returned ESP_OK, httpd_resp_sendstr (String.string_of_list_byte resp) m)
    end.

(** ** The Wi-Fi access point ([wifi_ap.c]) *)

(** [static char ssid[32]] and [static char password[64]]. *)
Record wifi_statics : Type := WifiStatics {
  ssid : list byte;
  password : list byte
}.

(** The initialisers ["OTA-Demo"] and ["password"]. *)
Definition wifi_statics_init : wifi_statics :=
  WifiStatics (resize 32 x00 (String.list_byte_of_string "OTA-Demo"))
              (resize 64 x00 (String.list_byte_of_string "password")).

Definition get_ssid (st : wifi_statics) : list byte := c_str (ssid st).

Inductive wifi_auth_mode_t : Type :=
| WIFI_AUTH_OPEN | WIFI_AUTH_WEP | WIFI_AUTH_WPA_PSK | WIFI_AUTH_WPA2_PSK.

(** The members of [wifi_config_t.ap] that [wifi_init_softap] sets;
    [ap_ssid] is [uint8_t ssid[32]], [ap_password] is [uint8_t password[64]]. *)
Record wifi_ap_config_t : Type := ApConfig {
  ap_ssid : list byte;
  ap_password : list byte;
  ap_ssid_len : Z;
  ap_channel : Z;
  ap_authmode : wifi_auth_mode_t;
  ap_ssid_hidden : Z;
  ap_max_connection : Z;
  ap_beacon_interval : Z
}.

(** [dst] after [strncpy(dst, src, n)] for a [dst] of [n] bytes: the string,
    cut at [n] characters or padded with NULs. *)
Definition strncpy (src : list byte) (n : nat) : list byte :=
  resize n x00 (c_str src).

Definition strlen (s : list byte) : Z := Z.of_nat (length (c_str s)).

(** [wifi_init_softap], with [mac] the six bytes that
    [esp_efuse_mac_get_default] stores: the statics after the call and the
    configuration handed to [esp_wifi_set_config]. *)
Definition wifi_init_softap (mac : list byte) (st : wifi_statics)
  : option (wifi_statics * wifi_ap_config_t) :=
  let mac_at (i : nat) := default x00 (mac !! i) in
  name ← snprintf 32 "OTA-Demo-%02X%02X%02X"
           [ArgByte (mac_at 3%nat); ArgByte (mac_at 4%nat); ArgByte (mac_at 5%nat)];
  let st := WifiStatics (name ++ x00 :: drop (S (length name)) (ssid st))
                        (password st) in
  Some (st,
        ApConfig (strncpy (ssid st) 32) (strncpy (password st) 64)
                 (strlen (ssid st)) 1 WIFI_AUTH_WPA2_PSK 0 1 100).

(** ** Statements about the further code *)

(** [%XX] for every byte: the percent-encoding that [httpd_unescape_uri]
    undoes. *)
Definition percent_encode (bs : list byte) : list byte :=
  concat (map (fun b => x25 :: format_02X b) bs).

Definition sample_app : esp_app_desc_t :=
  AppDesc (String.list_byte_of_string "v1.2.3-4-gabcdef0")
          (String.list_byte_of_string "ota-demo")
          (String.list_byte_of_string "12:34:56")
          (String.list_byte_of_string "Apr 12 2025").

Definition sample_mac : list byte := [x24; x0a; xc4; x1f; x00; xbe].


(** The bytes that [httpd_unescape_uri] has stored in front of the
    terminating NUL. *)
Definition stored_string (r : list byte * Z) : list byte :=
  take (Z.to_nat r.2) r.1.

(** What [settings_post_handler] gets from its one call of
    [httpd_req_recv]; nothing when the call fails. *)
Definition posted_bytes (w : world) (req : httpd_req_t) : list byte :=
  match head (transport w) with
  | Some (Received chunk) => read_of 511 (content_len req) chunk
  | _ => []
  end.

(** A form body [serial=<value>]. *)
Definition serial_body (value : list byte) : list byte :=
  String.list_byte_of_string "serial=" ++ value.

(** Characters that end neither a C string nor a form field. *)
Definition plain (s : list byte) : Prop :=
  Forall (fun c => Byte.eqb c x00 = false) s /\
  Forall (fun c => Byte.eqb c x26 = false) s.

Definition clamp_long (v : Z) : Z := Z.max LONG_MIN (Z.min LONG_MAX v).

(** The byte [mac[i]]. *)
Definition mac_byte (mac : list byte) (i : nat) : byte := default x00 (mac !! i).


(** * Properties *)

(** ** Machine integers *)

Lemma to_int_small (z : Z) : - 2 ^ 31 <= z < 2 ^ 31 -> to_int z = z.
Proof.
  intros H. unfold to_int.
  rewrite Z.mod_small by lia. lia.
Qed.

Lemma to_size_t_le (z : Z) : 0 <= z -> to_size_t z <= z.
Proof. intros H. unfold to_size_t. apply Z.mod_le; lia. Qed.

(** ** [httpd_unescape_uri] *)

(** Each round of the loop stores one byte and consumes at least one source
    character, and no round starts once [di] has reached [limit]. *)
Lemma unescape_from_length (n : nat) :
  forall (src : list byte) (di limit : Z),
    (length src <= n)%nat ->
    Z.of_nat (length (unescape_from src di limit)) <= Z.max 0 (limit - di) /\
    (length (unescape_from src di limit) <= length src)%nat.
Proof.
  induction n as [|n IH]; intros src di limit Hn.
  - destruct src; [cbn; lia | cbn in Hn; lia].
  - destruct src as [|c rest]; [cbn; lia|].
    cbn [unescape_from]. cbn [length] in Hn.
    destruct (Byte.eqb c x00); [cbn; lia|].
    destruct (di <? limit) eqn:Hlt; cbn [negb]; [|cbn; lia].
    apply Z.ltb_lt in Hlt.
    assert (Hrest : forall s, (length s <= n)%nat ->
              Z.of_nat (length (c :: unescape_from s (di + 1) limit))
                <= Z.max 0 (limit - di) /\
              (length (unescape_from s (di + 1) limit) <= length s)%nat).
    { intros s Hs. destruct (IH s (di + 1) limit Hs) as [H1 H2].
      split; [cbn [length]; lia | exact H2]. }
    assert (Hone : forall b,
              Z.of_nat (length (b :: unescape_from rest (di + 1) limit))
                <= Z.max 0 (limit - di) /\
              (length (b :: unescape_from rest (di + 1) limit)
                <= S (length rest))%nat).
    { intros b. destruct (Hrest rest ltac:(lia)) as [H1 H2].
      split; [exact H1 | cbn [length]; lia]. }
    destruct (Byte.eqb c x25).
    + destruct rest as [|h1 [|h2 rest']]; try apply Hone.
      destruct (isxdigit h1 && isxdigit h2); [|apply Hone].
      cbn [length] in Hn.
      destruct (IH rest' (di + 1) limit ltac:(lia)) as [H1 H2].
      cbn [length]. lia.
    + destruct (Byte.eqb c x2b); apply Hone.
Qed.

(** C10: for every source string (of a size an object can have) and every
    [dest_size >= 1], [httpd_unescape_uri] stores at most [dest_size - 1]
    bytes followed by a NUL at the returned index, and returns the count of
    stored bytes, which is never negative. *)
Theorem httpd_unescape_uri_bounded (dest src : list byte) (dest_size : Z) :
  1 <= dest_size ->
  Z.of_nat (length src) <= SSIZE_MAX ->
  exists written : list byte,
    httpd_unescape_uri dest src dest_size
      = (written ++ x00 :: drop (S (length written)) dest,
         Z.of_nat (length written)) /\
    0 <= Z.of_nat (length written) <= dest_size - 1 /\
    (httpd_unescape_uri dest src dest_size).1
      !! Z.to_nat (httpd_unescape_uri dest src dest_size).2 = Some x00.
Proof.
  intros Hsize Hsrc.
  set (written := unescape_from src 0 (to_size_t (dest_size - 1))).
  destruct (unescape_from_length (length src) src 0
              (to_size_t (dest_size - 1)) (le_n _)) as [Hlim Hlen].
  fold written in Hlim, Hlen.
  assert (Hfit : Z.of_nat (length written) <= SSIZE_MAX) by lia.
  assert (Hret : to_int (Z.of_nat (length written)) = Z.of_nat (length written)).
  { apply to_int_small. unfold SSIZE_MAX, INT_MAX in Hfit. lia. }
  exists written.
  unfold httpd_unescape_uri. fold written. rewrite Hret.
  split; [reflexivity|]. split.
  - pose proof (to_size_t_le (dest_size - 1) ltac:(lia)). lia.
  - cbn [fst snd]. rewrite Nat2Z.id.
    rewrite lookup_app_r by lia.
    now rewrite Nat.sub_diag.
Qed.

Lemma httpd_unescape_uri_bounded_witness :
  exists written : list byte,
    httpd_unescape_uri (repeat x01 4) [x61; x25; x32; x30; x62; x2b; x63] 4
      = (written ++ x00 :: drop (S (length written)) (repeat x01 4),
         Z.of_nat (length written)) /\
    0 <= Z.of_nat (length written) <= 4 - 1 /\
    (httpd_unescape_uri (repeat x01 4) [x61; x25; x32; x30; x62; x2b; x63] 4).1
      !! Z.to_nat
           (httpd_unescape_uri (repeat x01 4)
              [x61; x25; x32; x30; x62; x2b; x63] 4).2 = Some x00.
Proof.
  apply (httpd_unescape_uri_bounded (repeat x01 4)
           [x61; x25; x32; x30; x62; x2b; x63] 4).
  - lia.
  - vm_compute. discriminate.
Defined.

(** ** [reboot_task] *)

Lemma events_since_app (m m' : machine) (evs : list event) :
  trace m' = trace m ++ evs -> events_since m m' = evs.
Proof.
  intros H. unfold events_since. rewrite H.
  now rewrite drop_app_length.
Qed.

(** C8 as stated fails: when the listener handle is already NULL the task
    never calls [httpd_stop]. *)
Lemma reboot_task_skips_stopped_listener :
  ~ waits_stops_listener_radio_resets
      (events_since listener_down (reboot_task listener_down)).
Proof.
  intros (ms & h & l1 & l2 & l3 & H).
  assert (Hin : EvHttpdStop h
                ∈ events_since listener_down (reboot_task listener_down)).
  { rewrite H. set_solver. }
  vm_compute in Hin.
  repeat (apply elem_of_cons in Hin as [Hin|Hin]; [discriminate Hin|]).
  now apply elem_of_nil in Hin.
Qed.

(** C8, amended: every run of [reboot_task] waits 500 ms, stops the HTTP
    server if its handle is set and clears the handle, stops WiFi, waits
    again, and resets last; nothing else is called. *)
Theorem reboot_task_order (m : machine) :
  trace (reboot_task m)
    = trace m ++ EvTaskDelay 500
        :: match server m with Some h => [EvHttpdStop h] | None => [] end
        ++ [EvWifiStop; EvTaskDelay 500; EvRestartNoos]
  /\ server (reboot_task m) = None.
Proof.
  unfold reboot_task. destruct m as [b es lh nw [h|] kv tr]; cbn.
  - split; [|reflexivity]. now rewrite <- !app_assoc.
  - split; [|reflexivity]. now rewrite <- !app_assoc.
Qed.

(** ** The receive loop *)

Lemma eqb_ok_false (res : esp_err_t) : (res =? ESP_OK) = false -> res <> ESP_OK.
Proof. apply Z.eqb_neq. Qed.

Lemma eqb_ok_true (res : esp_err_t) : (res =? ESP_OK) = true -> res = ESP_OK.
Proof. apply Z.eqb_eq. Qed.

Lemma loop_post_refl (l : upload_locals) (m : machine) :
  loop_post l m (Continue l m).
Proof.
  cbn. repeat split. exists []. split; [now rewrite app_nil_r | constructor].
Qed.

Lemma loop_post_trans (l l' : upload_locals) (m m' : machine) (r : step_result) :
  loop_post l m (Continue l' m') -> loop_post l' m' r -> loop_post l m r.
Proof.
  intros (Hh & Ht & Hb & x1 & Htr1 & Hx1) Hr.
  destruct r as [l2 m2 | [e|] m2]; cbn in Hr |- *; rewrite Hh in Hr.
  - destruct Hr as (Hh2 & Ht2 & Hb2 & x2 & Htr2 & Hx2).
    repeat split; try congruence.
    exists (x1 ++ x2). split.
    + rewrite Htr2, Htr1. now rewrite app_assoc.
    + now apply Forall_app.
  - destruct Hr as (He & Hb2 & x2 & Htr2 & Hx2).
    repeat split; try congruence.
    exists (x1 ++ x2). split.
    + rewrite Htr2, Htr1. now rewrite <- !app_assoc.
    + now apply Forall_app.
  - destruct Hr as (Hb2 & x2 & Htr2 & Hx2).
    repeat split; try congruence.
    exists (x1 ++ x2). split.
    + rewrite Htr2, Htr1. now rewrite app_assoc.
    + now apply Forall_app.
Qed.

(** Split on the first test whose condition is not itself a conditional. *)
Ltac case_step :=
  match goal with
  | |- context [match strstr ?a ?b with _ => _ end] =>
      destruct (strstr a b) eqn:?
  | |- context [if ?c then _ else _] =>
      lazymatch c with
      | context [if _ then _ else _] => fail
      | context [match _ with _ => _ end] => fail
      | _ => destruct c eqn:?
      end
  end; cbn.

(** Find the list of transfer events that were appended to the trace. *)
Ltac solve_xfer :=
  let finish :=
    split; [solve [rewrite <- ?app_assoc; reflexivity]
           | solve [repeat constructor]] in
  first [ exists nil; finish
        | eexists (cons _ nil); finish
        | eexists (cons _ (cons _ nil)); finish ].

(** Forget what a read has delivered: any count and any buffer. *)
Ltac forget_read bytes_read buf' :=
  match goal with
  | |- context [if (?n =? 0)%nat then (0, ?b) else ?e] =>
      let rb := fresh "rb" in
      set (rb := if (n =? 0)%nat then (0, b) else e);
      clearbody rb; destruct rb as [bytes_read buf']
  end.

Lemma loop_body_post (w : world) (r : option recv_result)
    (l : upload_locals) (m : machine) :
  loop_post l m (loop_body zero_read_branch w r l m).
Proof.
  unfold loop_body, httpd_req_recv.
  forget_read bytes_read buf'.
  unfold first_chunk_branch, later_chunk_branch, zero_read_branch, esp_ota_write.
  cbn.
  repeat case_step; repeat split; solve_xfer.
Qed.

Lemma upload_loop_post (w : world) (script : list recv_result) :
  forall (l : upload_locals) (m : machine),
    loop_post l m (upload_loop zero_read_branch w script l m).2.
Proof.
  induction script as [|r script IH]; intros l m; cbn [upload_loop].
  - destruct (received l <? total_len l); [|apply loop_post_refl].
    pose proof (loop_body_post w (head []) l m) as Hb.
    destruct (loop_body zero_read_branch w (head []) l m); exact Hb.
  - destruct (received l <? total_len l); [|apply loop_post_refl].
    pose proof (loop_body_post w (head (r :: script)) l m) as Hb.
    destruct (loop_body zero_read_branch w (head (r :: script)) l m)
      as [l' m'|o m']; [|exact Hb].
    specialize (IH l' m').
    destruct (upload_loop zero_read_branch w script l' m') as [hist res].
    cbn [snd] in *. eapply loop_post_trans; eassumption.
Qed.

(** ** Paths through [upload_post_handler] *)

Lemma upload_finish_paths (w : world) (req : httpd_req_t) (up : esp_partition_t)
    (l : upload_locals) (m : machine) :
  let r := upload_finish w req up l m in
  exists tail,
    trace r.2 = trace m ++ tail /\
    ((r.1 = Returned ESP_FAIL /\ boot_partition r.2 = boot_partition m /\
      (tail = [EvOtaAbort (ota_handle l)] \/
       (exists res, res <> ESP_OK /\ tail = [EvOtaEnd (ota_handle l) res]) \/
       (exists res, res <> ESP_OK /\
          tail = [EvOtaEnd (ota_handle l) ESP_OK; EvSetBootPartition up res])))
     \/
     (r.1 = Returned ESP_OK /\ boot_partition r.2 = up /\
      tail = [EvOtaEnd (ota_handle l) ESP_OK; EvSetBootPartition up ESP_OK;
              EvRespSendstr "Upload successful! Rebooting...";
              EvTaskCreate "reboot_task"])).
Proof.
  unfold upload_finish, esp_ota_end, esp_ota_set_boot_partition. cbn.
  destruct (to_size_t (received l) =? to_size_t (content_len req)); cbn.
  2:{ eexists. split; [reflexivity|]. left. auto. }
  destruct (ota_end_result w =? ESP_OK) eqn:Hend; cbn.
  2:{ eexists. split; [reflexivity|]. left. repeat split.
      right. left. eexists. split; [|reflexivity]. now apply eqb_ok_false. }
  apply eqb_ok_true in Hend. rewrite Hend.
  destruct (set_boot_result w =? ESP_OK) eqn:Hboot; cbn.
  - apply eqb_ok_true in Hboot. rewrite Hboot.
    eexists. split; [rewrite <- ?app_assoc; reflexivity|]. right. auto.
  - eexists. split; [rewrite <- ?app_assoc; reflexivity|]. left. repeat split.
    right. right. eexists. split; [|reflexivity]. now apply eqb_ok_false.
Qed.

Lemma upload_post_handler_paths (w : world) (req : option httpd_req_t)
    (m : machine) :
  let r := upload_post_handler w req m in
  exists evs,
    trace r.2 = trace m ++ evs /\
    upload_path w (last_handle m + 1)%N r.1 evs /\
    (r.1 = Returned ESP_OK ->
       Some (boot_partition r.2) = next_update_partition w) /\
    (r.1 <> Returned ESP_OK -> boot_partition r.2 = boot_partition m).
Proof.
  unfold upload_post_handler, upload_post_handler_with, upload_run.
  destruct req as [req|]; cbn zeta.
  2:{ exists []. cbn. rewrite app_nil_r. repeat split; [constructor|discriminate]. }
  destruct (running_partition w) as [rp|] eqn:Hrp.
  2:{ exists [EvTaskDelay 1000]. cbn.
      repeat split; [constructor; now left|discriminate]. }
  destruct (next_update_partition w) as [up|] eqn:Hup.
  2:{ exists [EvTaskDelay 1000]. cbn.
      repeat split; [constructor; now right|discriminate]. }
  unfold esp_ota_begin. cbn.
  destruct (ota_begin_result w =? ESP_OK) eqn:Hbegin; cbn; rewrite ?Hbegin; cbn.
  2:{ eexists. split; [rewrite <- ?app_assoc; reflexivity|]. cbn.
      repeat split; [|discriminate].
      apply path_begin_failed; [assumption | now apply eqb_ok_false]. }
  apply eqb_ok_true in Hbegin. rewrite Hbegin.
  match goal with
  | |- context [upload_loop _ _ _ ?l0 ?m0] =>
      pose proof (upload_loop_post w (transport w) l0 m0) as Hloop;
      destruct (upload_loop zero_read_branch w (transport w) l0 m0)
        as [hist [l' m'|[e|] m']]
  end; cbn in Hloop |- *.
  - destruct Hloop as (Hh & _ & Hb & xfer & Htr & Hx).
    destruct (upload_finish_paths w req up l' m') as (tail & Htail & Hcases).
    cbn zeta in Htail, Hcases. rewrite Hh in Hcases.
    exists (EvTaskDelay 1000 :: EvOtaBegin up ESP_OK :: xfer ++ tail).
    split.
    { rewrite Htail, Htr. rewrite <- ?app_assoc. reflexivity. }
    destruct Hcases as [(Hr & Hboot & Ht) | (Hr & Hboot & Ht)]; rewrite Hr.
    + repeat split; [|discriminate|intros _; congruence].
      destruct Ht as [-> | [(res & Hres & ->) | (res & Hres & ->)]].
      * now apply path_aborted.
      * now apply path_end_failed.
      * now apply path_boot_failed.
    + subst tail. repeat split; [now apply path_done | congruence | congruence].
  - destruct Hloop as (-> & Hb & xfer & Htr & Hx).
    exists (EvTaskDelay 1000 :: EvOtaBegin up ESP_OK
              :: xfer ++ [EvOtaAbort (last_handle m + 1)%N]).
    split; [rewrite Htr, <- ?app_assoc; reflexivity|].
    repeat split; [now apply path_aborted | discriminate | intros _; exact Hb].
  - destruct Hloop as (Hb & xfer & Htr & Hx).
    exists (EvTaskDelay 1000 :: EvOtaBegin up ESP_OK :: xfer).
    split; [rewrite Htr, <- ?app_assoc; reflexivity|].
    repeat split; [now apply path_undefined | discriminate | intros _; exact Hb].
Qed.

Lemma transfer_not_task_create (h : esp_ota_handle_t) (xfer : list event) :
  Forall (transfer_event h) xfer ->
  Forall (fun e => is_task_create e = false) xfer.
Proof.
  intros H. eapply Forall_impl; [exact H|].
  intros e He. now destruct e.
Qed.

(** C1: when the handler returns [ESP_OK], the boot pointer is the update
    partition on which this call opened its OTA handle and to whose handle
    all its writes went; on every other outcome the boot pointer is what it
    was before the call. *)
Theorem upload_boot_pointer (w : world) (req : option httpd_req_t) (m : machine) :
  let r := upload_post_handler w req m in
  (r.1 = Returned ESP_OK ->
     exists up xfer,
       next_update_partition w = Some up /\
       boot_partition r.2 = up /\
       Forall (transfer_event (last_handle m + 1)%N) xfer /\
       events_since m r.2
         = EvTaskDelay 1000 :: EvOtaBegin up ESP_OK :: xfer
             ++ [EvOtaEnd (last_handle m + 1)%N ESP_OK;
                 EvSetBootPartition up ESP_OK;
                 EvRespSendstr "Upload successful! Rebooting...";
                 EvTaskCreate "reboot_task"]) /\
  (r.1 <> Returned ESP_OK -> boot_partition r.2 = boot_partition m).
Proof.
  intros r.
  destruct (upload_post_handler_paths w req m)
    as (evs & Htr & Hpath & Hdone & Hfail).
  fold r in Htr, Hpath, Hdone, Hfail.
  split; [|exact Hfail].
  intros Hok. specialize (Hdone Hok).
  rewrite (events_since_app _ _ _ Htr).
  rewrite Hok in Hpath. inversion Hpath as [| | | | | | |up xfer Hup Hx]; subst.
  exists up, xfer. repeat split; try assumption. congruence.
Qed.

Lemma upload_boot_pointer_witness :
  boot_partition (upload_post_handler complete_upload (Some (Request 10)) idle).2
    = ota_1 /\
  boot_partition (upload_post_handler truncated_upload (Some (Request 10)) idle).2
    = ota_0.
Proof.
  split.
  - destruct (proj1 (upload_boot_pointer complete_upload (Some (Request 10)) idle)
                eq_refl) as (up & xfer & Hup & Hboot & _).
    rewrite Hboot. now injection Hup.
  - apply (proj2 (upload_boot_pointer truncated_upload (Some (Request 10)) idle)).
    vm_compute. discriminate.
Defined.

(** C4: the handler creates the reboot task exactly when it returns
    [ESP_OK]: on every other outcome no task is created, and on success the
    one [xTaskCreate] is the last call, right after the success response. *)
Theorem upload_reboot_iff_done (w : world) (req : option httpd_req_t)
    (m : machine) :
  let r := upload_post_handler w req m in
  let evs := events_since m r.2 in
  (r.1 = Returned ESP_OK <-> EvTaskCreate "reboot_task" ∈ evs) /\
  (r.1 <> Returned ESP_OK -> Forall (fun e => is_task_create e = false) evs) /\
  (r.1 = Returned ESP_OK ->
     exists pre,
       evs = pre ++ [EvRespSendstr "Upload successful! Rebooting...";
                     EvTaskCreate "reboot_task"] /\
       Forall (fun e => is_task_create e = false) pre).
Proof.
  intros r evs.
  destruct (upload_post_handler_paths w req m) as (evs' & Htr & Hpath & _).
  fold r in Htr, Hpath.
  assert (Hevs : evs = evs') by (apply events_since_app; exact Htr).
  rewrite Hevs. clear Hevs evs Htr.
  assert (Hnone : r.1 <> Returned ESP_OK ->
                  Forall (fun e => is_task_create e = false) evs').
  { intros Hne.
    inversion Hpath as [| | | up x ? Hx | up x ? Hx | up x res ? Hx
                        | up x res ? Hx | up x ? Hx Ho];
      subst; repeat constructor;
      try (apply Forall_app; split; [|repeat constructor]);
      try (eapply transfer_not_task_create; eassumption).
    congruence. }
  assert (Hlast : r.1 = Returned ESP_OK ->
     exists pre,
       evs' = pre ++ [EvRespSendstr "Upload successful! Rebooting...";
                      EvTaskCreate "reboot_task"] /\
       Forall (fun e => is_task_create e = false) pre).
  { intros Hok. rewrite Hok in Hpath.
    inversion Hpath as [| | | | | | |up x Hup Hx]; subst.
    exists (EvTaskDelay 1000 :: EvOtaBegin up ESP_OK
              :: x ++ [EvOtaEnd (last_handle m + 1)%N ESP_OK;
                       EvSetBootPartition up ESP_OK]).
    split.
    - cbn. now rewrite <- app_assoc.
    - repeat constructor. apply Forall_app. split; [|repeat constructor].
      eapply transfer_not_task_create; eassumption. }
  split; [|split; assumption].
  split.
  - intros Hok. destruct (Hlast Hok) as (pre & -> & _).
    apply elem_of_app. right. rewrite !elem_of_cons. auto.
  - intros Hin.
    destruct (decide (r.1 = Returned ESP_OK)) as [Hok|Hne]; [exact Hok|].
    specialize (Hnone Hne). rewrite Forall_forall in Hnone.
    specialize (Hnone _ Hin). discriminate.
Qed.

Lemma upload_reboot_iff_done_witness :
  EvTaskCreate "reboot_task"
    ∈ events_since idle
        (upload_post_handler complete_upload (Some (Request 10)) idle).2 /\
  Forall (fun e => is_task_create e = false)
    (events_since idle
       (upload_post_handler truncated_upload (Some (Request 10)) idle).2).
Proof.
  split.
  - apply (proj1 (proj1 (upload_reboot_iff_done complete_upload
                           (Some (Request 10)) idle))).
    reflexivity.
  - apply (proj1 (proj2 (upload_reboot_iff_done truncated_upload
                           (Some (Request 10)) idle))).
    vm_compute. discriminate.
Defined.


(** ** The dead branch of the receive loop *)

(** Once the transport is exhausted a read answers 0 and the iteration
    leaves the handler: the loop never goes on without a script. *)
Lemma exhausted_transport_stops
    (on_zero_read : world -> Z -> upload_locals -> machine -> step_result)
    (w : world) (l : upload_locals) (m : machine) :
  loop_body on_zero_read w None l m
  = Stop (Returned ESP_FAIL)
         (esp_ota_abort (ota_handle l) (emit (EvReqRecv 1024 0) m)).
Proof.
  unfold loop_body, httpd_req_recv.
  now destruct (Z.to_nat (Z.min (Z.of_nat 1024) (remaining_len l)) =? 0)%nat.
Qed.

Section ZeroRead.

Variables on_zero_read on_zero_read' :
  world -> Z -> upload_locals -> machine -> step_result.

Variable w : world.

(** The else branch is entered only after [bytes_read <= 0] has been ruled
    out, so what stands under [bytes_read == 0] is never run. *)
Lemma loop_body_zero_read_dead (r : option recv_result)
    (l : upload_locals) (m : machine) :
  loop_body on_zero_read w r l m = loop_body on_zero_read' w r l m.
Proof.
  unfold loop_body.
  destruct (httpd_req_recv r (remaining_len l) (buf l) 1024 m)
    as [[[bytes_read buf'] remaining] m'].
  destruct (bytes_read <=? 0) eqn:Hle; [reflexivity|].
  destruct (first_chunk _); [reflexivity|].
  unfold later_chunk_branch.
  destruct (bytes_read =? 0) eqn:Hz; [|reflexivity].
  apply Z.leb_gt in Hle. apply Z.eqb_eq in Hz. lia.
Qed.

Lemma upload_loop_zero_read_dead (script : list recv_result) :
  forall (l : upload_locals) (m : machine),
    upload_loop on_zero_read w script l m
    = upload_loop on_zero_read' w script l m.
Proof.
  induction script as [|r script IH]; intros l m; cbn [upload_loop];
    rewrite loop_body_zero_read_dead; [reflexivity|].
  destruct (received l <? total_len l); [|reflexivity].
  destruct (loop_body on_zero_read' w (head (r :: script)) l m);
    [|reflexivity].
  now rewrite IH.
Qed.

Lemma upload_run_zero_read_dead (req : option httpd_req_t) (m : machine) :
  upload_run on_zero_read w req m = upload_run on_zero_read' w req m.
Proof.
  unfold upload_run. destruct req as [req|]; [|reflexivity].
  destruct (running_partition w); [|reflexivity].
  destruct (next_update_partition w); [|reflexivity].
  destruct (esp_ota_begin w _ _) as [[err h] m'].
  destruct (negb (err =? ESP_OK)); [reflexivity|].
  now rewrite upload_loop_zero_read_dead.
Qed.

End ZeroRead.

(** C9: the [bytes_read == 0] branch of the later-chunk code is unreachable:
    an iteration gets there only with [bytes_read > 0].  Whatever code is put
    under that test, every iteration, the handler's result, its calls and
    the values of [received] are what they are with the code of the source. *)
Theorem zero_read_branch_unreachable
    (on_zero_read : world -> Z -> upload_locals -> machine -> step_result)
    (w : world) :
  (forall r l m,
     loop_body on_zero_read w r l m = loop_body zero_read_branch w r l m) /\
  (forall req m,
     upload_post_handler_with on_zero_read w req m = upload_post_handler w req m
     /\ received_history on_zero_read w req m
        = received_history zero_read_branch w req m).
Proof.
  split.
  - intros r l m. apply loop_body_zero_read_dead.
  - intros req m.
    unfold upload_post_handler, upload_post_handler_with, received_history.
    now rewrite (upload_run_zero_read_dead on_zero_read zero_read_branch).
Qed.

(** ** The running total of received bytes *)

Lemma read_of_length_le (n : nat) (remaining : Z) (chunk : list byte) :
  (length (read_of n remaining chunk) <= length (take n chunk))%nat.
Proof. unfold read_of. rewrite !length_take. lia. Qed.

(** What an iteration that falls through to the loop test has done. *)
Lemma loop_body_continue (w : world) (r : option recv_result)
    (l l' : upload_locals) (m m' : machine) :
  loop_body zero_read_branch w r l m = Continue l' m' ->
  exists chunk,
    r = Some (Received chunk) /\
    0 < Z.of_nat (length (read_of 1024 (remaining_len l) chunk)) /\
    Z.of_nat (length (read_of 1024 (remaining_len l) chunk))
      <= Z.min 1024 (remaining_len l) /\
    received l'
    = to_int (received l
              + Z.of_nat (length (read_of 1024 (remaining_len l) chunk))) /\
    remaining_len l'
    = remaining_len l
      - Z.of_nat (length (read_of 1024 (remaining_len l) chunk)) /\
    total_len l' = total_len l /\
    first_chunk l' = false.
Proof.
  unfold loop_body, httpd_req_recv, read_of.
  destruct (Z.to_nat (Z.min (Z.of_nat 1024) (remaining_len l)) =? 0)%nat eqn:Hn.
  { cbn. discriminate. }
  destruct r as [[chunk|e]|].
  - cbn zeta. cbn beta iota.
    remember (take (Z.to_nat (Z.min (Z.of_nat 1024) (remaining_len l))) chunk)
      as c eqn:Hc.
    destruct (Z.of_nat (length c) <=? 0) eqn:Hle; [discriminate|].
    apply Z.leb_gt in Hle.
    assert (Hneg : (Z.of_nat (length c) <? 0) = false) by (apply Z.ltb_ge; lia).
    assert (Hmax : Z.of_nat (length c) <= Z.min 1024 (remaining_len l)).
    { rewrite Hc, length_take. apply Nat.eqb_neq in Hn. lia. }
    rewrite Hneg.
    intros H. exists chunk. rewrite <- Hc.
    split; [reflexivity|]. split; [exact Hle|]. split; [exact Hmax|].
    revert H.
    unfold first_chunk_branch, later_chunk_branch, zero_read_branch,
      esp_ota_write.
    cbn. repeat case_step; intros H; try discriminate H;
      injection H as <- <-; cbn; auto.
  - destruct e; discriminate.
  - discriminate.
Qed.

(** While the loop runs on a declared length that an [int] holds,
    [received] and the request's [remaining_len] add up to it. *)
Lemma upload_loop_bounded (w : world) (script : list recv_result) :
  forall (l : upload_locals) (m : machine),
    0 <= received l -> 0 <= remaining_len l ->
    received l + remaining_len l <= INT_MAX ->
    Forall (fun n => 0 <= n <= received l + remaining_len l)
           (upload_loop zero_read_branch w script l m).1.
Proof.
  induction script as [|r script IH]; intros l m Hrec Hrem Hsum;
    cbn [upload_loop];
    destruct (received l <? total_len l) eqn:Hlt; try (cbn; constructor).
  { (* an exhausted transport reads 0, which ends the loop *)
    rewrite exhausted_transport_stops. cbn. constructor. }
  destruct (loop_body zero_read_branch w (head (r :: script)) l m)
    as [l' m'|o m'] eqn:Hbody; [|cbn; constructor].
  apply loop_body_continue in Hbody
    as (chunk & Hr & Hpos & Hmax & Hrec' & Hrem' & Htot' & _).
  cbn in Hr. injection Hr as ->.
  unfold INT_MAX in Hsum.
  rewrite to_int_small in Hrec' by lia.
  specialize (IH l' m').
  rewrite Hrec', Hrem' in IH.
  specialize (IH ltac:(lia) ltac:(lia) ltac:(unfold INT_MAX; lia)).
  destruct (upload_loop zero_read_branch w script l' m') as [hist res].
  cbn [fst] in *. constructor; [lia|].
  eapply Forall_impl; [exact IH|]. intros n Hn. cbn beta in Hn. lia.
Qed.

(** C6: after every completed iteration of the receive loop the running
    total [received] lies between 0 and the declared content length.  The
    handler adds whatever [httpd_req_recv] returns, and [httpd_req_recv]
    never returns more than what is outstanding of the declared length. *)
Theorem received_within_content_len (w : world) (req : httpd_req_t)
    (m : machine) :
  0 <= content_len req <= UINT_MAX ->
  received_bounded w req m /\
  Forall (fun n => 0 <= n) (received_history zero_read_branch w (Some req) m).
Proof.
  intros Hlen. unfold UINT_MAX in Hlen.
  apply Forall_and. unfold received_history, upload_run.
  destruct (running_partition w); [|constructor].
  destruct (next_update_partition w) as [up|]; [|constructor].
  destruct (esp_ota_begin w up (vTaskDelay 1000 m)) as [[err h] m1].
  destruct (negb (err =? ESP_OK)); [constructor|].
  assert (Hhist : Forall (fun n => n <= content_len req /\ 0 <= n)
            (upload_loop zero_read_branch w (transport w)
                         (initial_locals w req h) m1).1).
  { destruct (Z_le_gt_dec (content_len req) INT_MAX) as [Hsmall|Hbig];
      unfold INT_MAX in *.
    - pose proof (upload_loop_bounded w (transport w)
                    (initial_locals w req h) m1) as Hb.
      cbn [initial_locals received remaining_len] in Hb.
      eapply Forall_impl;
        [apply Hb; [lia | lia | unfold INT_MAX; lia]|].
      intros n Hn. cbn beta in Hn. lia.
    - assert (Hneg : (received (initial_locals w req h)
                      <? total_len (initial_locals w req h)) = false).
      { apply Z.ltb_ge. cbn. unfold to_int.
        replace (content_len req + 2 ^ 31)
          with (content_len req - 2 ^ 31 + 1 * 2 ^ 32) by lia.
        rewrite Z.mod_add by lia. rewrite Z.mod_small by lia. lia. }
      destruct (transport w); cbn [upload_loop]; rewrite Hneg; constructor. }
  destruct (upload_loop zero_read_branch w (transport w)
              (initial_locals w req h) m1) as [hist [l' m'|o m']];
    exact Hhist.
Qed.

Lemma received_within_content_len_witness :
  received_bounded overlong_upload (Request 6) idle.
Proof.
  apply (received_within_content_len overlong_upload (Request 6) idle).
  vm_compute. split; discriminate.
Defined.


(** ** Failures of the partition-write layer *)

Lemma loop_post_extends (l : upload_locals) (m : machine) (r : step_result) :
  loop_post l m r -> exists evs, trace (machine_of r) = trace m ++ evs.
Proof.
  destruct r as [l' m'|[e|] m']; cbn.
  - intros (_ & _ & _ & x & -> & _). now exists x.
  - intros (_ & _ & x & -> & _). now eexists.
  - intros (_ & x & -> & _). now exists x.
Qed.

(** Every iteration starts by reading from the transport. *)
Lemma loop_body_head (w : world) (r : option recv_result)
    (l : upload_locals) (m : machine) :
  exists n evs,
    trace (machine_of (loop_body zero_read_branch w r l m))
    = trace m ++ EvReqRecv 1024 n :: evs.
Proof.
  unfold loop_body, httpd_req_recv.
  forget_read bytes_read buf'.
  unfold first_chunk_branch, later_chunk_branch, zero_read_branch, esp_ota_write.
  cbn.
  exists bytes_read.
  repeat case_step; eexists; rewrite <- ?app_assoc; reflexivity.
Qed.

(** What the first iteration does: it fails with an abort, runs off the
    buffer, or goes on after at most one successful write. *)
Lemma loop_body_first_chunk (w : world) (r : option recv_result)
    (l : upload_locals) (m : machine) :
  first_chunk l = true ->
  exists n,
    match loop_body zero_read_branch w r l m with
    | Continue l' m' =>
        trace m' = trace m ++ [EvReqRecv 1024 n] \/
        exists d, trace m' = trace m ++ [EvReqRecv 1024 n;
                                          EvOtaWrite (ota_handle l) d ESP_OK]
    | Stop o m' =>
        (o = Returned ESP_FAIL /\
         trace m' = trace m ++ [EvReqRecv 1024 n; EvOtaAbort (ota_handle l)]) \/
        (o = Undefined /\ trace m' = trace m ++ [EvReqRecv 1024 n]) \/
        (o = Returned ESP_FAIL /\
         exists d res,
           trace m' = trace m ++ [EvReqRecv 1024 n;
                                   EvOtaWrite (ota_handle l) d res;
                                   EvOtaAbort (ota_handle l)])
    end.
Proof.
  intros Hfirst.
  unfold loop_body, httpd_req_recv.
  forget_read bytes_read buf'.
  unfold first_chunk_branch, esp_ota_write.
  cbn. rewrite Hfirst. exists bytes_read.
  destruct (bytes_read <=? 0); cbn.
  { left. split; [reflexivity|]. now rewrite <- app_assoc. }
  destruct (strstr buf' CRLFCRLF) as [off| |]; cbn.
  - destruct (0 <? bytes_read - Z.of_nat (off + 4)); cbn.
    + destruct (ota_write_result w (ota_writes m) =? ESP_OK) eqn:Hw; cbn.
      * apply eqb_ok_true in Hw. rewrite Hw.
        right. eexists. now rewrite <- app_assoc.
      * right. right. split; [reflexivity|].
        do 2 eexists. now rewrite <- !app_assoc.
    + now left.
  - left. split; [reflexivity|]. now rewrite <- app_assoc.
  - right. left. now split.
Qed.

(** What follows a completed iteration never starts with a write: it is the
    next read, or the calls after the loop. *)
Lemma after_iteration_head (w : world) (req : httpd_req_t) (up : esp_partition_t)
    (script : list recv_result) (l : upload_locals) (m : machine) :
  let r := (after_loop w req up (upload_loop zero_read_branch w script l m)).2 in
  exists evs, trace r.2 = trace m ++ evs /\ starts_with_write evs = false.
Proof.
  assert (Hfinish : forall l0 m0,
            exists evs, trace (upload_finish w req up l0 m0).2 = trace m0 ++ evs
                        /\ starts_with_write evs = false).
  { intros l0 m0.
    destruct (upload_finish_paths w req up l0 m0) as (tail & Htail & Hc).
    exists tail. split; [exact Htail|].
    destruct Hc as [(_ & _ & [-> | [(res & _ & ->) | (res & _ & ->)]])
                   | (_ & _ & ->)]; reflexivity. }
  assert (Hstep : forall rs l0 m0,
            (received l0 <? total_len l0) = true ->
            exists n evs,
              trace (after_loop w req up
                       (upload_loop zero_read_branch w rs l0 m0)).2.2
              = trace m0 ++ EvReqRecv 1024 n :: evs).
  { intros rs l0 m0 Hlt.
    pose proof (upload_loop_post w rs l0 m0) as Hpost.
    destruct rs as [|r0 rs]; cbn [upload_loop] in Hpost |- *;
      rewrite Hlt in Hpost |- *.
    - destruct (loop_body_head w (head []) l0 m0) as (n & x & Hx).
      destruct (loop_body zero_read_branch w (head []) l0 m0)
        as [l1 m1|o m1]; cbn in Hx |- *.
      + destruct (Hfinish l1 m1) as (y & -> & _). rewrite Hx.
        exists n, (x ++ y). now rewrite <- app_assoc.
      + now exists n, x.
    - destruct (loop_body_head w (head (r0 :: rs)) l0 m0) as (n & x & Hx).
      pose proof (loop_body_post w (head (r0 :: rs)) l0 m0) as Hb.
      destruct (loop_body zero_read_branch w (head (r0 :: rs)) l0 m0)
        as [l1 m1|o m1]; cbn in Hx |- *; [|now exists n, x].
      pose proof (upload_loop_post w rs l1 m1) as Hrest.
      destruct (upload_loop zero_read_branch w rs l1 m1)
        as [hist [l2 m2|o m2]]; cbn in Hrest |- *.
      + destruct Hrest as (_ & _ & _ & y & Hy & _).
        destruct (Hfinish l2 m2) as (z & -> & _). rewrite Hy, Hx.
        exists n, (x ++ y ++ z). now rewrite <- !app_assoc.
      + apply (loop_post_extends l1 m1 (Stop o m2)) in Hrest as (y & Hy).
        cbn in Hy.
        rewrite Hy, Hx. exists n, (x ++ y). now rewrite <- !app_assoc. }
  intros r. subst r.
  destruct (received l <? total_len l) eqn:Hlt.
  - destruct (Hstep script l m Hlt) as (n & evs & ->).
    now exists (EvReqRecv 1024 n :: evs).
  - destruct script; cbn [upload_loop]; rewrite Hlt; apply Hfinish.
Qed.

Lemma transfer_event_in (h : esp_ota_handle_t) (xfer : list event) (e : event) :
  Forall (transfer_event h) xfer -> e ∈ xfer -> transfer_event h e.
Proof. intros H Hin. rewrite Forall_forall in H. now apply H. Qed.

Lemma transfer_no_abort (h : esp_ota_handle_t) (xfer : list event) :
  Forall (transfer_event h) xfer -> existsb is_abort xfer = false.
Proof.
  induction 1 as [|e xfer He _ IH]; [reflexivity|].
  cbn. rewrite IH. now destruct e.
Qed.

(** Membership in a list of a few explicit calls, by cases. *)
Ltac elem_cases H :=
  repeat (apply elem_of_cons in H as [H|H]; [try discriminate H|]);
  try (apply elem_of_nil in H; contradiction).

(** A failed [esp_ota_begin] or [esp_ota_end] ends the handler at once. *)
Lemma begin_end_failure (w : world) (req : option httpd_req_t) (m : machine) :
  let r := upload_post_handler w req m in
  let evs := events_since m r.2 in
  (forall p res,
     EvOtaBegin p res ∈ evs -> res <> ESP_OK ->
     r.1 = Returned ESP_FAIL /\ evs = [EvTaskDelay 1000; EvOtaBegin p res]) /\
  (forall h res,
     EvOtaEnd h res ∈ evs -> res <> ESP_OK ->
     r.1 = Returned ESP_FAIL /\
     exists pre, evs = pre ++ [EvOtaEnd h res] /\ existsb is_abort pre = false).
Proof.
  intros r evs.
  destruct (upload_post_handler_paths w req m) as (evs' & Htr & Hpath & _).
  fold r in Htr, Hpath.
  assert (Hevs : evs = evs') by (apply events_since_app; exact Htr).
  rewrite Hevs. clear Hevs evs Htr.
  remember (r.1) as o eqn:Ho. clear Ho r.
  split.
  - intros p res Hin Hres.
    destruct Hpath as [| |up res' Hup Hres'|up x Hup Hx|up x Hup Hx
                       |up x res' Hup Hx Hres'|up x res' Hup Hx Hres'
                       |up x Hup Hx].
    + now apply elem_of_nil in Hin.
    + elem_cases Hin.
    + elem_cases Hin. injection Hin as -> ->. now split.
    + exfalso. apply elem_of_cons in Hin as [Hin|Hin]; [discriminate|].
      apply elem_of_cons in Hin as [Hin|Hin]; [congruence|].
      apply elem_of_app in Hin as [Hin|Hin];
        [now apply (transfer_event_in _ _ _ Hx) in Hin | elem_cases Hin].
    + exfalso. apply elem_of_cons in Hin as [Hin|Hin]; [discriminate|].
      apply elem_of_cons in Hin as [Hin|Hin]; [congruence|].
      now apply (transfer_event_in _ _ _ Hx) in Hin.
    + exfalso. apply elem_of_cons in Hin as [Hin|Hin]; [discriminate|].
      apply elem_of_cons in Hin as [Hin|Hin]; [congruence|].
      apply elem_of_app in Hin as [Hin|Hin];
        [now apply (transfer_event_in _ _ _ Hx) in Hin | elem_cases Hin].
    + exfalso. apply elem_of_cons in Hin as [Hin|Hin]; [discriminate|].
      apply elem_of_cons in Hin as [Hin|Hin]; [congruence|].
      apply elem_of_app in Hin as [Hin|Hin];
        [now apply (transfer_event_in _ _ _ Hx) in Hin | elem_cases Hin].
    + exfalso. apply elem_of_cons in Hin as [Hin|Hin]; [discriminate|].
      apply elem_of_cons in Hin as [Hin|Hin]; [congruence|].
      apply elem_of_app in Hin as [Hin|Hin];
        [now apply (transfer_event_in _ _ _ Hx) in Hin | elem_cases Hin].
  - intros h' res Hin Hres.
    destruct Hpath as [| |up res' Hup Hres'|up x Hup Hx|up x Hup Hx
                       |up x res' Hup Hx Hres'|up x res' Hup Hx Hres'
                       |up x Hup Hx].
    + now apply elem_of_nil in Hin.
    + elem_cases Hin.
    + elem_cases Hin.
    + exfalso. apply elem_of_cons in Hin as [Hin|Hin]; [discriminate|].
      apply elem_of_cons in Hin as [Hin|Hin]; [discriminate|].
      apply elem_of_app in Hin as [Hin|Hin];
        [now apply (transfer_event_in _ _ _ Hx) in Hin | elem_cases Hin].
    + exfalso. apply elem_of_cons in Hin as [Hin|Hin]; [discriminate|].
      apply elem_of_cons in Hin as [Hin|Hin]; [discriminate|].
      now apply (transfer_event_in _ _ _ Hx) in Hin.
    + apply elem_of_cons in Hin as [Hin|Hin]; [discriminate|].
      apply elem_of_cons in Hin as [Hin|Hin]; [discriminate|].
      apply elem_of_app in Hin as [Hin|Hin];
        [now apply (transfer_event_in _ _ _ Hx) in Hin|].
      elem_cases Hin. injection Hin as -> ->.
      split; [reflexivity|].
      exists (EvTaskDelay 1000 :: EvOtaBegin up ESP_OK :: x).
      split; [reflexivity|]. cbn. exact (transfer_no_abort _ _ Hx).
    + exfalso. apply elem_of_cons in Hin as [Hin|Hin]; [discriminate|].
      apply elem_of_cons in Hin as [Hin|Hin]; [discriminate|].
      apply elem_of_app in Hin as [Hin|Hin];
        [now apply (transfer_event_in _ _ _ Hx) in Hin | elem_cases Hin].
      congruence.
    + exfalso. apply elem_of_cons in Hin as [Hin|Hin]; [discriminate|].
      apply elem_of_cons in Hin as [Hin|Hin]; [discriminate|].
      apply elem_of_app in Hin as [Hin|Hin];
        [now apply (transfer_event_in _ _ _ Hx) in Hin | elem_cases Hin].
      congruence.
Qed.

(** A failed write for the first chunk is followed by the abort and the
    error return. *)
Lemma first_write_failure (w : world) (req : option httpd_req_t) (m : machine) :
  let r := upload_post_handler w req m in
  forall p n h d res rest,
    events_since m r.2
      = EvTaskDelay 1000 :: EvOtaBegin p ESP_OK :: EvReqRecv 1024 n
          :: EvOtaWrite h d res :: rest ->
    res <> ESP_OK ->
    r.1 = Returned ESP_FAIL /\ rest = [EvOtaAbort h].
Proof.
  intros r p n h d res rest Hevs Hres.
  assert (Hcmp : forall evs, trace r.2 = trace m ++ evs ->
            evs = EvTaskDelay 1000 :: EvOtaBegin p ESP_OK :: EvReqRecv 1024 n
                    :: EvOtaWrite h d res :: rest).
  { intros evs Htr. now rewrite <- (events_since_app _ _ _ Htr). }
  clear Hevs. revert Hcmp.
  unfold r, upload_post_handler, upload_post_handler_with, upload_run.
  destruct req as [req|]; cbn zeta.
  2:{ intros Hcmp. specialize (Hcmp [] ltac:(cbn; now rewrite app_nil_r)).
      discriminate. }
  destruct (running_partition w) as [rp|].
  2:{ intros Hcmp. specialize (Hcmp [EvTaskDelay 1000] eq_refl). discriminate. }
  destruct (next_update_partition w) as [up|].
  2:{ intros Hcmp. specialize (Hcmp [EvTaskDelay 1000] eq_refl). discriminate. }
  unfold esp_ota_begin. cbn.
  destruct (ota_begin_result w =? ESP_OK) eqn:Hbegin; cbn; rewrite ?Hbegin; cbn.
  2:{ intros Hcmp.
      specialize (Hcmp [EvTaskDelay 1000; EvOtaBegin up (ota_begin_result w)]
                       ltac:(now rewrite <- app_assoc)).
      discriminate. }
  apply eqb_ok_true in Hbegin. rewrite Hbegin.
  set (h0 := (last_handle m + 1)%N).
  match goal with
  | |- context [upload_loop _ _ _ ?l ?m'] => set (l0 := l); set (m0 := m')
  end.
  assert (Hm0 : trace m0 = trace m ++ [EvTaskDelay 1000; EvOtaBegin up ESP_OK])
    by (cbn; now rewrite <- app_assoc).
  assert (Hfirst : first_chunk l0 = true) by reflexivity.
  assert (Hh0 : ota_handle l0 = h0) by reflexivity.
  clearbody l0 m0.
  destruct (received l0 <? total_len l0) eqn:Hlt.
  2:{ (* the loop is not entered *)
      assert (Hloop : upload_loop zero_read_branch w (transport w) l0 m0
                      = ([], Continue l0 m0))
        by (destruct (transport w); cbn [upload_loop]; now rewrite Hlt).
      rewrite Hloop. cbn [after_loop snd fst].
      destruct (upload_finish_paths w req up l0 m0) as (tail & Htail & Hc).
      cbn zeta in Htail, Hc. intros Hcmp.
      specialize (Hcmp ([EvTaskDelay 1000; EvOtaBegin up ESP_OK] ++ tail)).
      rewrite Htail, Hm0, <- app_assoc in Hcmp. specialize (Hcmp eq_refl).
      destruct Hc as [(_ & _ & [-> | [(e & _ & ->) | (e & _ & ->)]])
                     | (_ & _ & ->)]; discriminate Hcmp. }
  destruct (loop_body_first_chunk w (head (transport w)) l0 m0 Hfirst)
    as (n' & Hbody).
  rewrite Hh0 in Hbody.
  assert (Hunfold :
    (after_loop w req up
       (upload_loop zero_read_branch w (transport w) l0 m0)).2
    = match loop_body zero_read_branch w (head (transport w)) l0 m0 with
      | Stop o m' => (o, m')
      | Continue l' m' =>
          (after_loop w req up
             (upload_loop zero_read_branch w (tail (transport w)) l' m')).2
      end).
  { destruct (transport w) as [|r0 script]; cbn [upload_loop]; rewrite Hlt.
    - destruct (loop_body zero_read_branch w (head []) l0 m0)
        as [l' m'|o m'] eqn:Hb; [|reflexivity].
      apply loop_body_continue in Hb as (c & Hc & _). discriminate Hc.
    - destruct (loop_body zero_read_branch w (head (r0 :: script)) l0 m0)
        as [l' m'|o m']; [|reflexivity].
      cbn [tail].
      now destruct (upload_loop zero_read_branch w script l' m')
        as [hist [l2 m2|o m2]]. }
  rewrite Hunfold. clear Hunfold.
  destruct (loop_body zero_read_branch w (head (transport w)) l0 m0)
    as [l' m'|o m'].
  - (* the first iteration went on to the loop test *)
    destruct (after_iteration_head w req up (tail (transport w)) l' m')
      as (more & Hmore & Hhead).
    cbn zeta in Hmore. intros Hcmp.
    destruct Hbody as [Hb | (d' & Hb)].
    + specialize (Hcmp ([EvTaskDelay 1000; EvOtaBegin up ESP_OK;
                         EvReqRecv 1024 n'] ++ more)).
      rewrite Hmore, Hb, Hm0, <- !app_assoc in Hcmp.
      specialize (Hcmp eq_refl). cbn in Hcmp.
      injection Hcmp as _ _ Hm. subst more. discriminate Hhead.
    + specialize (Hcmp ([EvTaskDelay 1000; EvOtaBegin up ESP_OK;
                         EvReqRecv 1024 n'; EvOtaWrite h0 d' ESP_OK] ++ more)).
      rewrite Hmore, Hb, Hm0, <- !app_assoc in Hcmp.
      specialize (Hcmp eq_refl). cbn in Hcmp. congruence.
  - cbn [fst snd]. intros Hcmp.
    destruct Hbody as [(-> & Hb) | [(-> & Hb) | (-> & d' & res' & Hb)]].
    + specialize (Hcmp [EvTaskDelay 1000; EvOtaBegin up ESP_OK;
                        EvReqRecv 1024 n'; EvOtaAbort h0]).
      rewrite Hb, Hm0, <- !app_assoc in Hcmp.
      specialize (Hcmp eq_refl). discriminate Hcmp.
    + specialize (Hcmp [EvTaskDelay 1000; EvOtaBegin up ESP_OK;
                        EvReqRecv 1024 n']).
      rewrite Hb, Hm0, <- !app_assoc in Hcmp.
      specialize (Hcmp eq_refl). discriminate Hcmp.
    + specialize (Hcmp [EvTaskDelay 1000; EvOtaBegin up ESP_OK;
                        EvReqRecv 1024 n'; EvOtaWrite h0 d' res';
                        EvOtaAbort h0]).
      rewrite Hb, Hm0, <- !app_assoc in Hcmp.
      specialize (Hcmp eq_refl). injection Hcmp as _ _ -> _ _ <-.
      now split.
Qed.

(** C2 as stated fails: after a failed [esp_ota_end], and after a failed
    [esp_ota_begin], the handler returns the error without calling
    [esp_ota_abort]. *)
Lemma storage_failure_without_abort :
  ~ storage_failure_aborts end_fails (Some (Request 10)) idle /\
  ~ storage_failure_aborts begin_fails (Some (Request 10)) idle.
Proof.
  split; intros H; destruct (H eq_refl) as [_ Habort]; discriminate Habort.
Qed.

(** C2, amended: a failure of [esp_ota_begin] or of [esp_ota_end] makes the
    handler return [ESP_FAIL] at once, with no [esp_ota_abort] (the failed
    begin is the last call; nothing before and nothing after the failed end
    is an abort); a failure of the [esp_ota_write] issued for the first chunk
    makes it call [esp_ota_abort] on that handle and return [ESP_FAIL]. *)
Theorem storage_failure_handling (w : world) (req : option httpd_req_t)
    (m : machine) :
  let r := upload_post_handler w req m in
  let evs := events_since m r.2 in
  (forall p res,
     EvOtaBegin p res ∈ evs -> res <> ESP_OK ->
     r.1 = Returned ESP_FAIL /\ evs = [EvTaskDelay 1000; EvOtaBegin p res]) /\
  (forall h res,
     EvOtaEnd h res ∈ evs -> res <> ESP_OK ->
     r.1 = Returned ESP_FAIL /\
     exists pre, evs = pre ++ [EvOtaEnd h res] /\ existsb is_abort pre = false) /\
  (forall p n h d res rest,
     evs = EvTaskDelay 1000 :: EvOtaBegin p ESP_OK :: EvReqRecv 1024 n
             :: EvOtaWrite h d res :: rest ->
     res <> ESP_OK ->
     r.1 = Returned ESP_FAIL /\ rest = [EvOtaAbort h]).
Proof.
  intros r evs.
  destruct (begin_end_failure w req m) as [Hbegin Hend].
  split; [exact Hbegin|]. split; [exact Hend|].
  exact (first_write_failure w req m).
Qed.

Lemma storage_failure_handling_witness :
  (upload_post_handler begin_fails (Some (Request 10)) idle).1
    = Returned ESP_FAIL /\
  (upload_post_handler end_fails (Some (Request 10)) idle).1
    = Returned ESP_FAIL /\
  (upload_post_handler first_write_fails (Some (Request 10)) idle).1
    = Returned ESP_FAIL.
Proof.
  pose proof (storage_failure_handling begin_fails (Some (Request 10)) idle)
    as (Hbegin & _ & _).
  pose proof (storage_failure_handling end_fails (Some (Request 10)) idle)
    as (_ & Hend & _).
  pose proof (storage_failure_handling first_write_fails (Some (Request 10)) idle)
    as (_ & _ & Hwrite).
  split; [|split].
  - apply (Hbegin ota_1 ESP_ERR_NO_MEM).
    + vm_compute. apply list_elem_of_further, list_elem_of_here.
    + discriminate.
  - apply (Hend 1%N ESP_ERR_OTA_VALIDATE_FAILED).
    + vm_compute. do 6 apply list_elem_of_further. apply list_elem_of_here.
    + discriminate.
  - apply (Hwrite ota_1 7 1%N [x01; x02] ESP_ERR_FLASH_OP_FAIL [EvOtaAbort 1%N]).
    + reflexivity.
    + discriminate.
Defined.

(** The write for a later chunk is not checked: when it fails the session
    still runs to the boot switch and the reboot. *)
Example later_write_failure_ignored :
  let r := upload_post_handler second_write_fails (Some (Request 10)) idle in
  r.1 = Returned ESP_OK /\
  boot_partition r.2 = ota_1 /\
  EvOtaWrite 1%N [x03; x04; x05] ESP_ERR_FLASH_OP_FAIL ∈ events_since idle r.2.
Proof.
  vm_compute. repeat split.
  do 5 apply list_elem_of_further. apply list_elem_of_here.
Qed.


(** ** A first chunk without the multipart boundary *)

(** C3 as stated fails: [esp_ota_begin] is called, and has succeeded, before
    the first chunk is read.  Nor does the handler search the chunk alone:
    [buf] is not terminated after the read, so [strstr] goes on into what
    the buffer held before, and a boundary found there lets the upload run
    to completion. *)
Lemma missing_boundary_after_allocation :
  (contains CRLFCRLF [x61; x62; x63] = false /\
   ~ fails_before_allocation headerless_upload (Some (Request 10)) idle) /\
  (contains CRLFCRLF [x61; x62; x63] = false /\
   (upload_post_handler stale_boundary (Some (Request 3)) idle).1
     = Returned ESP_OK).
Proof.
  split; split; try reflexivity.
  intros [_ H]. vm_compute in H. discriminate H.
Qed.

(** C3, amended: when [strstr] finds no boundary in the buffer after the
    first read, the handler returns [ESP_FAIL] without having written to the
    partition.  [esp_ota_begin] has been called before the read; if it had
    succeeded, the handle it opened is aborted before returning. *)
Theorem missing_boundary_aborts (w : world) (req : httpd_req_t) (m : machine)
    (rp up : esp_partition_t) (chunk : list byte) :
  running_partition w = Some rp ->
  next_update_partition w = Some up ->
  0 < to_int (content_len req) ->
  head (transport w) = Some (Received chunk) ->
  read_of 1024 (content_len req) chunk <> [] ->
  strstr (first_buffer w req chunk) CRLFCRLF = NotFound ->
  let r := upload_post_handler w (Some req) m in
  r.1 = Returned ESP_FAIL /\
  events_since m r.2
    = EvTaskDelay 1000 :: EvOtaBegin up (ota_begin_result w)
        :: (if ota_begin_result w =? ESP_OK
            then [EvReqRecv 1024
                    (Z.of_nat (length (read_of 1024 (content_len req) chunk)));
                  EvOtaAbort (last_handle m + 1)%N]
            else []).
Proof.
  intros Hrp Hup Hlen Hhead Hne Hstr r.
  unfold first_buffer in Hstr. cbn zeta in Hstr. unfold read_of in *.
  remember (Z.to_nat (Z.min (Z.of_nat 1024) (content_len req))) as n eqn:Hn.
  assert (Hpos : (Z.of_nat (length (take n chunk)) <=? 0) = false).
  { apply Z.leb_gt. destruct (take n chunk); [contradiction | cbn; lia]. }
  assert (Hn0 : (n =? 0)%nat = false).
  { apply Nat.eqb_neq. intros ->. now rewrite take_0 in Hne. }
  unfold r, upload_post_handler, upload_post_handler_with, upload_run.
  rewrite Hrp, Hup. unfold esp_ota_begin. cbn.
  destruct (ota_begin_result w =? ESP_OK) eqn:Hbegin; cbn; rewrite ?Hbegin; cbn.
  2:{ split; [reflexivity|]. apply events_since_app. cbn.
      now rewrite <- app_assoc. }
  destruct (transport w) as [|r0 script]; [discriminate Hhead|].
  cbn in Hhead. injection Hhead as ->.
  cbn [upload_loop initial_locals received total_len].
  apply Z.ltb_lt in Hlen. rewrite Hlen.
  unfold loop_body, httpd_req_recv, initial_locals.
  cbn [remaining_len buf head].
  rewrite <- Hn, Hn0. cbn zeta. cbn beta iota. rewrite Hpos.
  unfold first_chunk_branch. cbn [first_chunk set_remaining_len set_buf
    set_first_chunk buf ota_handle].
  rewrite Hstr. cbn.
  split; [reflexivity|]. apply events_since_app. cbn.
  now rewrite <- !app_assoc.
Qed.

Lemma missing_boundary_aborts_witness :
  (upload_post_handler headerless_upload (Some (Request 10)) idle).1
    = Returned ESP_FAIL /\
  events_since idle
      (upload_post_handler headerless_upload (Some (Request 10)) idle).2
    = [EvTaskDelay 1000; EvOtaBegin ota_1 ESP_OK; EvReqRecv 1024 3;
       EvOtaAbort 1%N].
Proof.
  apply (missing_boundary_aborts headerless_upload (Request 10) idle
           ota_0 ota_1 [x61; x62; x63]).
  - reflexivity.
  - reflexivity.
  - reflexivity.
  - reflexivity.
  - discriminate.
  - vm_compute. reflexivity.
Defined.

(** ** The frame of the upload handler *)

Lemma loop_frame_refl (l : upload_locals) (m : machine) :
  loop_frame l m (Continue l m).
Proof. now repeat split. Qed.

Lemma loop_frame_trans (l l' : upload_locals) (m m' : machine) (r : step_result) :
  loop_frame l m (Continue l' m') -> loop_frame l' m' r -> loop_frame l m r.
Proof.
  intros (Hn & Hs & Hl & Hh & He) (Hn' & Hs' & Hl' & Hr).
  cbn in Hn, Hs, Hl.
  repeat split; try congruence.
  destruct r as [l2 m2|[e|] m2]; cbn in *.
  - destruct Hr. split; congruence.
  - congruence.
  - congruence.
Qed.

Lemma loop_body_frame (w : world) (r : option recv_result)
    (l : upload_locals) (m : machine) :
  loop_frame l m (loop_body zero_read_branch w r l m).
Proof.
  unfold loop_body, httpd_req_recv.
  forget_read bytes_read buf'.
  unfold first_chunk_branch, later_chunk_branch, zero_read_branch, esp_ota_write.
  cbn.
  repeat case_step; now repeat split.
Qed.

Lemma upload_loop_frame (w : world) (script : list recv_result) :
  forall (l : upload_locals) (m : machine),
    loop_frame l m (upload_loop zero_read_branch w script l m).2.
Proof.
  induction script as [|r script IH]; intros l m; cbn [upload_loop].
  - destruct (received l <? total_len l); [|apply loop_frame_refl].
    pose proof (loop_body_frame w (head []) l m) as Hb.
    destruct (loop_body zero_read_branch w (head []) l m); exact Hb.
  - destruct (received l <? total_len l); [|apply loop_frame_refl].
    pose proof (loop_body_frame w (head (r :: script)) l m) as Hb.
    destruct (loop_body zero_read_branch w (head (r :: script)) l m)
      as [l' m'|o m']; [|exact Hb].
    specialize (IH l' m').
    destruct (upload_loop zero_read_branch w script l' m') as [hist res].
    cbn [snd] in *. eapply loop_frame_trans; eassumption.
Qed.

Lemma upload_finish_frame (w : world) (req : httpd_req_t) (up : esp_partition_t)
    (l : upload_locals) (m : machine) :
  let r := upload_finish w req up l m in
  nvs r.2 = nvs m /\ server r.2 = server m /\
  ota_entries r.2 = delete (ota_handle l) (ota_entries m).
Proof.
  unfold upload_finish, esp_ota_end, esp_ota_set_boot_partition.
  cbn. repeat case_step; now repeat split.
Qed.

(** The handler's effect on the settings store, the server handle and the
    table of open OTA handles. *)
Lemma upload_post_handler_frame (w : world) (req : option httpd_req_t)
    (m : machine) :
  let r := upload_post_handler w req m in
  nvs r.2 = nvs m /\ server r.2 = server m /\
  (r.1 <> Undefined ->
   ota_entries r.2 = ota_entries m \/
   exists up,
     ota_entries r.2
     = delete (last_handle m + 1)%N
         (<[(last_handle m + 1)%N := up]> (ota_entries m))).
Proof.
  unfold upload_post_handler, upload_post_handler_with, upload_run.
  destruct req as [req|]; [|now repeat split; left].
  cbn zeta.
  destruct (running_partition w); [|now repeat split; left].
  destruct (next_update_partition w) as [up|]; [|now repeat split; left].
  unfold esp_ota_begin. cbn.
  destruct (ota_begin_result w =? ESP_OK) eqn:Hbegin; cbn; rewrite ?Hbegin; cbn;
    [|now repeat split; left].
  match goal with
  | |- context [upload_loop _ _ _ ?l0 ?m0] =>
      pose proof (upload_loop_frame w (transport w) l0 m0) as Hloop;
      destruct (upload_loop zero_read_branch w (transport w) l0 m0)
        as [hist [l' m'|[err|] m']]
  end; cbn in Hloop |- *.
  - destruct Hloop as (Hn & Hs & _ & Hh & He).
    destruct (upload_finish_frame w req up l' m') as (Hn' & Hs' & He').
    cbn in *. rewrite Hh, He in He'.
    split; [congruence|]. split; [congruence|].
    intros _. right. now exists up.
  - destruct Hloop as (Hn & Hs & _ & He). cbn in *.
    split; [assumption|]. split; [assumption|].
    intros _. right. now exists up.
  - destruct Hloop as (Hn & Hs & _ & He). cbn in *.
    split; [assumption|]. split; [assumption|].
    intros H. now contradiction H.
Qed.

(** ** Requests while a session is open *)

(** With both partitions at hand, the handler always goes on to
    [esp_ota_begin] on the update partition. *)
Lemma upload_always_begins (w : world) (req : httpd_req_t) (m : machine)
    (rp up : esp_partition_t) :
  running_partition w = Some rp ->
  next_update_partition w = Some up ->
  exists rest,
    events_since m (upload_post_handler w (Some req) m).2
    = EvTaskDelay 1000 :: EvOtaBegin up (ota_begin_result w) :: rest.
Proof.
  intros Hrp Hup.
  unfold upload_post_handler, upload_post_handler_with, upload_run.
  rewrite Hrp, Hup. unfold esp_ota_begin. cbn.
  destruct (ota_begin_result w =? ESP_OK) eqn:Hbegin; cbn; rewrite ?Hbegin; cbn.
  - match goal with
    | |- context [upload_loop _ _ _ ?l0 ?m0] =>
        destruct (after_iteration_head w req up (transport w) l0 m0)
          as (more & Hmore & _)
    end.
    cbn zeta in Hmore. exists more. apply events_since_app.
    rewrite Hmore. cbn. now rewrite <- !app_assoc.
  - exists []. apply events_since_app. cbn. now rewrite <- !app_assoc.
Qed.

Lemma open_sessions_app (a b : list event) :
  open_sessions (a ++ b) = open_sessions a + open_sessions b.
Proof. induction a as [|e a IH]; cbn [app open_sessions]; lia. Qed.

Lemma open_sessions_transfer (h : esp_ota_handle_t) (xfer : list event) :
  Forall (transfer_event h) xfer -> open_sessions xfer = 0.
Proof.
  induction 1 as [|e xfer He _ IH]; [reflexivity|].
  cbn [open_sessions]. rewrite IH. now destruct e.
Qed.

Lemma open_sessions_take_transfer (h : esp_ota_handle_t) (xfer : list event)
    (k : nat) :
  Forall (transfer_event h) xfer -> open_sessions (take k xfer) = 0.
Proof. intros H. apply (open_sessions_transfer h). now apply Forall_take. Qed.

(** On every path of the handler the session it opens is the only one, and a
    path that returns has closed it. *)
Lemma upload_path_sessions (w : world) (h : esp_ota_handle_t) (o : outcome)
    (evs : list event) :
  upload_path w h o evs ->
  (forall k, 0 <= open_sessions (take k evs) <= 1) /\
  (o <> Undefined -> open_sessions evs = 0).
Proof.
  assert (Hfail : forall res, res <> ESP_OK -> (res =? ESP_OK) = false).
  { intros res Hres. destruct (res =? ESP_OK) eqn:E; [|reflexivity].
    now apply eqb_ok_true in E. }
  destruct 1 as [| |up res Hup Hres|up xfer Hup Hx|up xfer Hup Hx
                |up xfer res Hup Hx Hres|up xfer res Hup Hx Hres|up xfer Hup Hx].
  - split; [intros k; rewrite take_nil; cbn; lia | reflexivity].
  - split; [intros [|[|k]]; cbn; lia | reflexivity].
  - split; [intros [|[|[|k]]]; cbn; rewrite ?(Hfail _ Hres); lia|].
    intros _. cbn. rewrite (Hfail _ Hres). reflexivity.
  - split.
    + intros [|[|k]]; cbn [take open_sessions session_change]; try (cbn; lia).
      rewrite take_app, open_sessions_app,
        (open_sessions_take_transfer h) by exact Hx.
      destruct (k - length xfer)%nat as [|[|j]]; cbn; lia.
    + intros _. cbn [open_sessions session_change].
      rewrite open_sessions_app, (open_sessions_transfer h) by exact Hx.
      cbn. lia.
  - split; [|now intros []].
    intros [|[|k]]; cbn [take open_sessions session_change]; try (cbn; lia).
    rewrite (open_sessions_take_transfer h) by exact Hx. cbn. lia.
  - split.
    + intros [|[|k]]; cbn [take open_sessions session_change]; try (cbn; lia).
      rewrite take_app, open_sessions_app,
        (open_sessions_take_transfer h) by exact Hx.
      destruct (k - length xfer)%nat as [|[|j]]; cbn; lia.
    + intros _. cbn [open_sessions session_change].
      rewrite open_sessions_app, (open_sessions_transfer h) by exact Hx.
      cbn. lia.
  - split.
    + intros [|[|k]]; cbn [take open_sessions session_change]; try (cbn; lia).
      rewrite take_app, open_sessions_app,
        (open_sessions_take_transfer h) by exact Hx.
      destruct (k - length xfer)%nat as [|[|[|j]]]; cbn; lia.
    + intros _. cbn [open_sessions session_change].
      rewrite open_sessions_app, (open_sessions_transfer h) by exact Hx.
      cbn. lia.
  - split.
    + intros [|[|k]]; cbn [take open_sessions session_change]; try (cbn; lia).
      rewrite take_app, open_sessions_app,
        (open_sessions_take_transfer h) by exact Hx.
      destruct (k - length xfer)%nat as [|[|[|[|[|j]]]]]; cbn; lia.
    + intros _. cbn [open_sessions session_change].
      rewrite open_sessions_app, (open_sessions_transfer h) by exact Hx.
      cbn. lia.
Qed.

(** The calls of a sequence of handler calls, counted as sessions. *)
Lemma serve_uploads_sessions (reqs : list (world * option httpd_req_t)) :
  forall m : machine,
    exists evs,
      trace (serve_uploads reqs m).2 = trace m ++ evs /\
      (forall k, 0 <= open_sessions (take k evs) <= 1) /\
      (Forall (fun o => o <> Undefined) (serve_uploads reqs m).1 ->
       open_sessions evs = 0).
Proof.
  induction reqs as [|[w req] reqs IH]; intros m; cbn [serve_uploads].
  - exists []. cbn. rewrite app_nil_r. split; [reflexivity|]. split; [|reflexivity].
    intros k. rewrite take_nil. cbn. lia.
  - destruct (upload_post_handler_paths w req m) as (evs1 & Htr & Hpath & _).
    cbn zeta in Htr, Hpath.
    apply upload_path_sessions in Hpath as [Hpre Hclosed].
    destruct (upload_post_handler w req m).1 as [e|] eqn:Hres.
    + destruct (IH (upload_post_handler w req m).2) as (evs2 & Htr2 & Hpre2 & Hcl2).
      cbn [fst snd].
      exists (evs1 ++ evs2). split; [|split].
      * now rewrite Htr2, Htr, <- app_assoc.
      * intros k. rewrite take_app, open_sessions_app.
        destruct (decide (k <= length evs1)%nat) as [Hk|Hk].
        -- replace (k - length evs1)%nat with 0%nat by lia.
           rewrite take_0. cbn [open_sessions]. specialize (Hpre k). lia.
        -- rewrite take_ge by lia. rewrite Hclosed by discriminate.
           specialize (Hpre2 (k - length evs1)%nat). lia.
      * intros Hall. apply Forall_cons in Hall as [_ Hall].
        rewrite open_sessions_app, Hclosed by discriminate.
        rewrite (Hcl2 Hall). reflexivity.
    + cbn [fst snd]. exists evs1. split; [exact Htr|]. split; [exact Hpre|].
      intros Hall. apply Forall_cons in Hall as [Hu _]. now contradiction Hu.
Qed.

(** A sequence of calls that all return leaves no handle open. *)
Lemma serve_uploads_entries (reqs : list (world * option httpd_req_t)) :
  forall m : machine,
    ota_entries m = ∅ ->
    Forall (fun o => o <> Undefined) (serve_uploads reqs m).1 ->
    ota_entries (serve_uploads reqs m).2 = ∅.
Proof.
  induction reqs as [|[w req] reqs IH]; intros m Hm; cbn [serve_uploads].
  - intros _. exact Hm.
  - destruct (upload_post_handler_frame w req m) as (_ & _ & He).
    cbn zeta in He.
    destruct (upload_post_handler w req m).1 as [e|] eqn:Hres.
    + cbn [fst snd]. intros Hall. apply Forall_cons in Hall as [_ Hall].
      apply IH; [|exact Hall].
      destruct (He ltac:(discriminate)) as [->|[up ->]]; [exact Hm|].
      rewrite Hm. apply map_eq. intros i.
      destruct (decide (i = (last_handle m + 1)%N)) as [->|Hi].
      * now rewrite lookup_delete_eq, lookup_empty.
      * now rewrite lookup_delete_ne, lookup_insert_ne by congruence.
    + cbn [fst snd]. intros Hall. apply Forall_cons in Hall as [Hu _].
      now contradiction Hu.
Qed.

(** C5 as stated fails: a request that arrived while an upload was being
    handled is not turned away.  The server task calls the handler for it
    when the first call has returned, and that call opens a session on the
    same update partition and runs it to the end; here both uploads are
    reported as successful. *)
Lemma second_upload_not_rejected :
  let first := upload_post_handler complete_upload (Some (Request 10)) idle in
  (serve_uploads [(complete_upload, Some (Request 10));
                  (complete_upload, Some (Request 10))] idle).1
    = [Returned ESP_OK; Returned ESP_OK] /\
  ~ rejected_as_busy complete_upload (Some (Request 10)) first.2 /\
  EvOtaBegin ota_1 ESP_OK
    ∈ events_since first.2
        (upload_post_handler complete_upload (Some (Request 10)) first.2).2.
Proof.
  split; [reflexivity|]. split.
  - intros [H _]. vm_compute in H. discriminate H.
  - vm_compute. apply list_elem_of_further, list_elem_of_here.
Qed.

(** C5, amended: at most one OTA session is open at any time, because the
    server task runs the handler for one request at a time and every call
    that returns has closed the session it opened.  No request is rejected
    as busy: one that arrived during a session is handled when that call has
    returned, and whenever both partitions are found it begins a session of
    its own on the update partition. *)
Theorem uploads_one_session_at_a_time
    (reqs : list (world * option httpd_req_t)) (m : machine) :
  ota_entries m = ∅ ->
  let s := serve_uploads reqs m in
  (forall k, 0 <= open_sessions (take k (events_since m s.2)) <= 1) /\
  (Forall (fun o => o <> Undefined) s.1 ->
   open_sessions (events_since m s.2) = 0 /\ ota_entries s.2 = ∅) /\
  (forall before w req after rp up,
     reqs = before ++ (w, Some req) :: after ->
     running_partition w = Some rp -> next_update_partition w = Some up ->
     let m0 := (serve_uploads before m).2 in
     exists rest,
       events_since m0 (upload_post_handler w (Some req) m0).2
       = EvTaskDelay 1000 :: EvOtaBegin up (ota_begin_result w) :: rest).
Proof.
  intros Hm s.
  destruct (serve_uploads_sessions reqs m) as (evs & Htr & Hpre & Hclosed).
  fold s in Htr, Hclosed.
  assert (Hevs : events_since m s.2 = evs) by now apply events_since_app.
  rewrite Hevs. split; [exact Hpre|]. split.
  - intros Hall. split; [exact (Hclosed Hall)|].
    now apply serve_uploads_entries.
  - intros before w req after rp up _ Hrp Hup m0.
    exact (upload_always_begins w req m0 rp up Hrp Hup).
Qed.

Lemma uploads_one_session_at_a_time_witness :
  let s := serve_uploads [(headerless_upload, Some (Request 10));
                          (complete_upload, Some (Request 10))] idle in
  open_sessions (events_since idle s.2) = 0 /\ ota_entries s.2 = ∅.
Proof.
  apply (uploads_one_session_at_a_time
           [(headerless_upload, Some (Request 10));
            (complete_upload, Some (Request 10))] idle eq_refl).
  vm_compute. repeat constructor; discriminate.
Defined.

(** ** The settings round trip *)


Lemma digit_char_spec (d : Z) :
  0 <= d <= 9 ->
  isdigit (digit_char d) = true /\ Z_of_byte (digit_char d) - 48 = d.
Proof.
  intros H.
  assert (Hd : d = 0 \/ d = 1 \/ d = 2 \/ d = 3 \/ d = 4 \/ d = 5 \/ d = 6
               \/ d = 7 \/ d = 8 \/ d = 9) by lia.
  repeat (destruct Hd as [-> | Hd]; [now vm_compute|]). subst d. now vm_compute.
Qed.

(** What else is known of a digit character. *)
Lemma isdigit_plain (c : byte) :
  isdigit c = true ->
  isspace c = false /\ Byte.eqb c x2d = false /\ Byte.eqb c x2b = false /\
  Byte.eqb c x26 = false /\ Byte.eqb c x3d = false /\ Byte.eqb c x00 = false.
Proof. destruct c; vm_compute; intros H; try discriminate H; auto 10. Qed.

Lemma decimal_digits_shape (fuel : nat) :
  forall (n : Z) (acc : list byte),
    0 <= n ->
    exists ds,
      decimal_digits fuel n acc = ds ++ acc /\
      Forall (fun c => isdigit c = true) ds /\
      (length ds <= fuel)%nat /\
      (fuel <> 0%nat -> ds <> []).
Proof.
  induction fuel as [|fuel IH]; intros n acc Hn; cbn [decimal_digits].
  - exists []. split; [reflexivity|]. split; [apply Forall_nil_2|].
    split; [cbn; lia | congruence].
  - assert (Hd : isdigit (digit_char (n mod 10)) = true).
    { apply digit_char_spec.
      pose proof (Z.mod_pos_bound n 10 ltac:(lia)). lia. }
    destruct (n / 10 =? 0).
    + exists [digit_char (n mod 10)].
      split; [reflexivity|]. split; [now repeat constructor|].
      split; [cbn; lia | discriminate].
    + destruct (IH (n / 10) (digit_char (n mod 10) :: acc)
                  ltac:(apply Z.div_pos; lia)) as (ds & -> & Hall & Hlen & _).
      exists (ds ++ [digit_char (n mod 10)]).
      rewrite <- app_assoc. split; [reflexivity|].
      split; [|split].
      * apply Forall_app. split; [exact Hall | now repeat constructor].
      * rewrite length_app. cbn. lia.
      * intros _. now destruct ds.
Qed.

(** Reading back the digits of [n] gives [n]. *)
Lemma strtol_decimal_digits (fuel : nat) :
  forall (n : Z) (acc : list byte),
    0 <= n < 10 ^ Z.of_nat fuel ->
    strtol_digits (decimal_digits fuel n acc) 0 = strtol_digits acc n.
Proof.
  induction fuel as [|fuel IH]; intros n acc Hn.
  - cbn in Hn. assert (n = 0) by lia. now subst n.
  - cbn [decimal_digits].
    assert (Hmod : 0 <= n mod 10 <= 9)
      by (pose proof (Z.mod_pos_bound n 10 ltac:(lia)); lia).
    destruct (digit_char_spec (n mod 10) Hmod) as [Hdig Hval].
    pose proof (Z.div_mod n 10 ltac:(lia)) as Hdm.
    destruct (n / 10 =? 0) eqn:Hq.
    + apply Z.eqb_eq in Hq. cbn [strtol_digits]. rewrite Hdig, Hval.
      f_equal. lia.
    + apply Z.eqb_neq in Hq.
      rewrite IH.
      * cbn [strtol_digits]. rewrite Hdig, Hval. f_equal. lia.
      * rewrite Nat2Z.inj_succ, Z.pow_succ_r in Hn by lia.
        split; [apply Z.div_pos; lia|].
        apply Z.div_lt_upper_bound; lia.
Qed.

Lemma decimal_fuel (n : Z) :
  0 <= n -> n < 10 ^ Z.of_nat (S (Z.to_nat (Z.log2 n))).
Proof.
  intros Hn.
  rewrite Nat2Z.inj_succ, Z2Nat.id by apply Z.log2_nonneg.
  destruct (Z.eq_dec n 0) as [->|Hnz].
  - cbn. lia.
  - pose proof (Z.log2_spec n ltac:(lia)) as [_ Hup].
    eapply Z.lt_le_trans; [exact Hup|].
    apply Z.pow_le_mono_l. pose proof (Z.log2_nonneg n). lia.
Qed.


Lemma strchr_absent (s : list byte) (x : byte) :
  Forall (fun c => Byte.eqb c x = false) s -> strchr s x = None.
Proof.
  induction 1 as [|c s Hc _ IH]; cbn; [reflexivity|].
  now rewrite Hc, IH.
Qed.

Lemma insert_after (body : list byte) (x a : byte) (rest : list byte) :
  <[length body := x]> (body ++ a :: rest) = body ++ x :: rest.
Proof.
  rewrite insert_app_r_alt by lia. now rewrite Nat.sub_diag.
Qed.

(** The numeral of [v]: no ['&'], no NUL, and not longer than its fuel and
    a sign. *)
Lemma decimal_chars (v : Z) :
  Forall (fun c => Byte.eqb c x26 = false) (decimal v) /\
  Forall (fun c => Byte.eqb c x00 = false) (decimal v) /\
  (length (decimal v) <= S (S (Z.to_nat (Z.log2 (Z.abs v)))))%nat.
Proof.
  unfold decimal.
  destruct (decimal_digits_shape (S (Z.to_nat (Z.log2 (Z.abs v)))) (Z.abs v) []
              ltac:(lia)) as (ds & -> & Hall & Hlen & _).
  rewrite app_nil_r.
  assert (Hamp : Forall (fun c => Byte.eqb c x26 = false) ds).
  { eapply Forall_impl; [exact Hall|]. intros c Hc. now apply isdigit_plain. }
  assert (Hnul : Forall (fun c => Byte.eqb c x00 = false) ds).
  { eapply Forall_impl; [exact Hall|]. intros c Hc. now apply isdigit_plain. }
  destruct (v <? 0).
  - split; [|split]; [now constructor | now constructor | cbn; lia].
  - split; [|split]; [assumption | assumption | lia].
Qed.

Lemma decimal_length_long (v : Z) :
  LONG_MIN <= v <= LONG_MAX -> (length (decimal v) <= 33)%nat.
Proof.
  intros Hv. destruct (decimal_chars v) as (_ & _ & Hlen).
  assert (Hlog : Z.log2 (Z.abs v) <= 31).
  { destruct (Z.eq_dec (Z.abs v) 0) as [->|Hnz]; [cbn; lia|].
    apply Z.lt_succ_r. apply Z.log2_lt_pow2; unfold LONG_MIN, LONG_MAX in *; lia. }
  pose proof (Z.log2_nonneg (Z.abs v)). lia.
Qed.

(** One round of [httpd_query_key_value] that finds its key. *)
Lemma query_key_value_hit (fuel : nat) (qry key : list byte) (buf_len offset : nat) :
  qry <> [] ->
  strchr qry x3d = Some offset ->
  offset = length key ->
  strncasecmp_eq (take offset qry) key = true ->
  query_key_value_loop (S fuel) qry key buf_len
  = let val_ptr := drop (S offset) qry in
    let val_size := S (default (length val_ptr) (strchr val_ptr x26)) in
    (if (buf_len <? val_size)%nat then ESP_ERR_HTTPD_RESULT_TRUNC else ESP_OK,
     take (Nat.min val_size buf_len - 1) val_ptr).
Proof.
  intros Hne Heq Hoff Hkey. cbn [query_key_value_loop].
  destruct qry as [|c qry]; [contradiction|].
  rewrite Heq, Hkey, <- Hoff, Nat.eqb_refl. cbn [negb orb]. cbn zeta.
  now destruct (buf_len <? _)%nat.
Qed.

(** [httpd_query_key_value] finds the value of a body [serial=<value>]. *)
Lemma query_serial (value : list byte) :
  Forall (fun c => Byte.eqb c x26 = false) value ->
  (length value <= 63)%nat ->
  httpd_query_key_value (String.list_byte_of_string "serial=" ++ value)
                        (String.list_byte_of_string "serial") 64
  = (ESP_OK, value).
Proof.
  intros Hamp Hlen.
  unfold httpd_query_key_value.
  change (length (String.list_byte_of_string "serial=" ++ value))
    with (S (6 + length value)).
  rewrite (query_key_value_hit _ _ _ _ 6);
    [|discriminate|reflexivity|reflexivity|reflexivity].
  change (drop 7 (String.list_byte_of_string "serial=" ++ value)) with value.
  cbn zeta.
  rewrite (strchr_absent value x26 Hamp). cbn [default].
  replace (Nat.min (S (length value)) 64 - 1)%nat with (length value) by lia.
  rewrite firstn_all.
  destruct (64 <? S (length value))%nat eqn:Hlt; [|reflexivity].
  apply Nat.ltb_lt in Hlt. lia.
Qed.

Lemma Z_of_byte_of_Z (z : Z) : Z_of_byte (byte_of_Z z) = z mod 256.
Proof.
  unfold Z_of_byte, byte_of_Z.
  pose proof (Z.mod_pos_bound z 256 ltac:(lia)) as Hr.
  destruct (Byte.of_N (Z.to_N (z mod 256))) as [b|] eqn:Hb; cbn.
  - apply Byte.to_of_N in Hb. rewrite Hb. lia.
  - apply Byte.of_N_None_iff in Hb. lia.
Qed.

Lemma le_value_le_bytes (v : Z) :
  Settings.le_value (Settings.le_bytes v) = to_size_t v.
Proof.
  unfold Settings.le_bytes, Settings.le_value, to_size_t.
  rewrite !Z_of_byte_of_Z.
  change (2 ^ 16) with (2 ^ 8 * 2 ^ 8).
  change (2 ^ 24) with (2 ^ 8 * 2 ^ 8 * 2 ^ 8).
  rewrite <- !Z.div_div by lia.
  change (2 ^ 8) with 256.
  set (q1 := v / 256). set (q2 := q1 / 256). set (q3 := q2 / 256).
  pose proof (Z.div_mod v 256 ltac:(lia)) as H0.
  pose proof (Z.div_mod q1 256 ltac:(lia)) as H1.
  pose proof (Z.div_mod q2 256 ltac:(lia)) as H2.
  pose proof (Z.div_mod q3 256 ltac:(lia)) as H3.
  pose proof (Z.mod_pos_bound v 256 ltac:(lia)).
  pose proof (Z.mod_pos_bound q1 256 ltac:(lia)).
  pose proof (Z.mod_pos_bound q2 256 ltac:(lia)).
  pose proof (Z.mod_pos_bound q3 256 ltac:(lia)).
  fold q1 in H0. fold q2 in H1. fold q3 in H2.
  apply (Z.mod_unique_pos _ _ (q3 / 256)); lia.
Qed.

(** What [set_serial_nbr] has written under a healthy NVS is what
    [get_serial_nbr] reads under a healthy NVS. *)
Lemma nvs_read_back (w w' : Settings.nvs_world) (v : Z) (fl : Settings.nvs_flash) :
  nvs_healthy w -> nvs_healthy w' ->
  Settings.get_serial_nbr w' (Settings.set_serial_nbr w v fl) = to_size_t v.
Proof.
  intros (Hopen & Hset & Hcommit) (Hopen' & _).
  unfold Settings.get_serial_nbr, Settings.set_serial_nbr,
    Settings.get_setting, Settings.set_setting, Settings.nvs_set,
    Settings.nvs_get.
  rewrite !Hopen, !Hopen', Hset.
  replace (ESP_OK =? ESP_OK) with true by reflexivity. cbn [negb fst snd].
  rewrite lookup_insert_eq. cbn.
  apply le_value_le_bytes.
Qed.

Lemma c_str_app_nul_any (c rest : list byte) :
  c_str (c ++ x00 :: rest) = c_str c.
Proof.
  induction c as [|x c IH]; cbn; [reflexivity|].
  destruct (Byte.eqb x x00); [reflexivity | now rewrite IH].
Qed.

Lemma c_str_plain (s : list byte) :
  Forall (fun c => Byte.eqb c x00 = false) s -> c_str s = s.
Proof.
  induction 1 as [|c s Hc _ IH]; cbn; [reflexivity|]. now rewrite Hc, IH.
Qed.

Lemma posted_bytes_short (w : world) (req : httpd_req_t) :
  (length (posted_bytes w req) <= 511)%nat.
Proof.
  unfold posted_bytes, read_of.
  destruct (head (transport w)) as [[chunk|]|]; cbn [length]; try lia.
  rewrite length_take. lia.
Qed.

(** The handler when nothing is received. *)
Lemma settings_post_nothing (w : world) (req : httpd_req_t) (m : machine) :
  posted_bytes w req = [] ->
  exists ret,
    settings_post_handler w req m
    = (Returned ESP_FAIL, emit (EvReqRecv 511 ret) m).
Proof.
  unfold posted_bytes, read_of, settings_post_handler, httpd_req_recv.
  destruct (Z.to_nat (Z.min (Z.of_nat 511) (content_len req)) =? 0)%nat;
    [intros _; eexists; reflexivity|].
  destruct (head (transport w)) as [[chunk|e]|]; intros Hnone.
  - rewrite Hnone. cbn. eexists. reflexivity.
  - destruct e; cbn; eexists; reflexivity.
  - cbn. eexists. reflexivity.
Qed.

(** The handler when something is received: the query string is the
    received bytes up to their first NUL. *)
Lemma settings_post_received (w : world) (req : httpd_req_t) (m : machine) :
  posted_bytes w req <> [] ->
  settings_post_handler w req m
  = let m1 := emit (EvReqRecv 511 (Z.of_nat (length (posted_bytes w req)))) m in
    let q := httpd_query_key_value (c_str (posted_bytes w req))
               (String.list_byte_of_string "serial") 64 in
    (Returned ESP_OK,
     httpd_resp_sendstr settings_saved_html
       (if q.1 =? ESP_OK then set_serial_nbr w (to_size_t (atol q.2)) m1
        else m1)).
Proof.
  intros Hsome. pose proof (posted_bytes_short w req) as Hshort.
  revert Hsome Hshort.
  unfold posted_bytes, read_of, settings_post_handler, httpd_req_recv.
  destruct (head (transport w)) as [[chunk|e]|]; try congruence.
  remember (Z.to_nat (Z.min (Z.of_nat 511) (content_len req))) as n eqn:Hn.
  remember (take n chunk) as c eqn:Hc. intros Hsome Hshort.
  destruct (n =? 0)%nat eqn:Hn0.
  { apply Nat.eqb_eq in Hn0. rewrite Hn0, take_0 in Hc. congruence. }
  cbn zeta. cbn beta iota.
  destruct (Z.of_nat (length c) <=? 0) eqn:Hle.
  { apply Z.leb_le in Hle. destruct c; [congruence | cbn in Hle; lia]. }
  rewrite Nat2Z.id.
  destruct (drop (length c) (resize 512 x00 (stack_garbage w)))
    as [|a rest] eqn:Hdrop.
  { apply (f_equal length) in Hdrop.
    rewrite length_drop, length_resize in Hdrop. cbn in Hdrop. lia. }
  rewrite insert_after, c_str_app_nul_any.
  now destruct (httpd_query_key_value (c_str c)
                  (String.list_byte_of_string "serial") 64) as [err value].
Qed.

(** A posted body that is received whole and holds no NUL is the query
    string. *)
Lemma posted_body (w : world) (req : httpd_req_t) (body : list byte) :
  posted_bytes w req = body ->
  Forall (fun c => Byte.eqb c x00 = false) body ->
  c_str (posted_bytes w req) = body.
Proof. intros -> Hnul. now apply c_str_plain. Qed.







(** * Further properties *)

(** ** What the upload handler leaves alone *)

(** X1.  The handler does not leak its OTA handle: whenever it returns, the
    table of open handles is what it was before the call (the handle that
    [esp_ota_begin] hands out being a fresh one). *)
Theorem upload_releases_its_handle (w : world) (req : option httpd_req_t)
    (m : machine) :
  ota_entries m !! (last_handle m + 1)%N = None ->
  let r := upload_post_handler w req m in
  r.1 <> Undefined -> ota_entries r.2 = ota_entries m.
Proof.
  intros Hfresh r Hret.
  destruct (upload_post_handler_frame w req m) as (_ & _ & He).
  destruct (He Hret) as [Hsame | (up & Hdel)]; [exact Hsame|].
  fold r in Hdel. rewrite Hdel, delete_insert_eq. now apply delete_id.
Qed.

Lemma upload_releases_its_handle_witness :
  ota_entries (upload_post_handler truncated_upload (Some (Request 10)) receiving).2
  = ota_entries receiving.
Proof.
  apply (upload_releases_its_handle truncated_upload (Some (Request 10)) receiving).
  - reflexivity.
  - vm_compute. discriminate.
Defined.

(** X2.  The handler never changes the settings store and never touches the
    HTTP server handle, on any path. *)
Theorem upload_keeps_settings_and_server (w : world) (req : option httpd_req_t)
    (m : machine) :
  let r := upload_post_handler w req m in
  nvs r.2 = nvs m /\ server r.2 = server m.
Proof.
  intros r. destruct (upload_post_handler_frame w req m) as (Hn & Hs & _).
  now split.
Qed.

(** X3.  The handler answers the request only on success: the single
    response it ever sends is the success text, and on every path that ends
    in an error (or runs off the buffer) it has sent no response at all. *)
Theorem upload_responds_only_on_success (w : world) (req : option httpd_req_t)
    (m : machine) :
  let r := upload_post_handler w req m in
  let evs := events_since m r.2 in
  (r.1 = Returned ESP_OK ->
   List.filter is_response evs
   = [EvRespSendstr "Upload successful! Rebooting..."]) /\
  (r.1 <> Returned ESP_OK -> List.filter is_response evs = []).
Proof.
  intros r evs.
  destruct (upload_post_handler_paths w req m) as (evs' & Htr & Hpath & _).
  fold r in Htr, Hpath.
  assert (Hevs : evs = evs') by (apply events_since_app; exact Htr).
  rewrite Hevs. clear Hevs evs Htr.
  assert (Hx : forall h x, Forall (transfer_event h) x ->
                           List.filter is_response x = []).
  { intros h x Hx. induction Hx as [|ev x He _ IH]; [reflexivity|].
    destruct ev; try contradiction; exact IH. }
  remember (r.1) as o eqn:Ho. clear Ho r.
  destruct Hpath as [| |up res' Hup Hres'|up x Hup Hxf|up x Hup Hxf
                     |up x res' Hup Hxf Hres'|up x res' Hup Hxf Hres'
                     |up x Hup Hxf];
    (split; [intros Hok; try discriminate Hok
            | intros Hne; try (now contradiction Hne)]);
    try reflexivity;
    cbn [List.filter is_response];
    rewrite ?List.filter_app, (Hx _ _ Hxf); reflexivity.
Qed.

Lemma upload_responds_only_on_success_witness :
  List.filter is_response
    (events_since idle
       (upload_post_handler complete_upload (Some (Request 10)) idle).2)
  = [EvRespSendstr "Upload successful! Rebooting..."] /\
  List.filter is_response
    (events_since idle
       (upload_post_handler truncated_upload (Some (Request 10)) idle).2)
  = [].
Proof.
  split.
  - apply (proj1 (upload_responds_only_on_success complete_upload
                    (Some (Request 10)) idle)).
    reflexivity.
  - apply (proj2 (upload_responds_only_on_success truncated_upload
                    (Some (Request 10)) idle)).
    vm_compute. discriminate.
Defined.

(** ** Declared lengths at the edges *)

Lemma to_int_big (z : Z) : 2 ^ 31 <= z < 2 ^ 32 -> to_int z = z - 2 ^ 32.
Proof.
  intros H. unfold to_int.
  replace (z + 2 ^ 31) with (z - 2 ^ 31 + 1 * 2 ^ 32) by lia.
  rewrite Z.mod_add by lia. rewrite Z.mod_small by lia. lia.
Qed.

Lemma to_int_range (z : Z) : - 2 ^ 31 <= to_int z < 2 ^ 31.
Proof.
  unfold to_int. pose proof (Z.mod_pos_bound (z + 2 ^ 31) (2 ^ 32) ltac:(lia)).
  lia.
Qed.

(** When the loop test fails at once, the loop does nothing. *)
Lemma upload_loop_done (w : world) (script : list recv_result)
    (l : upload_locals) (m : machine) :
  (received l <? total_len l) = false ->
  upload_loop zero_read_branch w script l m = ([], Continue l m).
Proof. intros H. destruct script; cbn [upload_loop]; now rewrite H. Qed.

(** X4.  A declared length above [INT_MAX] makes [total_len]
    negative: the loop is skipped, the size check fails, and the handler
    aborts and returns [ESP_FAIL] without a single read. *)
Theorem oversized_upload_rejected (w : world) (req : httpd_req_t) (m : machine)
    (rp up : esp_partition_t) :
  running_partition w = Some rp ->
  next_update_partition w = Some up ->
  INT_MAX < content_len req <= UINT_MAX ->
  let r := upload_post_handler w (Some req) m in
  r.1 = Returned ESP_FAIL /\
  events_since m r.2
  = EvTaskDelay 1000 :: EvOtaBegin up (ota_begin_result w)
      :: (if ota_begin_result w =? ESP_OK
          then [EvOtaAbort (last_handle m + 1)%N] else []).
Proof.
  intros Hrp Hup Hlen r. unfold INT_MAX, UINT_MAX in Hlen.
  unfold r, upload_post_handler, upload_post_handler_with, upload_run.
  rewrite Hrp, Hup. unfold esp_ota_begin. cbn.
  destruct (ota_begin_result w =? ESP_OK) eqn:Hbegin; cbn; rewrite ?Hbegin; cbn.
  2:{ split; [reflexivity|]. apply events_since_app. cbn.
      now rewrite <- ?app_assoc. }
  rewrite upload_loop_done.
  2:{ apply Z.ltb_ge. cbn. rewrite to_int_big by lia. lia. }
  cbn [after_loop]. unfold upload_finish. cbn [received initial_locals ota_handle].
  assert (Hne : (to_size_t 0 =? to_size_t (content_len req)) = false).
  { apply Z.eqb_neq. unfold to_size_t.
    rewrite (Z.mod_small (content_len req)) by lia.
    rewrite Z.mod_0_l by lia. lia. }
  rewrite Hne. cbn.
  split; [reflexivity|]. apply events_since_app. cbn.
  now rewrite <- ?app_assoc.
Qed.

Lemma oversized_upload_rejected_witness :
  (upload_post_handler complete_upload (Some (Request 3000000000)) idle).1
  = Returned ESP_FAIL /\
  events_since idle
    (upload_post_handler complete_upload (Some (Request 3000000000)) idle).2
  = [EvTaskDelay 1000; EvOtaBegin ota_1 ESP_OK; EvOtaAbort 1%N].
Proof.
  apply (oversized_upload_rejected complete_upload (Request 3000000000) idle
           ota_0 ota_1).
  - reflexivity.
  - reflexivity.
  - vm_compute. split; [reflexivity | discriminate].
Defined.

(** X5.  With a declared length of 0 the handler reads nothing and writes
    nothing: after [esp_ota_begin] its next call is [esp_ota_end], on a
    handle to which nothing was written.  [esp_ota_end] refuses such a
    handle, and then the handler returns [ESP_FAIL], makes no further call
    and leaves the boot partition as it was. *)
Theorem empty_upload_fails_at_end (w : world) (req : httpd_req_t) (m : machine)
    (rp up : esp_partition_t) :
  running_partition w = Some rp ->
  next_update_partition w = Some up ->
  content_len req = 0 ->
  ota_end_result w <> ESP_OK ->
  let r := upload_post_handler w (Some req) m in
  let h := (last_handle m + 1)%N in
  r.1 = Returned ESP_FAIL /\
  boot_partition r.2 = boot_partition m /\
  events_since m r.2
  = EvTaskDelay 1000 :: EvOtaBegin up (ota_begin_result w)
      :: (if ota_begin_result w =? ESP_OK
          then [EvOtaEnd h (ota_end_result w)] else []).
Proof.
  intros Hrp Hup Hlen Hrefused r h.
  assert (Hend : (ota_end_result w =? ESP_OK) = false).
  { destruct (ota_end_result w =? ESP_OK) eqn:E; [|reflexivity].
    now apply eqb_ok_true in E. }
  unfold r, h, upload_post_handler, upload_post_handler_with, upload_run.
  rewrite Hrp, Hup. unfold esp_ota_begin. cbn.
  destruct (ota_begin_result w =? ESP_OK) eqn:Hbegin; cbn; rewrite ?Hbegin; cbn.
  2:{ split; [reflexivity|]. split; [reflexivity|]. apply events_since_app.
      cbn. now rewrite <- ?app_assoc. }
  rewrite upload_loop_done by (cbn; now rewrite Hlen).
  cbn [after_loop]. unfold upload_finish, esp_ota_end, esp_ota_set_boot_partition.
  cbn. rewrite Hlen, Z.eqb_refl. cbn. rewrite Hend. cbn.
  split; [reflexivity|]. split; [reflexivity|]. apply events_since_app. cbn.
  now rewrite <- ?app_assoc.
Qed.

Lemma empty_upload_fails_at_end_witness :
  (upload_post_handler empty_upload (Some (Request 0)) idle).1
    = Returned ESP_FAIL
  /\ boot_partition (upload_post_handler empty_upload (Some (Request 0)) idle).2
     = ota_0
  /\ events_since idle
       (upload_post_handler empty_upload (Some (Request 0)) idle).2
     = [EvTaskDelay 1000; EvOtaBegin ota_1 ESP_OK;
        EvOtaEnd 1%N ESP_ERR_INVALID_ARG].
Proof.
  apply (empty_upload_fails_at_end empty_upload (Request 0) idle ota_0 ota_1).
  - reflexivity.
  - reflexivity.
  - reflexivity.
  - discriminate.
Defined.

(** ** An upload that is cut short *)

Lemma total_bytes_cons (r : recv_result) (script : list recv_result) :
  total_bytes (r :: script)
  = Z.of_nat (length (chunk_bytes r)) + total_bytes script.
Proof. unfold total_bytes. cbn. rewrite length_app. lia. Qed.

Lemma total_bytes_nonneg (script : list recv_result) : 0 <= total_bytes script.
Proof. unfold total_bytes. lia. Qed.

(** A transport that holds fewer bytes than are still expected cannot
    satisfy the loop test: the loop leaves the handler. *)
Lemma short_transport_stops (w : world) (script : list recv_result) :
  forall (l : upload_locals) (m : machine),
    0 <= received l -> total_len l <= INT_MAX ->
    received l + total_bytes script < total_len l ->
    exists o m', (upload_loop zero_read_branch w script l m).2 = Stop o m'.
Proof.
  induction script as [|r script IH]; intros l m Hrec Htot Hshort;
    cbn [upload_loop].
  - pose proof (total_bytes_nonneg []).
    replace (received l <? total_len l) with true
      by (symmetry; apply Z.ltb_lt; lia).
    rewrite exhausted_transport_stops. cbn. eauto.
  - pose proof (total_bytes_nonneg (r :: script)).
    replace (received l <? total_len l) with true
      by (symmetry; apply Z.ltb_lt; lia).
    destruct (loop_body zero_read_branch w (head (r :: script)) l m)
      as [l' m'|o m'] eqn:Hbody; [|cbn; eauto].
    apply loop_body_continue in Hbody
      as (chunk & Hr & Hpos & Hmax & Hrec' & _ & Htot' & _).
    cbn in Hr. injection Hr as ->.
    rewrite total_bytes_cons in Hshort. cbn [chunk_bytes] in Hshort.
    pose proof (total_bytes_nonneg script).
    pose proof (read_of_length_le 1024 (remaining_len l) chunk).
    unfold INT_MAX in Htot.
    rewrite to_int_small in Hrec' by lia.
    destruct (IH l' m') as (o & m2 & Hstop);
      [lia | unfold INT_MAX; lia | lia |].
    destruct (upload_loop zero_read_branch w script l' m') as [hist res].
    cbn in Hstop |- *. subst res. eauto.
Qed.

(** X6.  When the transport holds fewer bytes than were declared
    (the peer stops sending, or an error occurs), the upload does not
    succeed: the boot pointer stays, and the handler, when it returns,
    returns [ESP_FAIL] with [esp_ota_abort] as its last call. *)
Theorem cut_short_upload_aborts (w : world) (req : httpd_req_t) (m : machine)
    (rp up : esp_partition_t) :
  running_partition w = Some rp ->
  next_update_partition w = Some up ->
  ota_begin_result w = ESP_OK ->
  0 <= content_len req <= INT_MAX ->
  total_bytes (transport w) < content_len req ->
  let r := upload_post_handler w (Some req) m in
  r.1 <> Returned ESP_OK /\
  boot_partition r.2 = boot_partition m /\
  (r.1 <> Undefined ->
   r.1 = Returned ESP_FAIL /\
   last (events_since m r.2) = Some (EvOtaAbort (last_handle m + 1)%N)).
Proof.
  intros Hrp Hup Hbegin Hlen Hshort r. unfold INT_MAX in Hlen.
  unfold r, upload_post_handler, upload_post_handler_with, upload_run.
  rewrite Hrp, Hup. unfold esp_ota_begin. rewrite Hbegin. cbn.
  match goal with
  | |- context [upload_loop _ _ _ ?l0 ?m0] =>
      pose proof (upload_loop_post w (transport w) l0 m0) as Hpost;
      destruct (short_transport_stops w (transport w) l0 m0) as (o & m' & Hstop);
      [cbn; lia
      | cbn; rewrite to_int_small by lia; unfold INT_MAX; lia
      | cbn; rewrite to_int_small by lia; lia |];
      destruct (upload_loop zero_read_branch w (transport w) l0 m0)
        as [hist res]
  end.
  cbn in Hstop. subst res. cbn in Hpost |- *.
  destruct o as [e|].
  - destruct Hpost as (-> & Hboot & xfer & Htr & _).
    split; [discriminate|]. split; [exact Hboot|]. intros _.
    split; [reflexivity|].
    rewrite (events_since_app m m'
               ([EvTaskDelay 1000; EvOtaBegin up ESP_OK] ++ xfer
                  ++ [EvOtaAbort (last_handle m + 1)%N])).
    + now rewrite !app_assoc, last_snoc.
    + rewrite Htr. cbn. now rewrite <- ?app_assoc.
  - destruct Hpost as (Hboot & _).
    split; [discriminate|]. split; [exact Hboot|]. intros H. now contradiction H.
Qed.

Lemma cut_short_upload_aborts_witness :
  (upload_post_handler cut_short (Some (Request 2000)) idle).1
  = Returned ESP_FAIL /\
  last (events_since idle
          (upload_post_handler cut_short (Some (Request 2000)) idle).2)
  = Some (EvOtaAbort 1%N).
Proof.
  apply (cut_short_upload_aborts cut_short (Request 2000) idle ota_0 ota_1).
  - reflexivity.
  - reflexivity.
  - reflexivity.
  - vm_compute. split; discriminate.
  - vm_compute. reflexivity.
  - vm_compute. discriminate.
Defined.

(** ** The running total, on every run *)

(** How [received] stands when the loop has ended by its test: the test has
    failed, every earlier value had passed it, and the value is that of an
    [int]. *)
Lemma upload_loop_exit (w : world) (script : list recv_result) :
  forall (l : upload_locals) (m : machine),
    match (upload_loop zero_read_branch w script l m).2 with
    | Continue l' m' =>
        total_len l' = total_len l /\
        total_len l <= received l' /\
        last (received l :: (upload_loop zero_read_branch w script l m).1)
        = Some (received l') /\
        Forall (fun n => n < total_len l \/ n = received l')
               (upload_loop zero_read_branch w script l m).1 /\
        (received l' = received l \/ - 2 ^ 31 <= received l' < 2 ^ 31)
    | Stop _ _ => True
    end.
Proof.
  induction script as [|r script IH]; intros l m; cbn [upload_loop];
    destruct (received l <? total_len l) eqn:Hlt;
    try (apply Z.ltb_ge in Hlt; cbn; repeat split; auto; lia).
  - rewrite exhausted_transport_stops. exact I.
  - destruct (loop_body zero_read_branch w (head (r :: script)) l m)
      as [l1 m1|o m1] eqn:Hbody; [|exact I].
    apply loop_body_continue in Hbody
      as (chunk & _ & _ & _ & Hrec1 & _ & Htot1 & _).
    specialize (IH l1 m1).
    destruct (received l1 <? total_len l1) eqn:Hlt1.
    + destruct (upload_loop zero_read_branch w script l1 m1)
        as [hist [l' m'|o m']]; cbn in IH |- *; [|exact I].
      destruct IH as (Ht & Hge & Hlast & Hall & Hrange).
      apply Z.ltb_lt in Hlt1.
      split; [congruence|]. split; [congruence|].
      split; [exact Hlast|]. split.
      * constructor; [left; congruence|].
        eapply Forall_impl; [exact Hall|]. cbn. intros n Hn. now rewrite <- Htot1.
      * right. destruct Hrange as [Heq|Hr]; [|exact Hr].
        rewrite Heq, Hrec1. apply to_int_range.
    + rewrite (upload_loop_done w script l1 m1 Hlt1) in IH |- *. cbn in IH |- *.
      apply Z.ltb_ge in Hlt1.
      split; [exact Htot1|]. split; [lia|]. split; [reflexivity|].
      split; [now repeat constructor|].
      right. rewrite Hrec1. apply to_int_range.
Qed.

Lemma upload_finish_ok (w : world) (req : httpd_req_t) (up : esp_partition_t)
    (l : upload_locals) (m : machine) :
  (upload_finish w req up l m).1 = Returned ESP_OK ->
  to_size_t (received l) = to_size_t (content_len req).
Proof.
  unfold upload_finish.
  destruct (to_size_t (received l) =? to_size_t (content_len req)) eqn:Heq;
    [intros _; now apply Z.eqb_eq | discriminate].
Qed.

(** X7.  An upload that the handler reports as successful has
    received exactly the declared number of bytes, which is at most
    [INT_MAX], and its running total has never exceeded that number. *)
Theorem successful_upload_received_all (w : world) (req : httpd_req_t)
    (m : machine) :
  0 <= content_len req <= UINT_MAX ->
  (upload_post_handler w (Some req) m).1 = Returned ESP_OK ->
  let history := received_history zero_read_branch w (Some req) m in
  content_len req <= INT_MAX /\
  last (0 :: history) = Some (content_len req) /\
  Forall (fun n => n <= content_len req) history.
Proof.
  intros Hlen. unfold UINT_MAX, INT_MAX in *.
  unfold upload_post_handler, upload_post_handler_with, received_history,
    upload_run.
  destruct (running_partition w); [|discriminate].
  destruct (next_update_partition w) as [up|]; [|discriminate].
  destruct (esp_ota_begin w up (vTaskDelay 1000 m)) as [[err h] m0].
  destruct (negb (err =? ESP_OK)); [discriminate|].
  pose proof (upload_loop_exit w (transport w) (initial_locals w req h) m0)
    as Hexit.
  pose proof (upload_loop_post w (transport w) (initial_locals w req h) m0)
    as Hpost.
  destruct (Z_le_gt_dec (content_len req) (2 ^ 31 - 1)) as [Hsmall|Hbig].
  - destruct (upload_loop zero_read_branch w (transport w)
                (initial_locals w req h) m0) as [hist [l' m'|o m']];
      cbn in Hexit, Hpost |- *.
    2:{ intros Hok. subst o. now destruct Hpost as [Hfail _]. }
    rewrite to_int_small in Hexit by lia.
    destruct Hexit as (_ & Hge & Hlast & Hall & Hrange).
    intros Hok. apply upload_finish_ok in Hok.
    assert (Hrec : received l' = content_len req).
    { unfold to_size_t in Hok.
      rewrite (Z.mod_small (content_len req)) in Hok by lia.
      rewrite Z.mod_small in Hok by (destruct Hrange; lia). exact Hok. }
    split; [lia|]. split; [now rewrite Hlast, Hrec|].
    eapply Forall_impl; [exact Hall|]. cbn. intros n Hn. lia.
  - rewrite upload_loop_done in Hexit |- *
      by (apply Z.ltb_ge; cbn; rewrite to_int_big by lia; lia).
    cbn. intros Hok. apply upload_finish_ok in Hok. cbn in Hok.
    unfold to_size_t in Hok.
    rewrite (Z.mod_small (content_len req)) in Hok by lia.
    rewrite Z.mod_0_l in Hok by lia. lia.
Qed.

Lemma successful_upload_received_all_witness :
  last (0 :: received_history zero_read_branch complete_upload
               (Some (Request 10)) idle) = Some 10.
Proof.
  apply (successful_upload_received_all complete_upload (Request 10) idle).
  - vm_compute. split; discriminate.
  - reflexivity.
Defined.

Lemma upload_loop_increasing (w : world) (script : list recv_result) :
  forall (l : upload_locals) (m : machine),
    0 <= received l -> 0 <= remaining_len l ->
    received l + remaining_len l <= INT_MAX ->
    increasing_from (received l) (upload_loop zero_read_branch w script l m).1.
Proof.
  induction script as [|r script IH]; intros l m Hrec Hrem Hsum;
    cbn [upload_loop];
    destruct (received l <? total_len l) eqn:Hlt; try exact I.
  { rewrite exhausted_transport_stops. exact I. }
  destruct (loop_body zero_read_branch w (head (r :: script)) l m)
    as [l1 m1|o m1] eqn:Hbody; [|exact I].
  apply loop_body_continue in Hbody
    as (chunk & _ & Hpos & Hmax & Hrec1 & Hrem1 & _).
  unfold INT_MAX in Hsum.
  rewrite to_int_small in Hrec1 by lia.
  pose proof (IH l1 m1 ltac:(lia) ltac:(lia) ltac:(unfold INT_MAX; lia))
    as Hinc.
  destruct (upload_loop zero_read_branch w script l1 m1) as [hist res].
  cbn in Hinc |- *. split; [lia | exact Hinc].
Qed.

Lemma increasing_length (l : list Z) :
  forall x bound : Z,
    increasing_from x l -> Forall (fun n => n <= bound) l ->
    l = [] \/ x + Z.of_nat (length l) <= bound.
Proof.
  induction l as [|y l IH]; intros x bound Hinc Hall; [now left|].
  right. destruct Hinc as [Hlt Hinc]. apply Forall_cons in Hall as [Hy Hall].
  destruct (IH y bound Hinc Hall) as [-> | Hlen]; cbn [length]; lia.
Qed.

(** X8.  The running total grows strictly with every completed iteration
    of the receive loop: no iteration goes on without having received a
    byte.  So the loop completes at most as many iterations as bytes were
    declared. *)
Theorem received_grows_strictly (w : world) (req : httpd_req_t)
    (m : machine) :
  0 <= content_len req <= UINT_MAX ->
  let history := received_history zero_read_branch w (Some req) m in
  increasing_from 0 history /\
  Z.of_nat (length history) <= content_len req.
Proof.
  intros Hlen history. unfold UINT_MAX in Hlen.
  assert (Hinc : increasing_from 0 history /\
                 Forall (fun n => n <= content_len req) history).
  { unfold history, received_history, upload_run.
    destruct (running_partition w); [|cbn; split; [exact I | constructor]].
    destruct (next_update_partition w) as [up|];
      [|cbn; split; [exact I | constructor]].
    destruct (esp_ota_begin w up (vTaskDelay 1000 m)) as [[err h] m0].
    destruct (negb (err =? ESP_OK)); [cbn; split; [exact I | constructor]|].
    assert (Hloop :
              increasing_from 0
                (upload_loop zero_read_branch w (transport w)
                   (initial_locals w req h) m0).1 /\
              Forall (fun n => n <= content_len req)
                (upload_loop zero_read_branch w (transport w)
                   (initial_locals w req h) m0).1).
    { destruct (Z_le_gt_dec (content_len req) INT_MAX) as [Hsmall|Hbig];
        unfold INT_MAX in *.
      - split.
        + apply (upload_loop_increasing w (transport w)
                   (initial_locals w req h) m0);
            cbn; unfold INT_MAX; lia.
        + eapply Forall_impl;
            [apply (upload_loop_bounded w (transport w)
                      (initial_locals w req h) m0);
             cbn; unfold INT_MAX; lia|].
          cbn. intros n Hn. lia.
      - rewrite upload_loop_done
          by (apply Z.ltb_ge; cbn; rewrite to_int_big by lia; lia).
        cbn. split; [exact I | constructor]. }
    destruct (upload_loop zero_read_branch w (transport w)
                (initial_locals w req h) m0) as [hist [l' m'|o m']];
      exact Hloop. }
  destruct Hinc as [Hinc Hall]. split; [exact Hinc|].
  destruct (increasing_length history 0 (content_len req) Hinc Hall)
    as [-> | Hle]; cbn [length]; lia.
Qed.

Lemma received_grows_strictly_witness :
  increasing_from 0
    (received_history zero_read_branch complete_upload (Some (Request 10)) idle)
  /\ Z.of_nat (length (received_history zero_read_branch complete_upload
                         (Some (Request 10)) idle)) <= 10.
Proof.
  apply (received_grows_strictly complete_upload (Request 10) idle).
  vm_compute. split; discriminate.
Defined.

(** ** What a successful upload has written *)

Lemma written_bytes_app (a b : list event) :
  written_bytes (a ++ b) = written_bytes a ++ written_bytes b.
Proof. unfold written_bytes. now rewrite map_app, concat_app. Qed.

(** One turn of the loop, when its test holds. *)
Lemma upload_loop_step (w : world) (script : list recv_result)
    (l : upload_locals) (m : machine) :
  (received l <? total_len l) = true ->
  upload_loop zero_read_branch w script l m
  = match loop_body zero_read_branch w (head script) l m with
    | Stop o m' => ([], Stop o m')
    | Continue l' m' =>
        let '(hist, r) := upload_loop zero_read_branch w (tail script) l' m' in
        (received l' :: hist, r)
    end.
Proof.
  intros Hlt. destruct script as [|r script]; cbn [upload_loop]; rewrite Hlt.
  - now rewrite exhausted_transport_stops.
  - reflexivity.
Qed.

(** A read that is cut to the outstanding length takes the front of what
    is left of the body. *)
Lemma take_read (chunk rest : list byte) (remaining : Z) :
  0 <= remaining ->
  take (Z.to_nat remaining) (take 1024 chunk ++ rest)
  = read_of 1024 remaining chunk
    ++ take (Z.to_nat (remaining
                       - Z.of_nat (length (read_of 1024 remaining chunk))))
            rest.
Proof.
  intros Hrem. unfold read_of.
  rewrite take_app, take_take. f_equal.
  - f_equal. lia.
  - f_equal. rewrite !length_take. lia.
Qed.

(** The first iteration, when it goes on: the boundary was found at [off],
    and what follows it in the bytes read has been written. *)
Lemma first_iteration_written (w : world) (r : option recv_result)
    (l l1 : upload_locals) (m m1 : machine) :
  first_chunk l = true ->
  loop_body zero_read_branch w r l m = Continue l1 m1 ->
  exists c1 off xfer,
    r = Some (Received c1) /\
    strstr (read_of 1024 (remaining_len l) c1
              ++ drop (length (read_of 1024 (remaining_len l) c1)) (buf l))
           CRLFCRLF
    = Found off /\
    trace m1 = trace m ++ xfer /\
    written_bytes xfer
    = drop (Nat.min (off + 4) (length (read_of 1024 (remaining_len l) c1)))
           (read_of 1024 (remaining_len l) c1).
Proof.
  intros Hfirst.
  unfold loop_body, httpd_req_recv, read_of.
  destruct (Z.to_nat (Z.min (Z.of_nat 1024) (remaining_len l)) =? 0)%nat.
  { cbn. discriminate. }
  destruct r as [[c1|e]|]; [|destruct e; discriminate|discriminate].
  cbn zeta. cbn beta iota.
  remember (take (Z.to_nat (Z.min (Z.of_nat 1024) (remaining_len l))) c1)
    as c eqn:Hc.
  destruct (Z.of_nat (length c) <=? 0) eqn:Hle; [discriminate|].
  cbn [set_buf set_remaining_len first_chunk]. rewrite Hfirst.
  unfold first_chunk_branch.
  cbn [set_first_chunk set_buf set_remaining_len buf ota_handle].
  destruct (strstr (c ++ drop (length c) (buf l)) CRLFCRLF) as [off| |] eqn:Hstr;
    [|discriminate|discriminate].
  destruct (0 <? Z.of_nat (length c) - Z.of_nat (off + 4)) eqn:Hpos.
  - apply Z.ltb_lt in Hpos.
    unfold esp_ota_write.
    destruct (negb (ota_write_result w
                      (ota_writes (emit (EvReqRecv 1024 (Z.of_nat (length c))) m))
                    =? ESP_OK)); [discriminate|].
    intros H. injection H as _ <-.
    exists c1, off. eexists. rewrite <- Hc.
    split; [reflexivity|]. split; [exact Hstr|].
    split; [cbn; rewrite <- app_assoc; reflexivity|].
    cbn. rewrite app_nil_r.
    replace (Nat.min (off + 4) (length c)) with (off + 4)%nat by lia.
    rewrite drop_app_le by lia.
    replace (Z.to_nat (Z.of_nat (length c) - Z.of_nat (off + 4)))
      with (length (drop (off + 4) c)) by (rewrite length_drop; lia).
    apply take_app_length.
  - apply Z.ltb_ge in Hpos.
    intros H. injection H as _ <-.
    exists c1, off. eexists. rewrite <- Hc.
    split; [reflexivity|]. split; [exact Hstr|].
    split; [reflexivity|].
    cbn. replace (Nat.min (off + 4) (length c)) with (length c) by lia.
    now rewrite drop_all.
Qed.

(** A later iteration, when it goes on, has written the bytes it read. *)
Lemma later_iteration_written (w : world) (chunk : list byte)
    (l l1 : upload_locals) (m m1 : machine) :
  first_chunk l = false ->
  loop_body zero_read_branch w (Some (Received chunk)) l m = Continue l1 m1 ->
  exists xfer,
    trace m1 = trace m ++ xfer /\
    written_bytes xfer = read_of 1024 (remaining_len l) chunk.
Proof.
  intros Hfirst.
  unfold loop_body, httpd_req_recv, read_of.
  destruct (Z.to_nat (Z.min (Z.of_nat 1024) (remaining_len l)) =? 0)%nat.
  { cbn. discriminate. }
  cbn zeta. cbn beta iota.
  remember (take (Z.to_nat (Z.min (Z.of_nat 1024) (remaining_len l))) chunk)
    as c eqn:Hc.
  destruct (Z.of_nat (length c) <=? 0) eqn:Hle; [discriminate|].
  cbn [set_buf set_remaining_len first_chunk]. rewrite Hfirst.
  unfold later_chunk_branch.
  destruct (Z.of_nat (length c) =? 0) eqn:Hz;
    [apply Z.eqb_eq in Hz; apply Z.leb_gt in Hle; lia|].
  unfold esp_ota_write. cbn.
  intros H. injection H as _ <-.
  eexists. split; [cbn; rewrite <- app_assoc; reflexivity|].
  cbn. rewrite app_nil_r, Nat2Z.id. apply take_app_length.
Qed.

(** The later iterations together: what they wrote is what was left of the
    body, as far as they read it. *)
Lemma later_chunks_written (w : world) (script : list recv_result) :
  forall (l : upload_locals) (m : machine),
    first_chunk l = false ->
    0 <= received l -> 0 <= remaining_len l ->
    received l + remaining_len l <= INT_MAX ->
    match (upload_loop zero_read_branch w script l m).2 with
    | Continue l' m' =>
        exists xfer,
          trace m' = trace m ++ xfer /\
          written_bytes xfer
          = take (Z.to_nat (remaining_len l))
              (concat (map chunk_bytes
                         (take (length (upload_loop zero_read_branch w script l m).1)
                               script))) /\
          received l' = received l + Z.of_nat (length (written_bytes xfer))
    | Stop _ _ => True
    end.
Proof.
  induction script as [|r script IH]; intros l m Hfirst Hrec Hrem Hsum.
  - cbn [upload_loop]. destruct (received l <? total_len l).
    + now rewrite exhausted_transport_stops.
    + cbn. exists []. rewrite app_nil_r, take_nil. repeat split. cbn. lia.
  - destruct (received l <? total_len l) eqn:Hlt.
    2:{ rewrite upload_loop_done by exact Hlt. cbn.
        exists []. rewrite app_nil_r, take_nil. repeat split. cbn. lia. }
    rewrite upload_loop_step by exact Hlt. cbn [head tail].
    destruct (loop_body zero_read_branch w (Some r) l m)
      as [l1 m1|o m1] eqn:Hbody; [|exact I].
    pose proof Hbody as Hcont.
    apply loop_body_continue in Hcont
      as (chunk & Hr & Hpos & Hmax & Hrec1 & Hrem1 & Htot1 & Hfirst1).
    injection Hr as ->.
    destruct (later_iteration_written w chunk l l1 m m1 Hfirst Hbody)
      as (x1 & Htr1 & Hw1).
    unfold INT_MAX in Hsum.
    rewrite to_int_small in Hrec1 by lia.
    specialize (IH l1 m1 Hfirst1 ltac:(lia) ltac:(lia)
                  ltac:(unfold INT_MAX; lia)).
    destruct (upload_loop zero_read_branch w script l1 m1)
      as [hist [l' m'|o m']]; cbn [fst snd length take map concat] in IH |- *;
      [|exact I].
    destruct IH as (x2 & Htr2 & Hw2 & Hrec2).
    exists (x1 ++ x2). split; [rewrite Htr2, Htr1; now rewrite app_assoc|].
    rewrite written_bytes_app, Hw1. split.
    + cbn [chunk_bytes].
      rewrite (take_read chunk _ (remaining_len l) Hrem), <- Hrem1.
      now rewrite Hw2.
    + rewrite length_app. lia.
Qed.

(** X9.  What a successful upload has written to the partition is
    the request body from behind the first blank line on, byte for byte and
    to its end: the part that follows the file in the multipart body (the
    closing boundary) is written as well.  The body is the first
    [content_len] bytes that the connection delivered. *)
Theorem successful_upload_writes_body (w : world) (req : httpd_req_t)
    (m : machine) :
  0 <= content_len req <= INT_MAX ->
  let r := upload_post_handler w (Some req) m in
  r.1 = Returned ESP_OK ->
  let history := received_history zero_read_branch w (Some req) m in
  let body :=
    take (Z.to_nat (content_len req))
         (concat (map chunk_bytes (take (length history) (transport w)))) in
  Z.of_nat (length body) = content_len req /\
  (history = [] -> written_bytes (events_since m r.2) = []) /\
  (history <> [] ->
   exists c1 off,
     head (transport w) = Some (Received c1) /\
     strstr (first_buffer w req c1) CRLFCRLF = Found off /\
     written_bytes (events_since m r.2)
     = drop (Nat.min (off + 4)
                     (length (read_of 1024 (content_len req) c1)))
            body).
Proof.
  intros Hlen r. unfold INT_MAX in Hlen.
  unfold r, upload_post_handler, upload_post_handler_with, received_history,
    upload_run.
  destruct (running_partition w); [|discriminate].
  destruct (next_update_partition w) as [up|]; [|discriminate].
  unfold esp_ota_begin. cbn.
  destruct (ota_begin_result w =? ESP_OK) eqn:Hbegin; cbn; rewrite ?Hbegin; cbn;
    [|discriminate].
  match goal with
  | |- context [upload_loop _ _ _ ?l ?m'] => set (l0 := l); set (m0 := m')
  end.
  assert (Hm0 : exists pre, trace m0 = trace m ++ pre /\ written_bytes pre = []).
  { eexists. split; [cbn; rewrite <- app_assoc; reflexivity | reflexivity]. }
  assert (Hfirst : first_chunk l0 = true) by reflexivity.
  assert (Hrec0 : received l0 = 0) by reflexivity.
  assert (Hrem0 : remaining_len l0 = content_len req) by reflexivity.
  assert (Htot0 : total_len l0 = content_len req)
    by (cbn; apply to_int_small; lia).
  assert (Hbuf0 : buf l0 = resize 1024 x00 (stack_garbage w)) by reflexivity.
  clearbody l0 m0. destruct Hm0 as (pre & Hpre & Hwpre).
  assert (Hfin : forall l' m' evs,
            trace m' = trace m ++ evs ->
            (upload_finish w req up l' m').1 = Returned ESP_OK ->
            written_bytes (events_since m (upload_finish w req up l' m').2)
            = written_bytes evs /\
            to_size_t (received l') = to_size_t (content_len req)).
  { intros l' m' evs Htr Hok.
    destruct (upload_finish_paths w req up l' m') as (tail & Htail & Hc).
    cbn zeta in Htail, Hc.
    split; [|now apply upload_finish_ok in Hok].
    rewrite (events_since_app m _ (evs ++ tail))
      by (rewrite Htail, Htr; now rewrite app_assoc).
    rewrite written_bytes_app.
    destruct Hc as [(Hf & _) | (_ & _ & ->)];
      [rewrite Hf in Hok; discriminate Hok|].
    cbn. now rewrite app_nil_r. }
  destruct (received l0 <? total_len l0) eqn:Hlt.
  2:{ rewrite upload_loop_done by exact Hlt. cbn [after_loop fst snd].
      intros Hok. destruct (Hfin l0 m0 pre Hpre Hok) as [Hw Hsz].
      rewrite Hrec0 in Hsz. unfold to_size_t in Hsz.
      rewrite Z.mod_0_l, Z.mod_small in Hsz by lia.
      cbn. rewrite take_0. cbn. rewrite take_nil. cbn.
      split; [lia|]. split; [intros _; now rewrite Hw | now intros []]. }
  rewrite upload_loop_step by exact Hlt.
  pose proof (loop_body_post w (head (transport w)) l0 m0) as Hpost1.
  destruct (loop_body zero_read_branch w (head (transport w)) l0 m0)
    as [l1 m1|o m1] eqn:Hbody.
  2:{ cbn. intros Hok. subst o. now destruct Hpost1. }
  destruct (first_iteration_written w _ l0 l1 m0 m1 Hfirst Hbody)
    as (c1 & off & x1 & Hhead & Hstr & Htr1 & Hw1).
  apply loop_body_continue in Hbody
    as (chunk & Hr & Hpos & Hmax & Hrec1 & Hrem1 & Htot1 & Hfirst1).
  rewrite Hhead in Hr. injection Hr as <-.
  rewrite Hrem0 in Hstr, Hw1, Hpos, Hmax, Hrec1, Hrem1.
  rewrite Hrec0, Z.add_0_l, to_int_small in Hrec1 by lia.
  pose proof (later_chunks_written w (tail (transport w)) l1 m1 Hfirst1
                ltac:(lia) ltac:(lia) ltac:(unfold INT_MAX; lia)) as Hlater.
  pose proof (upload_loop_post w (tail (transport w)) l1 m1) as Hpost2.
  pose proof (upload_loop_exit w (tail (transport w)) l1 m1) as Hexit.
  destruct (upload_loop zero_read_branch w (tail (transport w)) l1 m1)
    as [hist [l' m'|o m']];
    cbn [fst snd after_loop length] in Hlater, Hpost2, Hexit |- *.
  2:{ intros Hok. subst o. now destruct Hpost2. }
  destruct Hlater as (x2 & Htr2 & Hw2 & Hrec2).
  intros Hok.
  destruct (Hfin l' m' (pre ++ x1 ++ x2)
              ltac:(rewrite Htr2, Htr1, Hpre; now rewrite <- !app_assoc) Hok)
    as [Hw Hsz].
  destruct (transport w) as [|r0 rest]; [discriminate Hhead|].
  cbn in Hhead. injection Hhead as ->. cbn [tail] in *.
  cbn [take map concat chunk_bytes].
  rewrite (take_read c1 _ (content_len req)) by lia.
  rewrite <- Hrem1, <- Hw2.
  assert (Hrec' : received l' = content_len req).
  { unfold to_size_t in Hsz.
    rewrite (Z.mod_small (content_len req)) in Hsz by lia.
    rewrite Z.mod_small in Hsz; [exact Hsz|].
    destruct Hexit as (_ & _ & _ & _ & Hrange). lia. }
  split; [rewrite length_app; lia|]. split; [discriminate|]. intros _.
  exists c1, off. split; [reflexivity|].
  split; [unfold first_buffer; cbn zeta; now rewrite <- Hbuf0|].
  rewrite Hw, !written_bytes_app, Hwpre, Hw1. cbn [app].
  now rewrite drop_app_le by lia.
Qed.

Lemma successful_upload_writes_body_witness :
  written_bytes
    (events_since idle
       (upload_post_handler complete_upload (Some (Request 10)) idle).2)
  = [x01; x02; x03; x04; x05].
Proof.
  destruct (successful_upload_writes_body complete_upload (Request 10) idle)
    as (_ & _ & Hbody).
  - vm_compute. split; discriminate.
  - reflexivity.
  - destruct Hbody as (c1 & off & Hhead & Hstr & ->); [discriminate|].
    injection Hhead as <-.
    assert (Hoff : off = 1%nat).
    { vm_compute in Hstr. now injection Hstr. }
    subst off. reflexivity.
Defined.

(** ** Upload, then reboot *)

Lemma reboot_task_effect (m : machine) :
  trace (reboot_task m)
  = trace m ++ EvTaskDelay 500
      :: match server m with Some h => [EvHttpdStop h] | None => [] end
      ++ [EvWifiStop; EvTaskDelay 500; EvRestartNoos] /\
  server (reboot_task m) = None /\
  boot_partition (reboot_task m) = boot_partition m /\
  nvs (reboot_task m) = nvs m.
Proof.
  unfold reboot_task. destruct m as [b es lh nw [h|] kv tr]; cbn;
    (split; [now rewrite <- !app_assoc | repeat split]).
Qed.

(** X10.  A successful upload followed by the reboot task it
    has created: the device resets with the boot pointer on the update
    partition and the settings as they were; the success response has been
    handed to the HTTP server before the task waits and stops the listener,
    and the reset is the last call. *)
Theorem upload_then_reboot (w : world) (req : option httpd_req_t) (m : machine) :
  let r := upload_post_handler w req m in
  r.1 = Returned ESP_OK ->
  let m' := reboot_task r.2 in
  Some (boot_partition m') = next_update_partition w /\
  nvs m' = nvs m /\ server m' = None /\
  exists before,
    events_since m m'
    = before
      ++ [EvRespSendstr "Upload successful! Rebooting...";
          EvTaskCreate "reboot_task"; EvTaskDelay 500]
      ++ match server m with Some h => [EvHttpdStop h] | None => [] end
      ++ [EvWifiStop; EvTaskDelay 500; EvRestartNoos].
Proof.
  intros r Hok m'.
  destruct (upload_post_handler_paths w req m)
    as (evs & Htrace & Hpath & Hboot & _).
  destruct (upload_post_handler_frame w req m) as (Hnvs & Hserver & _).
  destruct (reboot_task_effect r.2) as (Hrt & Hsrv & Hbp & Hkv).
  fold r in Htrace, Hpath, Hboot, Hnvs, Hserver.
  unfold m'. rewrite Hbp, Hkv, Hnvs.
  split; [now apply Hboot|]. split; [reflexivity|]. split; [exact Hsrv|].
  rewrite Hok in Hpath. inversion Hpath as [| | | | | | |up xfer Hup Hx Heq Hevs].
  exists (EvTaskDelay 1000 :: EvOtaBegin up ESP_OK :: xfer
          ++ [EvOtaEnd (last_handle m + 1)%N ESP_OK;
              EvSetBootPartition up ESP_OK]).
  apply events_since_app. rewrite Hrt, Htrace, <- Hevs, Hserver.
  rewrite <- app_assoc. f_equal. cbn [app]. do 2 f_equal.
  rewrite <- !app_assoc. reflexivity.
Qed.

Lemma upload_then_reboot_witness :
  boot_partition
    (reboot_task (upload_post_handler complete_upload (Some (Request 10)) idle).2)
  = ota_1.
Proof.
  destruct (upload_then_reboot complete_upload (Some (Request 10)) idle)
    as (Hboot & _).
  - reflexivity.
  - exact (f_equal (default ota_0) Hboot).
Defined.

(** ** [httpd_unescape_uri]: decoding *)

Lemma format_02X_decode (b : byte) :
  exists h1 h2,
    format_02X b = [h1; h2] /\
    isxdigit h1 && isxdigit h2 = true /\ strtol_hex2 h1 h2 = b /\
    Byte.eqb h1 x00 = false /\ Byte.eqb h2 x00 = false.
Proof.
  eexists _, _. split; [reflexivity|].
  destruct b; vm_compute; repeat split.
Qed.

Lemma unescape_from_encoded (bs rest : list byte) :
  forall di limit : Z,
    di + Z.of_nat (length bs) <= limit ->
    unescape_from (percent_encode bs ++ rest) di limit
    = bs ++ unescape_from rest (di + Z.of_nat (length bs)) limit.
Proof.
  induction bs as [|b bs IH]; intros di limit Hfit.
  - cbn. now rewrite Z.add_0_r.
  - destruct (format_02X_decode b) as (h1 & h2 & Hfmt & Hhex & Hval & _).
    change (percent_encode (b :: bs) ++ rest)
      with (x25 :: (format_02X b ++ percent_encode bs ++ rest)).
    rewrite Hfmt. cbn [app unescape_from length] in *.
    replace (Byte.eqb x25 x00) with false by reflexivity.
    replace (Byte.eqb x25 x25) with true by reflexivity.
    destruct (di <? limit) eqn:Hlt; [|apply Z.ltb_ge in Hlt; lia].
    cbn [negb]. rewrite Hhex, Hval, IH by lia.
    do 3 f_equal. lia.
Qed.

(** X11.  Decoding undoes percent-encoding: for every byte string
    that fits the buffer, [httpd_unescape_uri] applied to its [%XX] encoding
    stores exactly that string and returns its length.  This includes the
    byte 0, so the decoded string can contain a NUL before its end. *)
Theorem unescape_percent_round_trip (dest bs : list byte) (dest_size : Z) :
  Z.of_nat (length bs) < dest_size <= UINT_MAX ->
  Z.of_nat (length bs) <= INT_MAX ->
  httpd_unescape_uri dest (percent_encode bs) dest_size
  = (bs ++ x00 :: drop (S (length bs)) dest, Z.of_nat (length bs)).
Proof.
  intros Hsize Hfit. unfold UINT_MAX, INT_MAX in *.
  unfold httpd_unescape_uri.
  assert (Hlim : to_size_t (dest_size - 1) = dest_size - 1)
    by (unfold to_size_t; apply Z.mod_small; lia).
  pose proof (unescape_from_encoded bs [] 0 (dest_size - 1) ltac:(lia)) as Hdec.
  rewrite app_nil_r in Hdec. cbn [unescape_from] in Hdec.
  rewrite app_nil_r in Hdec.
  rewrite Hlim, Hdec. cbn zeta.
  now rewrite to_int_small by lia.
Qed.

Lemma unescape_percent_round_trip_witness :
  httpd_unescape_uri (repeat x01 4) (percent_encode [x00; x2f; xff]) 4
  = ([x00; x2f; xff; x00], 3).
Proof.
  apply (unescape_percent_round_trip (repeat x01 4) [x00; x2f; xff] 4).
  - vm_compute. split; [reflexivity | discriminate].
  - vm_compute. discriminate.
Defined.

(** What the loop stores depends on the room left only, and less room gives
    a prefix. *)
Lemma unescape_from_take (n : nat) :
  forall (src : list byte) (di limit di' limit' : Z),
    (length src <= n)%nat ->
    limit - di <= limit' - di' ->
    unescape_from src di limit
    = take (Z.to_nat (limit - di)) (unescape_from src di' limit').
Proof.
  induction n as [|n IH]; intros src di limit di' limit' Hn Hroom.
  - destruct src; [cbn; now rewrite take_nil | cbn in Hn; lia].
  - destruct src as [|c rest]; [cbn; now rewrite take_nil|].
    cbn [unescape_from]. cbn [length] in Hn.
    destruct (Byte.eqb c x00); [now rewrite take_nil|].
    destruct (di <? limit) eqn:Hlt; cbn [negb].
    2:{ apply Z.ltb_ge in Hlt.
        replace (Z.to_nat (limit - di)) with 0%nat by lia.
        now rewrite take_0. }
    apply Z.ltb_lt in Hlt.
    destruct (di' <? limit') eqn:Hlt'; [|apply Z.ltb_ge in Hlt'; lia].
    cbn [negb].
    replace (Z.to_nat (limit - di)) with (S (Z.to_nat (limit - (di + 1))))
      by lia.
    assert (Hstep : forall s b, (length s <= n)%nat ->
              b :: unescape_from s (di + 1) limit
              = take (S (Z.to_nat (limit - (di + 1))))
                     (b :: unescape_from s (di' + 1) limit')).
    { intros s b Hs. cbn [take]. f_equal. apply IH; [exact Hs | lia]. }
    destruct (Byte.eqb c x25).
    + destruct rest as [|h1 [|h2 rest']]; try (apply Hstep; cbn [length] in *; lia).
      destruct (isxdigit h1 && isxdigit h2);
        apply Hstep; cbn [length] in *; lia.
    + destruct (Byte.eqb c x2b); apply Hstep; lia.
Qed.

(** The bytes stored in [dest] before the terminating NUL. *)
Lemma stored_string_written (dest src : list byte) (dest_size : Z) :
  Z.of_nat (length src) <= INT_MAX ->
  stored_string (httpd_unescape_uri dest src dest_size)
  = unescape_from src 0 (to_size_t (dest_size - 1)).
Proof.
  intros Hsrc. unfold stored_string, httpd_unescape_uri. cbn [fst snd].
  destruct (unescape_from_length (length src) src 0
              (to_size_t (dest_size - 1)) (le_n _)) as [_ Hlen].
  rewrite to_int_small by (unfold INT_MAX in Hsrc; lia).
  rewrite Nat2Z.id. now rewrite take_app_length.
Qed.

(** X12.  A buffer too small cuts the decoded string, it does not
    change it: what [httpd_unescape_uri] stores for a smaller [dest_size] is
    the first [dest_size - 1] bytes of what it stores for a larger one, so an
    escape sequence is decoded whole or not at all.  No error is
    reported. *)
Theorem unescape_small_buffer_gets_prefix (dest dest' src : list byte)
    (dest_size dest_size' : Z) :
  1 <= dest_size <= dest_size' -> dest_size' <= UINT_MAX ->
  Z.of_nat (length src) <= INT_MAX ->
  stored_string (httpd_unescape_uri dest src dest_size)
  = take (Z.to_nat (dest_size - 1))
         (stored_string (httpd_unescape_uri dest' src dest_size')).
Proof.
  intros Hsize Hmax Hsrc. unfold UINT_MAX in Hmax.
  rewrite !stored_string_written by exact Hsrc.
  unfold to_size_t. rewrite !Z.mod_small by lia.
  rewrite (unescape_from_take (length src) src 0 (dest_size - 1)
             0 (dest_size' - 1)) by lia.
  now rewrite Z.sub_0_r.
Qed.

Lemma unescape_small_buffer_gets_prefix_witness :
  stored_string
    (httpd_unescape_uri (repeat x01 3) [x61; x25; x32; x30; x62; x2b; x63] 3)
  = take 2
      (stored_string
         (httpd_unescape_uri (repeat x01 8) [x61; x25; x32; x30; x62; x2b; x63] 8)).
Proof.
  apply (unescape_small_buffer_gets_prefix (repeat x01 3) (repeat x01 8)
           [x61; x25; x32; x30; x62; x2b; x63] 3 8).
  - lia.
  - vm_compute. discriminate.
  - vm_compute. discriminate.
Defined.

(** X13.  [dest_size = 0] is not an empty buffer to
    [httpd_unescape_uri]: [dest_size - 1] wraps around, and the call stores
    and returns what it does for a buffer that holds the whole source. *)
Theorem unescape_zero_size_is_unbounded (dest src : list byte) (dest_size : Z) :
  Z.of_nat (length src) < dest_size <= UINT_MAX ->
  httpd_unescape_uri dest src 0 = httpd_unescape_uri dest src dest_size.
Proof.
  intros Hsize. unfold UINT_MAX in Hsize.
  unfold httpd_unescape_uri.
  assert (Heq : unescape_from src 0 (to_size_t (0 - 1))
                = unescape_from src 0 (to_size_t (dest_size - 1))).
  { unfold to_size_t. rewrite (Z.mod_small (dest_size - 1)) by lia.
    change ((0 - 1) mod 2 ^ 32) with 4294967295.
    destruct (unescape_from_length (length src) src 0 4294967295 (le_n _))
      as [_ Hlen].
    rewrite (unescape_from_take (length src) src 0 (dest_size - 1)
               0 4294967295) by lia.
    rewrite take_ge by lia. reflexivity. }
  now rewrite Heq.
Qed.

Lemma unescape_zero_size_is_unbounded_witness :
  httpd_unescape_uri [] [x61; x62] 0 = ([x61; x62; x00], 2).
Proof.
  rewrite (unescape_zero_size_is_unbounded [] [x61; x62] 3).
  - reflexivity.
  - vm_compute. split; [reflexivity | discriminate].
Defined.

(** ** The settings store over NVS *)

Lemma nvs_read_default (w : Settings.nvs_world) (fl : Settings.nvs_flash) :
  Settings.nvs_open_result w Settings.NVS_READONLY <> ESP_OK \/
  fl !! "serial_nbr"%string = None ->
  Settings.get_serial_nbr w fl = Settings.DEFAULT_SERIAL_NUMBER.
Proof.
  unfold Settings.get_serial_nbr, Settings.get_setting, Settings.nvs_get.
  intros [Hopen | Hkey].
  - destruct (Settings.nvs_open_result w Settings.NVS_READONLY =? ESP_OK)
      eqn:Heq; [apply Z.eqb_eq in Heq; contradiction | reflexivity].
  - rewrite Hkey.
    now destruct (negb (Settings.nvs_open_result w Settings.NVS_READONLY
                        =? ESP_OK)).
Qed.

Lemma nvs_other_keys (w : Settings.nvs_world) (v : Z) (fl : Settings.nvs_flash)
    (key : string) :
  key <> "serial_nbr"%string ->
  Settings.set_serial_nbr w v fl !! key = fl !! key.
Proof.
  intros Hkey.
  unfold Settings.set_serial_nbr, Settings.set_setting, Settings.nvs_set.
  destruct (Settings.nvs_open_result w Settings.NVS_READWRITE =? ESP_OK);
    cbn [negb]; [|reflexivity].
  destruct (Settings.nvs_set_result w =? ESP_OK); cbn [fst snd];
    [|reflexivity].
  now rewrite lookup_insert_ne.
Qed.

(** X21.  With NVS answering [ESP_OK], [get_serial_nbr]
    of [settings.c] reads back what [set_serial_nbr] wrote, as a
    [uint32_t], whatever the name space held before. *)
Theorem serial_nbr_read_back (w : Settings.nvs_world) (v : Z)
    (fl : Settings.nvs_flash) :
  nvs_healthy w ->
  Settings.get_serial_nbr w (Settings.set_serial_nbr w v fl) = to_size_t v.
Proof. intros Hw. exact (nvs_read_back w w v fl Hw Hw). Qed.

Lemma serial_nbr_read_back_witness :
  Settings.get_serial_nbr healthy_nvs
    (Settings.set_serial_nbr healthy_nvs 3000000000 ∅) = 3000000000.
Proof.
  apply (serial_nbr_read_back healthy_nvs 3000000000 ∅).
  repeat split.
Defined.

(** X22.  [get_serial_nbr] hides every failure: when the name
    space cannot be opened (as before the first write) or holds no serial
    number, it returns the default 0. *)
Theorem serial_nbr_defaults_to_zero (w : Settings.nvs_world)
    (fl : Settings.nvs_flash) :
  Settings.nvs_open_result w Settings.NVS_READONLY <> ESP_OK \/
  fl !! "serial_nbr"%string = None ->
  Settings.get_serial_nbr w fl = Settings.DEFAULT_SERIAL_NUMBER.
Proof. exact (nvs_read_default w fl). Qed.

Lemma serial_nbr_defaults_to_zero_witness :
  Settings.get_serial_nbr fresh_nvs ∅ = 0.
Proof.
  apply (serial_nbr_defaults_to_zero fresh_nvs ∅).
  left. discriminate.
Defined.

(** X23.  [set_serial_nbr] writes no key but ["serial_nbr"],
    and when NVS refuses the name space or the write, it leaves the store as
    it is: the failure is only printed. *)
Theorem set_serial_nbr_frame (w : Settings.nvs_world) (v : Z)
    (fl : Settings.nvs_flash) :
  (forall key, key <> "serial_nbr"%string ->
               Settings.set_serial_nbr w v fl !! key = fl !! key) /\
  (Settings.nvs_open_result w Settings.NVS_READWRITE <> ESP_OK \/
   Settings.nvs_set_result w <> ESP_OK ->
   Settings.set_serial_nbr w v fl = fl).
Proof.
  unfold Settings.set_serial_nbr, Settings.set_setting, Settings.nvs_set.
  destruct (Settings.nvs_open_result w Settings.NVS_READWRITE =? ESP_OK)
    eqn:Hopen; cbn [negb].
  2:{ split; [reflexivity|]. intros _. reflexivity. }
  destruct (Settings.nvs_set_result w =? ESP_OK) eqn:Hset; cbn [fst snd].
  2:{ split; [reflexivity|]. intros _. reflexivity. }
  apply Z.eqb_eq in Hopen, Hset. split.
  - intros key Hkey. now rewrite lookup_insert_ne.
  - intros [H | H]; contradiction.
Qed.

Lemma set_serial_nbr_frame_witness :
  Settings.set_serial_nbr
    (Settings.NvsWorld (fun _ => ESP_FAIL) ESP_OK ESP_OK) 5 ∅ = ∅.
Proof.
  apply (set_serial_nbr_frame
           (Settings.NvsWorld (fun _ => ESP_FAIL) ESP_OK ESP_OK) 5 ∅).
  left. discriminate.
Defined.

(** ** The settings handlers *)

Lemma strchr_first (k v : list byte) (x : byte) :
  Forall (fun c => Byte.eqb c x = false) k ->
  strchr (k ++ x :: v) x = Some (length k).
Proof.
  induction 1 as [|c k Hc _ IH]; cbn.
  - now replace (Byte.eqb x x) with true by (now destruct x).
  - now rewrite Hc, IH.
Qed.

(** X14.  [settings_post_handler] fails exactly when its
    one read brings nothing (an error, a closed connection, no bytes): then
    it sends no response and stores nothing.  In every other case it answers
    with the "Settings Saved" page and [ESP_OK], whatever the request body
    is, also when nothing was saved. *)
Theorem settings_post_outcome (w : world) (req : httpd_req_t) (m : machine) :
  let r := settings_post_handler w req m in
  (posted_bytes w req = [] ->
   r.1 = Returned ESP_FAIL /\ nvs r.2 = nvs m /\
   List.filter is_response (events_since m r.2) = []) /\
  (posted_bytes w req <> [] ->
   r.1 = Returned ESP_OK /\
   List.filter is_response (events_since m r.2)
   = [EvRespSendstr settings_saved_html]).
Proof.
  split.
  - intros Hnone. destruct (settings_post_nothing w req m Hnone) as [ret ->].
    cbn [fst snd]. split; [reflexivity|]. split; [reflexivity|].
    now rewrite (events_since_app m _ [EvReqRecv 511 ret]).
  - intros Hsome. rewrite (settings_post_received w req m Hsome). cbn zeta.
    cbn [fst snd]. split; [reflexivity|].
    destruct (_ =? ESP_OK);
      rewrite (events_since_app m _
                 [EvReqRecv 511 (Z.of_nat (length (posted_bytes w req)));
                  EvRespSendstr settings_saved_html])
        by (cbn; now rewrite <- app_assoc);
      reflexivity.
Qed.

Lemma settings_post_outcome_witness :
  (settings_post_handler (good_world [Received [x78]]) (Request 1) idle).1
  = Returned ESP_OK /\
  (settings_post_handler (good_world []) (Request 1) idle).1
  = Returned ESP_FAIL.
Proof.
  split.
  - apply (settings_post_outcome (good_world [Received [x78]]) (Request 1) idle).
    discriminate.
  - apply (settings_post_outcome (good_world []) (Request 1) idle). reflexivity.
Defined.

(** X15.  Whatever is posted, [settings_post_handler] changes at most the
    NVS entry ["serial_nbr"]: every other entry of the name space, the boot
    partition, the open OTA handles and the listener are as before. *)
Theorem settings_post_changes_serial_only (w : world) (req : httpd_req_t)
    (m : machine) :
  let r := settings_post_handler w req m in
  (forall key, key <> "serial_nbr"%string -> nvs r.2 !! key = nvs m !! key) /\
  boot_partition r.2 = boot_partition m /\
  ota_entries r.2 = ota_entries m /\
  server r.2 = server m.
Proof.
  cbn zeta.
  destruct (decide (posted_bytes w req = [])) as [Hnone|Hsome].
  - destruct (settings_post_nothing w req m Hnone) as [ret ->]. now cbn.
  - rewrite (settings_post_received w req m Hsome). cbn zeta.
    destruct (_ =? ESP_OK); cbn; [|now auto].
    repeat split. intros key Hkey. now apply nvs_other_keys.
Qed.

Lemma settings_post_changes_serial_only_witness :
  boot_partition
    (settings_post_handler
       (good_world [Received (String.list_byte_of_string "serial=5")])
       (Request 8) idle).2
  = boot_partition idle.
Proof.
  apply (settings_post_changes_serial_only
           (good_world [Received (String.list_byte_of_string "serial=5")])
           (Request 8) idle).
Defined.

(** What [httpd_query_key_value] makes of a single pair [key=value]. *)
Lemma query_other_key (k v : list byte) :
  Forall (fun c => Byte.eqb c x3d = false) k ->
  Forall (fun c => Byte.eqb c x26 = false) v ->
  strncasecmp_eq k (String.list_byte_of_string "serial") = false ->
  (httpd_query_key_value (k ++ x3d :: v)
     (String.list_byte_of_string "serial") 64).1
  = ESP_ERR_NOT_FOUND.
Proof.
  intros Hk Hv Hne. unfold httpd_query_key_value.
  rewrite length_app. cbn [length]. rewrite Nat.add_succ_r.
  cbn [query_key_value_loop].
  destruct (k ++ x3d :: v) as [|c qry] eqn:Hq;
    [now destruct k|]. rewrite <- Hq.
  rewrite (strchr_first k v x3d Hk).
  rewrite take_app_length, Hne. cbn [negb]. rewrite orb_true_r.
  rewrite drop_app_length.
  replace (strchr (x3d :: v) x26) with (@None nat); [reflexivity|].
  cbn. now rewrite (strchr_absent v x26 Hv).
Qed.

Lemma query_serial_long (value : list byte) :
  Forall (fun c => Byte.eqb c x26 = false) value ->
  (64 <= length value)%nat ->
  (httpd_query_key_value (serial_body value)
     (String.list_byte_of_string "serial") 64).1
  = ESP_ERR_HTTPD_RESULT_TRUNC.
Proof.
  intros Hamp Hlen. unfold httpd_query_key_value, serial_body.
  change (length (String.list_byte_of_string "serial=" ++ value))
    with (S (6 + length value)).
  rewrite (query_key_value_hit _ _ _ _ 6);
    [|discriminate|reflexivity|reflexivity|reflexivity].
  change (drop 7 (String.list_byte_of_string "serial=" ++ value)) with value.
  cbn zeta. rewrite (strchr_absent value x26 Hamp). cbn [default fst].
  destruct (64 <? S (length value))%nat eqn:Hlt; [reflexivity|].
  apply Nat.ltb_ge in Hlt. lia.
Qed.

(** X16.  A form that carries another field than
    [serial] (compared without regard to case) stores nothing; the answer is
    the "Settings Saved" page all the same. *)
Theorem settings_post_other_key_ignored (w : world) (req : httpd_req_t)
    (m : machine) (k v : list byte) :
  posted_bytes w req = k ++ x3d :: v ->
  plain k -> plain v ->
  Forall (fun c => Byte.eqb c x3d = false) k ->
  strncasecmp_eq k (String.list_byte_of_string "serial") = false ->
  settings_post_handler w req m
  = (Returned ESP_OK,
     httpd_resp_sendstr settings_saved_html
       (emit (EvReqRecv 511 (Z.of_nat (length (k ++ x3d :: v)))) m)).
Proof.
  intros Hposted [Hk0 _] [Hv0 Hvamp] Hkeq Hne.
  pose proof (posted_body w req (k ++ x3d :: v) Hposted) as Hstr.
  rewrite settings_post_received by (rewrite Hposted; now destruct k).
  cbn zeta. rewrite Hstr, Hposted.
  2:{ apply Forall_app. split; [exact Hk0|]. now constructor. }
  now rewrite (query_other_key k v Hkeq Hvamp Hne).
Qed.

Lemma settings_post_other_key_ignored_witness :
  nvs (settings_post_handler
         (good_world [Received (String.list_byte_of_string "name=7")])
         (Request 6) idle).2 = nvs idle.
Proof.
  rewrite (settings_post_other_key_ignored
             (good_world [Received (String.list_byte_of_string "name=7")])
             (Request 6) idle (String.list_byte_of_string "name") [x37]).
  - reflexivity.
  - reflexivity.
  - split; repeat constructor.
  - split; repeat constructor.
  - repeat constructor.
  - reflexivity.
Defined.

(** X17.  A value of 64 characters or more does not fit
    [char value[64]]: [httpd_query_key_value] reports the truncation, the
    handler takes that as "no serial given" and stores nothing, and answers
    "Settings Saved". *)
Theorem settings_post_long_value_dropped (w : world) (req : httpd_req_t)
    (m : machine) (value : list byte) :
  posted_bytes w req = serial_body value ->
  (64 <= length value)%nat ->
  plain value ->
  settings_post_handler w req m
  = (Returned ESP_OK,
     httpd_resp_sendstr settings_saved_html
       (emit (EvReqRecv 511 (Z.of_nat (length (serial_body value)))) m)).
Proof.
  intros Hposted Hlong [Hnul Hamp].
  pose proof (posted_body w req (serial_body value) Hposted) as Hstr.
  rewrite settings_post_received by (rewrite Hposted; discriminate).
  cbn zeta. rewrite Hstr, Hposted.
  2:{ apply Forall_app. split; [repeat constructor | exact Hnul]. }
  now rewrite (query_serial_long value Hamp Hlong).
Qed.

Lemma settings_post_long_value_dropped_witness :
  nvs (settings_post_handler
         (good_world [Received (serial_body (repeat x30 63 ++ [x37]))])
         (Request 71) idle).2 = nvs idle.
Proof.
  rewrite (settings_post_long_value_dropped
             (good_world [Received (serial_body (repeat x30 63 ++ [x37]))])
             (Request 71) idle (repeat x30 63 ++ [x37])).
  - reflexivity.
  - reflexivity.
  - vm_compute. lia.
  - split; vm_compute; repeat constructor.
Defined.

(** A posted [serial=<value>] with a value that fits: [set_serial_nbr] is
    called with what [atol] makes of the value. *)
Lemma settings_post_serial_value (w : world) (req : httpd_req_t) (m : machine)
    (value : list byte) :
  posted_bytes w req = serial_body value ->
  (length value <= 63)%nat -> plain value ->
  settings_post_handler w req m
  = (Returned ESP_OK,
     httpd_resp_sendstr settings_saved_html
       (set_serial_nbr w (to_size_t (atol value))
          (emit (EvReqRecv 511 (Z.of_nat (length (serial_body value)))) m))).
Proof.
  intros Hposted Hlen [Hnul Hamp].
  pose proof (posted_body w req (serial_body value) Hposted) as Hstr.
  rewrite settings_post_received by (rewrite Hposted; discriminate).
  cbn zeta. rewrite Hstr, Hposted.
  2:{ apply Forall_app. split; [repeat constructor | exact Hnul]. }
  unfold serial_body at 1 2.
  rewrite (query_serial value Hamp Hlen). cbn [fst snd].
  now replace (ESP_OK =? ESP_OK) with true by reflexivity.
Qed.

(** After such a POST the name space is what [set_serial_nbr] has made of
    it, and a healthy NVS reads the number back. *)
Lemma settings_post_serial_stored (w : world) (req : httpd_req_t) (m : machine)
    (value : list byte) :
  posted_bytes w req = serial_body value ->
  (length value <= 63)%nat -> plain value ->
  let r := settings_post_handler w req m in
  nvs r.2
  = Settings.set_serial_nbr (nvs_answers w) (to_size_t (atol value)) (nvs m) /\
  (nvs_healthy (nvs_answers w) ->
   get_serial_nbr w r.2 = to_size_t (atol value)).
Proof.
  intros Hposted Hlen Hplain.
  rewrite (settings_post_serial_value w req m value Hposted Hlen Hplain).
  cbn zeta. split; [reflexivity|].
  intros Hnvs. unfold get_serial_nbr, set_serial_nbr. cbn.
  rewrite (nvs_read_back _ _ _ _ Hnvs Hnvs).
  unfold to_size_t. now rewrite Z.mod_mod by lia.
Qed.

Lemma atol_decimal_clamped (v : Z) : atol (decimal v) = clamp_long v.
Proof.
  unfold atol, decimal, clamp_long.
  destruct (decimal_digits_shape (S (Z.to_nat (Z.log2 (Z.abs v)))) (Z.abs v) []
              ltac:(lia)) as (ds & Hds & Hall & _ & Hne).
  pose proof (strtol_decimal_digits (S (Z.to_nat (Z.log2 (Z.abs v)))) (Z.abs v) []
                ltac:(split; [lia | apply decimal_fuel; lia])) as Hval.
  cbn [strtol_digits] in Hval.
  rewrite app_nil_r in Hds.
  destruct (v <? 0) eqn:Hneg.
  - apply Z.ltb_lt in Hneg.
    cbn [skip_spaces]. replace (isspace x2d) with false by reflexivity.
    replace (Byte.eqb x2d x2d) with true by reflexivity.
    rewrite Hval. f_equal. f_equal. lia.
  - apply Z.ltb_ge in Hneg.
    rewrite Hds in Hval |- *.
    destruct ds as [|c ds]; [now specialize (Hne ltac:(discriminate))|].
    apply Forall_cons in Hall as [Hc _].
    destruct (isdigit_plain c Hc) as (Hsp & Hminus & Hplus & _).
    cbn [skip_spaces]. rewrite Hsp, Hminus, Hplus, Hval.
    f_equal. f_equal. lia.
Qed.

(** X18.  The serial number goes through [atol]: for a posted numeral
    outside [long], [set_serial_nbr] is called with the nearest bound, and
    that is what a healthy NVS holds afterwards.  So no serial number above
    2147483647 can be entered as such, although the store holds a
    [uint32_t]. *)
Theorem settings_post_clamps_serial (w : world) (req : httpd_req_t)
    (m : machine) (v : Z) :
  posted_bytes w req = serial_body (decimal v) ->
  (length (decimal v) <= 63)%nat ->
  let r := settings_post_handler w req m in
  nvs r.2
  = Settings.set_serial_nbr (nvs_answers w) (to_size_t (clamp_long v)) (nvs m)
  /\
  (nvs_healthy (nvs_answers w) ->
   get_serial_nbr w r.2 = to_size_t (clamp_long v)).
Proof.
  intros Hposted Hlen.
  destruct (decimal_chars v) as (Hamp & Hnul & _).
  pose proof (settings_post_serial_stored w req m (decimal v) Hposted Hlen
                ltac:(split; assumption)) as Hstored.
  now rewrite atol_decimal_clamped in Hstored.
Qed.

Lemma settings_post_clamps_serial_witness :
  get_serial_nbr (good_world [])
    (settings_post_handler
       (good_world [Received (serial_body (decimal 4000000000))])
       (Request 17) idle).2
  = 2147483647.
Proof.
  destruct (settings_post_clamps_serial
              (good_world [Received (serial_body (decimal 4000000000))])
              (Request 17) idle 4000000000) as [_ Hread].
  - reflexivity.
  - vm_compute. lia.
  - apply Hread. repeat split.
Defined.

(** X19.  A value that does not start like a number (no white space, sign
    or digit in front, or no character at all) is read as 0 by [atol]:
    [set_serial_nbr] is called with 0, and under a healthy NVS 0 replaces
    the stored serial number. *)
Theorem settings_post_not_a_number_stores_zero (w : world) (req : httpd_req_t)
    (m : machine) (value : list byte) :
  posted_bytes w req = serial_body value ->
  (length value <= 63)%nat -> plain value ->
  match value with
  | [] => True
  | c :: _ =>
      isspace c = false /\ isdigit c = false /\
      Byte.eqb c x2d = false /\ Byte.eqb c x2b = false
  end ->
  let r := settings_post_handler w req m in
  nvs r.2 = Settings.set_serial_nbr (nvs_answers w) 0 (nvs m) /\
  (nvs_healthy (nvs_answers w) -> get_serial_nbr w r.2 = 0).
Proof.
  intros Hposted Hlen Hplain Hstart.
  pose proof (settings_post_serial_stored w req m value Hposted Hlen Hplain)
    as Hstored.
  assert (Hatol : atol value = 0).
  { unfold atol. destruct value as [|c rest]; [reflexivity|].
    destruct Hstart as (Hsp & Hdig & Hminus & Hplus).
    cbn [skip_spaces]. rewrite Hsp, Hminus, Hplus.
    cbn [strtol_digits]. now rewrite Hdig. }
  now rewrite Hatol in Hstored.
Qed.

Lemma settings_post_not_a_number_stores_zero_witness :
  get_serial_nbr (good_world [])
    (settings_post_handler
       (good_world [Received (serial_body (String.list_byte_of_string "x12"))])
       (Request 10) (set_serial_nbr (good_world []) 77 idle)).2
  = 0.
Proof.
  destruct (settings_post_not_a_number_stores_zero
              (good_world
                 [Received (serial_body (String.list_byte_of_string "x12"))])
              (Request 10) (set_serial_nbr (good_world []) 77 idle)
              (String.list_byte_of_string "x12")) as [_ Hread].
  - reflexivity.
  - vm_compute. lia.
  - split; repeat constructor.
  - repeat split.
  - apply Hread. repeat split.
Defined.

(** X20.  The 4096 bytes that [settings_get_handler]
    allocates hold the page for every stored serial number: with memory
    available the response is the whole page, never a cut one, and the
    handler changes nothing but the trace. *)
Theorem settings_get_page_is_whole (w : world) (m : machine) :
  malloc_fails w = false ->
  settings_get_handler w m
  = (Returned ESP_OK,
     emit (EvRespSendstr
             (String.string_of_list_byte
                (settings_page (decimal (to_int (get_serial_nbr w m)))))) m).
Proof.
  intros Hmalloc. unfold settings_get_handler. rewrite Hmalloc.
  pose proof (to_int_range (get_serial_nbr w m)) as Hrange.
  pose proof (decimal_length_long (to_int (get_serial_nbr w m))
                ltac:(unfold LONG_MIN, LONG_MAX; lia)) as Hlen.
  rewrite take_ge; [reflexivity|].
  unfold settings_page. rewrite !length_app.
  change (length (String.list_byte_of_string settings_html_1)) with 707%nat.
  change (length (String.list_byte_of_string settings_html_2)) with 333%nat.
  change (length (String.list_byte_of_string settings_html_3)) with 403%nat.
  lia.
Qed.

Lemma settings_get_page_is_whole_witness :
  (settings_get_handler (good_world []) idle).1 = Returned ESP_OK.
Proof.
  now rewrite (settings_get_page_is_whole (good_world []) idle eq_refl).
Defined.

(** ** The access point's name *)

Lemma format_02X_injective (a b : byte) : format_02X a = format_02X b -> a = b.
Proof.
  intros Heq.
  destruct (format_02X_decode a) as (h1 & h2 & Ha & _ & <- & _).
  destruct (format_02X_decode b) as (k1 & k2 & Hb & _ & <- & _).
  rewrite Ha, Hb in Heq. now injection Heq as -> ->.
Qed.

(** What [wifi_init_softap] leaves in [ssid] and hands to the driver. *)
Lemma wifi_init_softap_result (mac : list byte) :
  let name := String.list_byte_of_string "OTA-Demo-" ++
              format_02X (mac_byte mac 3) ++ format_02X (mac_byte mac 4) ++
              format_02X (mac_byte mac 5) in
  exists st cfg,
    wifi_init_softap mac wifi_statics_init = Some (st, cfg) /\
    get_ssid st = name /\
    ap_ssid cfg = resize 32 x00 name /\
    ap_ssid_len cfg = 15 /\
    ap_password cfg = resize 64 x00 (String.list_byte_of_string "password") /\
    ap_authmode cfg = WIFI_AUTH_WPA2_PSK.
Proof.
  cbn zeta.
  destruct (format_02X_decode (mac_byte mac 3))
    as (a1 & a2 & Ha & _ & _ & Ha1 & Ha2).
  destruct (format_02X_decode (mac_byte mac 4))
    as (b1 & b2 & Hb & _ & _ & Hb1 & Hb2).
  destruct (format_02X_decode (mac_byte mac 5))
    as (c1 & c2 & Hc & _ & _ & Hc1 & Hc2).
  unfold wifi_init_softap, snprintf. fold (mac_byte mac 3) (mac_byte mac 4)
    (mac_byte mac 5).
  change (format (String.list_byte_of_string "OTA-Demo-%02X%02X%02X")
            [ArgByte (mac_byte mac 3); ArgByte (mac_byte mac 4);
             ArgByte (mac_byte mac 5)])
    with (Some (String.list_byte_of_string "OTA-Demo-" ++
                format_02X (mac_byte mac 3) ++ format_02X (mac_byte mac 4) ++
                format_02X (mac_byte mac 5))).
  rewrite Ha, Hb, Hc.
  eexists _, _. split; [reflexivity|].
  unfold get_ssid, strncpy, strlen. cbn [ssid password wifi_statics_init].
  cbn. rewrite !Ha1, !Ha2, !Hb1, !Hb2, !Hc1, !Hc2. cbn.
  repeat split.
Qed.

(** X25.  For every MAC address, [wifi_init_softap] names the
    access point ["OTA-Demo-"] followed by the last three MAC bytes in
    upper-case hexadecimal.  The 15 characters fit [ssid[32]] uncut; the
    driver gets them padded with NULs and [ssid_len = 15].  The WPA2
    passphrase handed to the driver is the built-in ["password"] on every
    device. *)
Theorem softap_name_and_passphrase (mac : list byte) :
  exists st cfg,
    wifi_init_softap mac wifi_statics_init = Some (st, cfg) /\
    get_ssid st
    = String.list_byte_of_string "OTA-Demo-" ++
      format_02X (mac_byte mac 3) ++ format_02X (mac_byte mac 4) ++
      format_02X (mac_byte mac 5) /\
    ap_ssid cfg = resize 32 x00 (get_ssid st) /\
    ap_ssid_len cfg = 15 /\
    ap_password cfg = resize 64 x00 (String.list_byte_of_string "password") /\
    ap_authmode cfg = WIFI_AUTH_WPA2_PSK.
Proof.
  destruct (wifi_init_softap_result mac)
    as (st & cfg & Hrun & Hname & Hssid & Hlen & Hpass & Hauth).
  exists st, cfg. rewrite Hname. repeat split; assumption.
Qed.

(** X26.  Two devices get the same access-point name exactly
    when their MAC addresses agree in the last three bytes. *)
Theorem softap_name_identifies_mac_tail (mac mac' : list byte)
    (st st' : wifi_statics) (cfg cfg' : wifi_ap_config_t) :
  length mac = 6%nat -> length mac' = 6%nat ->
  wifi_init_softap mac wifi_statics_init = Some (st, cfg) ->
  wifi_init_softap mac' wifi_statics_init = Some (st', cfg') ->
  get_ssid st = get_ssid st' <-> drop 3 mac = drop 3 mac'.
Proof.
  intros Hlen Hlen' Hrun Hrun'.
  destruct (wifi_init_softap_result mac) as (s & c & Hr & Hname & _).
  destruct (wifi_init_softap_result mac') as (s' & c' & Hr' & Hname' & _).
  rewrite Hrun in Hr. rewrite Hrun' in Hr'.
  injection Hr as <- <-. injection Hr' as <- <-.
  rewrite Hname, Hname'.
  destruct mac as [|m0 [|m1 [|m2 [|m3 [|m4 [|m5 [|]]]]]]]; try discriminate Hlen.
  destruct mac' as [|n0 [|n1 [|n2 [|n3 [|n4 [|n5 [|]]]]]]];
    try discriminate Hlen'.
  cbn [drop mac_byte lookup list_lookup default].
  change (mac_byte ?l ?i) with (default x00 (l !! i)). cbn [lookup list_lookup default].
  split.
  - intros Heq. apply app_inv_head in Heq.
    cbn [format_02X app] in Heq.
    injection Heq as H1 H2 H3 H4 H5 H6.
    rewrite (format_02X_injective m3 n3), (format_02X_injective m4 n4),
      (format_02X_injective m5 n5); [reflexivity|..];
      unfold format_02X; congruence.
  - now intros [= -> -> ->].
Qed.

Lemma softap_name_identifies_mac_tail_witness :
  exists st st',
    fst <$> wifi_init_softap sample_mac wifi_statics_init = Some st /\
    fst <$> wifi_init_softap [x00; x11; x22; x1f; x00; xbe] wifi_statics_init
    = Some st' /\
    get_ssid st = get_ssid st'.
Proof.
  destruct (wifi_init_softap sample_mac wifi_statics_init)
    as [[st cfg]|] eqn:Hrun; [|discriminate Hrun].
  destruct (wifi_init_softap [x00; x11; x22; x1f; x00; xbe] wifi_statics_init)
    as [[st' cfg']|] eqn:Hrun'; [|discriminate Hrun'].
  exists st, st'. split; [reflexivity|]. split; [reflexivity|].
  now apply (softap_name_identifies_mac_tail sample_mac
               [x00; x11; x22; x1f; x00; xbe] st st' cfg cfg'
               eq_refl eq_refl Hrun Hrun').
Defined.

(** ** The static pages *)

Lemma format_length (n : nat) :
  forall (fmt : list byte) (args : list printf_arg) (out : list byte),
    (length fmt <= n)%nat ->
    format fmt args = Some out ->
    length out = format_size fmt (arg_size <$> args).
Proof.
  induction n as [|n IH]; intros fmt args out Hn.
  - destruct fmt; [|cbn in Hn; lia]. cbn. now intros [= <-].
  - destruct fmt as [|c rest]; [cbn; now intros [= <-]|].
    cbn [length] in Hn. cbn [format format_size].
    assert (Hplain : forall s b a,
              (length s <= n)%nat ->
              cons b <$> format s a = Some out ->
              length out = S (format_size s (arg_size <$> a))).
    { intros s b a Hs Hout.
      destruct (format s a) as [o|] eqn:Ho; [|discriminate Hout].
      injection Hout as <-. cbn [length]. f_equal. now apply (IH s a). }
    assert (Hconv : forall s t a,
              (length s <= n)%nat ->
              app t <$> format s a = Some out ->
              length out = (length t + format_size s (arg_size <$> a))%nat).
    { intros s t a Hs Hout.
      destruct (format s a) as [o|] eqn:Ho; [|discriminate Hout].
      injection Hout as <-. rewrite length_app. f_equal. now apply (IH s a). }
    destruct (Byte.eqb c x25); cbn [negb]; [|apply Hplain; lia].
    destruct rest as [|c1 rest1]; [discriminate|]. cbn [length] in Hn.
    destruct (Byte.eqb c1 x25); [apply Hplain; lia|].
    destruct (Byte.eqb c1 x73).
    { destruct args as [|[s|v|b] args]; try discriminate.
      cbn [fmap list_fmap arg_size]. apply Hconv. lia. }
    destruct rest1 as [|c2 rest2]; [discriminate|]. cbn [length] in Hn.
    destruct (Byte.eqb c1 x6c && Byte.eqb c2 x64).
    { destruct args as [|[s|v|b] args]; try discriminate.
      cbn [fmap list_fmap arg_size]. apply Hconv. lia. }
    destruct rest2 as [|c3 rest3]; [discriminate|]. cbn [length] in Hn.
    destruct (Byte.eqb c1 x30 && Byte.eqb c2 x32 && Byte.eqb c3 x58);
      [|discriminate].
    destruct args as [|[s|v|b] args]; try discriminate.
    cbn [fmap list_fmap arg_size]. apply (Hconv rest3 (format_02X b)). lia.
Qed.

(** X27.  The 1024 bytes of [html_response] hold the root page
    for every application description that fits its own arrays: the
    response is the whole formatted page, 723 characters and the three
    strings, never a cut one. *)
Theorem root_page_is_whole (app : esp_app_desc_t) (m : machine) :
  app_desc_ok app ->
  exists page,
    format (String.list_byte_of_string root_html)
      [ArgStr (version app); ArgStr (date app); ArgStr (time app)] = Some page /\
    length page
    = (723 + length (version app) + length (date app) + length (time app))%nat /\
    root_get_handler app m
    = (Returned ESP_OK, emit (EvRespSendstr (String.string_of_list_byte page)) m).
Proof.
  intros (Hv & _ & Ht & Hd).
  unfold root_get_handler, snprintf.
  destruct app as [v p t d]. cbn [version project_name time date] in *.
  destruct (format (String.list_byte_of_string root_html)
              [ArgStr v; ArgStr d; ArgStr t]) as [page|] eqn:Hpage.
  2:{ vm_compute in Hpage. discriminate Hpage. }
  pose proof (format_length _ _ _ _ (le_n _) Hpage) as Hlen.
  cbn [fmap list_fmap arg_size] in Hlen.
  assert (Hsize : forall a b c,
            format_size (String.list_byte_of_string root_html) [a; b; c]
            = (723 + a + b + c)%nat).
  { intros a b c. cbv -[Nat.add]. lia. }
  rewrite Hsize in Hlen.
  exists page. split; [reflexivity|]. split; [exact Hlen|].
  cbn [fmap option_fmap option_map]. now rewrite take_ge by lia.
Qed.

Lemma root_page_is_whole_witness :
  (root_get_handler sample_app idle).1 = Returned ESP_OK.
Proof.
  destruct (root_page_is_whole sample_app idle) as (page & _ & _ & ->).
  - vm_compute. repeat split; lia.
  - reflexivity.
Defined.

(** X28.  The 2048 bytes that [firmware_get_handler]
    allocates hold the upload page for every application description that
    fits its own arrays; without memory the handler fails and sends
    nothing. *)
Theorem firmware_page_is_whole (w : world) (app : esp_app_desc_t) (m : machine) :
  app_desc_ok app ->
  if malloc_fails w then firmware_get_handler w app m = (Returned ESP_FAIL, m)
  else
    exists page,
      format (String.list_byte_of_string firmware_html)
        [ArgStr (version app); ArgStr (project_name app);
         ArgStr (date app); ArgStr (time app)] = Some page /\
      length page
      = (1472 + length (version app) + length (project_name app)
         + length (date app) + length (time app))%nat /\
      firmware_get_handler w app m
      = (Returned ESP_OK,
         emit (EvRespSendstr (String.string_of_list_byte page)) m).
Proof.
  intros (Hv & Hp & Ht & Hd).
  unfold firmware_get_handler, snprintf.
  destruct (malloc_fails w); [reflexivity|].
  destruct app as [v p t d]. cbn [version project_name time date] in *.
  destruct (format (String.list_byte_of_string firmware_html)
              [ArgStr v; ArgStr p; ArgStr d; ArgStr t]) as [page|] eqn:Hpage.
  2:{ vm_compute in Hpage. discriminate Hpage. }
  pose proof (format_length _ _ _ _ (le_n _) Hpage) as Hlen.
  cbn [fmap list_fmap arg_size] in Hlen.
  assert (Hsize : forall a b c e,
            format_size (String.list_byte_of_string firmware_html) [a; b; c; e]
            = (1472 + a + b + c + e)%nat).
  { intros a b c e. cbv -[Nat.add]. lia. }
  rewrite Hsize in Hlen.
  exists page. split; [reflexivity|]. split; [exact Hlen|].
  cbn [fmap option_fmap option_map]. now rewrite take_ge by lia.
Qed.

Lemma firmware_page_is_whole_witness :
  (firmware_get_handler (good_world []) sample_app idle).1 = Returned ESP_OK.
Proof.
  destruct (firmware_page_is_whole (good_world []) sample_app idle)
    as (page & _ & _ & ->).
  - vm_compute. repeat split; lia.
  - reflexivity.
Defined.
